(** * FarDriver monitor: packet inspector, controller data and message handler

    A shallow embedding of the telemetry core of
    [pc_display/FarDriver_Monitor.py]: the [PacketInspector] class, the
    [ControllerData] class, the [message_handler] callback and the parts of
    [FarDriverMonitor.update_display] / [update_connection_buttons] that
    decide what the observers see; further the recorder
    ([start_recording], [stop_recording], [record_data_point]), the
    performance statistics, the battery bar, the [AnimatedGauge] animation,
    the terminal filter, and [parse_sabvoton_packet] of
    [ebike_data_parser/svmc_parser.py].

    Conventions of the embedding.
    - A received [bytearray] is a [list byte]; [data[i]] is a partial read
      ([idx]) that yields [None] where Python raises [IndexError], and every
      function that indexes the frame lives in the [option] monad.
    - Python [int] is [Z]; the shifts and masks of the source are
      [Z.shiftl], [Z.shiftr], [Z.lor], [Z.land], [Z.lxor].
    - Python [float] is idealised as a real number ([R]): [/] is real
      division, [x ** 0.5] is the real square root, comparisons are the real
      order.  Rounding is not modelled, except in the battery bar,
      whose thresholds are met by voltages that occur: there every float
      operation is followed by a rounding [rnd], and the properties hold
      for every rounding that is monotone, exact on the integers up to
      2^53 and on one half, and accurate to one part in 10^15.
    - A value stored in the controller data is a [pyval], an [int] or a
      [float], compared numerically as Python's [!=] does.
    - [time.time()] and [datetime.now().isoformat()] are inputs of the
      operations that read them.
    - What the file system does when a recording file is opened is an
      input of [start_recording]; the rows written to the file are kept in
      [csv_file].
    - [str.lower] is a parameter of the terminal filter.
    - The calls of [animate] that Tk schedules with [after] are the steps
      of [run_scheduled].
    - [log_to_terminal] and the widget updates only write to the screen and
      are left out. *)

From Stdlib Require Import ZArith Reals Lra Lia List Strings.String Strings.Ascii Strings.Byte.
From stdpp Require Import base decidable option list gmap strings.

Local Open Scope Z_scope.

(** ** Python values *)

Module Py.

#[global] Instance Rlt_decision : RelDecision Rlt := Rlt_dec.
#[global] Instance Req_decision : EqDecision R := Req_dec_T.
#[global] Instance byte_eq_decision : EqDecision byte := Byte.byte_eq_dec.

(** A number held by an attribute or a dictionary entry. *)
Inductive pyval : Type :=
| PInt (z : Z)
| PFloat (r : R).

(** The numeric value, as Python converts an [int] in float arithmetic. *)
Definition to_float (v : pyval) : R :=
  match v with
  | PInt z => IZR z
  | PFloat r => r
  end.

(** [a != b] on numbers: two ints are compared as ints, any other pair by
    numeric value. *)
Definition ne (a b : pyval) : bool :=
  match a, b with
  | PInt x, PInt y => negb (x =? y)
  | _, _ => bool_decide (to_float a ≠ to_float b)
  end.

(** [l[start:]] for a possibly negative [start]. *)
Definition slice_from {A : Type} (l : list A) (start : Z) : list A :=
  let n := Z.of_nat (length l) in
  let s := if start <? 0 then Z.max 0 (start + n) else Z.min start n in
  drop (Z.to_nat s) l.

(** [data[i]] on a byte sequence: the unsigned value of the byte, [None]
    for an index out of range. *)
Definition byte_val (b : byte) : Z := Z.of_N (Byte.to_N b).

Definition idx (data : list byte) (i : nat) : option Z :=
  byte_val <$> data !! i.

(** [f"{b:02X}"] for a byte value. *)
Definition hex_digit (n : Z) : ascii :=
  match n with
  | 0 => "0" | 1 => "1" | 2 => "2" | 3 => "3" | 4 => "4" | 5 => "5"
  | 6 => "6" | 7 => "7" | 8 => "8" | 9 => "9" | 10 => "A" | 11 => "B"
  | 12 => "C" | 13 => "D" | 14 => "E" | _ => "F"
  end%char.

Definition hex2 (b : Z) : string :=
  String (hex_digit (b / 16)) (String (hex_digit (b mod 16)) EmptyString).

(** [' '.join([f"{b:02X}" for b in data])] *)
Definition hex_dump (data : list byte) : string :=
  String.concat " " ((hex2 ∘ byte_val) <$> data).

(** [int(x)] on a float: truncation towards zero. *)
Definition int_of_float (r : R) : Z :=
  if bool_decide (0 <= r)%R then Int_part r else - Int_part (- r).

(** [max(1, x)] and [min(x, y)] on floats. *)
Definition float_max (x y : R) : R := if bool_decide (x < y)%R then y else x.
Definition float_min (x y : R) : R := if bool_decide (y < x)%R then y else x.

(** [needle in haystack] on strings. *)
Fixpoint str_contains (needle haystack : string) : bool :=
  String.prefix needle haystack
  || match haystack with
     | EmptyString => false
     | String _ rest => str_contains needle rest
     end.

End Py.

Import Py.

(** ** class PacketInspector *)

Module PacketInspector.

(** The dictionaries returned by the four payload parsers.  The source
    stores the currents, the voltage and the throttle percentage as
    formatted text ([f'{iq:.2f}A']); the model keeps the numbers that are
    formatted.  [data_bytes] keeps the bytes that the source renders in
    hexadecimal. *)
Record main_data : Type := MkMainData {
  gear_bits : Z;
  gear : string;
  rpm : Z;
  iq_current : R;
  id_current : R;
  current_magnitude : R;
  main_data_bytes : list (string * Z)
}.

Record voltage_data : Type := MkVoltageData {
  voltage_raw : Z;
  voltage : R;
  voltage_data_bytes : list (string * Z)
}.

Record controller_temp_data : Type := MkControllerTempData {
  temperature : Z;
  controller_temp_data_bytes : list (string * Z)
}.

Record motor_throttle_data : Type := MkMotorThrottleData {
  motor_temperature : Z;
  throttle_raw : Z;
  throttle_percent : R;
  motor_throttle_data_bytes : list (string * Z)
}.

Inductive parsed : Type :=
| MainData (d : main_data)
| VoltageData (d : voltage_data)
| ControllerTempData (d : controller_temp_data)
| MotorThrottleData (d : motor_throttle_data)
| UnknownIndex (index : Z).

(** The ['error'] entry of a rejected frame; the source renders it as
    ['Invalid packet length: n (expected 16)'] and
    ['Invalid header: 0xHH (expected 0xAA)']. *)
Inductive frame_error : Type :=
| InvalidPacketLength (len : nat)
| InvalidHeader (header : Z).

(** The dictionary built for an accepted frame (['valid': True]). *)
Record packet : Type := MkPacket {
  index : Z;
  raw_data : string;
  checksum_valid : bool;
  checksum : Z;
  expected_checksum : Z;
  reserved : Z;
  timestamp : string;
  parsed_data : parsed
}.

(** What [analyze_packet] returns: the short dictionary of a rejected
    frame (['valid': False]) or the full one. *)
Inductive packet_info : Type :=
| Invalid (error : frame_error) (raw : string)
| Valid (p : packet).

Definition valid (p : packet_info) : bool :=
  match p with
  | Invalid _ _ => false
  | Valid _ => true
  end.

Record t : Type := Mk {
  packet_history : list packet_info;
  max_history : nat;
  current_packet : option packet_info
}.

(** [__init__] *)
Definition init : t :=
  {| packet_history := []; max_history := 1000; current_packet := None |}.

(** [gear_map.get(gear_bits, 'Unknown')] *)
Definition gear_map (gear_bits : Z) : string :=
  match gear_bits with
  | 0 => "High"
  | 1 => "Mid"
  | 2 => "Low"
  | 3 => "Mid"
  | _ => "Unknown"
  end%string.

Definition _parse_main_data (data : list byte) : option main_data :=
  d2 ← idx data 2;
  let gear_bits := Z.land (Z.shiftr d2 2) 0x03 in
  let gear := gear_map gear_bits in
  d4 ← idx data 4;
  d5 ← idx data 5;
  let rpm := Z.lor (Z.shiftl d4 8) d5 in
  d8 ← idx data 8;
  d9 ← idx data 9;
  let iq := (IZR (Z.lor (Z.shiftl d8 8) d9) / 100)%R in
  d10 ← idx data 10;
  d11 ← idx data 11;
  let id := (IZR (Z.lor (Z.shiftl d10 8) d11) / 100)%R in
  let is_mag := sqrt (iq * iq + id * id) in
  Some {| gear_bits := gear_bits;
          gear := gear;
          rpm := rpm;
          iq_current := iq;
          id_current := id;
          current_magnitude := is_mag;
          main_data_bytes :=
            [("gear_byte", d2); ("rpm_high", d4); ("rpm_low", d5);
             ("iq_high", d8); ("iq_low", d9);
             ("id_high", d10); ("id_low", d11)]%string |}.

Definition _parse_voltage_data (data : list byte) : option voltage_data :=
  d2 ← idx data 2;
  d3 ← idx data 3;
  let voltage_raw := Z.lor (Z.shiftl d2 8) d3 in
  let voltage := (IZR voltage_raw / 10)%R in
  Some {| voltage_raw := voltage_raw;
          voltage := voltage;
          voltage_data_bytes :=
            [("voltage_high", d2); ("voltage_low", d3)]%string |}.

Definition _parse_controller_temp_data (data : list byte)
  : option controller_temp_data :=
  temp ← idx data 2;
  Some {| temperature := temp;
          controller_temp_data_bytes := [("temp_byte", temp)]%string |}.

Definition _parse_motor_throttle_data (data : list byte)
  : option motor_throttle_data :=
  motor_temp ← idx data 2;
  d4 ← idx data 4;
  d5 ← idx data 5;
  let throttle_raw := Z.lor (Z.shiftl d4 8) d5 in
  let throttle_percent := (IZR throttle_raw / 4095 * 100)%R in
  Some {| motor_temperature := motor_temp;
          throttle_raw := throttle_raw;
          throttle_percent := throttle_percent;
          motor_throttle_data_bytes :=
            [("motor_temp", motor_temp); ("throttle_high", d4);
             ("throttle_low", d5)]%string |}.

(** [for i in range(1, 14): expected_checksum ^= data[i]], over the list of
    indices still to visit. *)
Fixpoint xor_loop (data : list byte) (range : list nat) (acc : Z) : option Z :=
  match range with
  | [] => Some acc
  | i :: range' => d ← idx data i; xor_loop data range' (Z.lxor acc d)
  end.

(** The [if index == 0: ... elif ... else ...] chain of [analyze_packet]. *)
Definition parse_by_index (data : list byte) (index : Z) : option parsed :=
  if index =? 0 then MainData <$> _parse_main_data data
  else if index =? 1 then VoltageData <$> _parse_voltage_data data
  else if index =? 4 then ControllerTempData <$> _parse_controller_temp_data data
  else if index =? 13 then MotorThrottleData <$> _parse_motor_throttle_data data
  else Some (UnknownIndex index).

(** The block [# Store in history] that ends [analyze_packet]: append,
    [pop(0)] when the history has outgrown [max_history], and remember the
    packet as [current_packet]. *)
Definition store_in_history (self : t) (packet_info : packet_info) : t :=
  let history := packet_history self ++ [packet_info] in
  let history :=
    if bool_decide (max_history self < length history)%nat
    then tail history else history in
  {| packet_history := history;
     max_history := max_history self;
     current_packet := Some packet_info |}.

(** [analyze_packet(self, data)]; [now] is [datetime.now().isoformat()].
    The result is the returned dictionary and the inspector after the call;
    [None] is an [IndexError]. *)
Definition analyze_packet (self : t) (data : list byte) (now : string)
  : option (packet_info * t) :=
  if bool_decide (length data < 16)%nat then
    Some (Invalid (InvalidPacketLength (length data)) (hex_dump data), self)
  else
    d0 ← idx data 0;
    if bool_decide (d0 ≠ 0xAA) then
      Some (Invalid (InvalidHeader d0) (hex_dump data), self)
    else
      index ← idx data 1;
      checksum ← idx data 14;
      reserved ← idx data 15;
      expected_checksum ← xor_loop data (seq 1 13) 0;
      parsed_data ← parse_by_index data index;
      let packet_info :=
        Valid {| index := index;
                 raw_data := hex_dump data;
                 checksum_valid := checksum =? expected_checksum;
                 checksum := checksum;
                 expected_checksum := expected_checksum;
                 reserved := reserved;
                 timestamp := now;
                 parsed_data := parsed_data |} in
      Some (packet_info, store_in_history self packet_info).

(** [analyze_packet] called on each frame of a sequence in turn, every
    frame with the clock text of its arrival: the dictionaries returned, in
    arrival order, and the inspector at the end. *)
Fixpoint analyze_all (self : t) (frames : list (list byte * string))
  : option (list packet_info * t) :=
  match frames with
  | [] => Some ([], self)
  | (data, now) :: frames' =>
      '(info, self) ← analyze_packet self data now;
      '(infos, self) ← analyze_all self frames';
      Some (info :: infos, self)
  end.

(** The dictionary returned by [get_packet_statistics] on a non-empty
    history. *)
Record statistics : Type := MkStatistics {
  total_packets : Z;
  valid_packets : Z;
  checksum_errors : Z;
  index_distribution : gmap Z Z;
  error_rate : pyval
}.

(** One round of the [for packet in self.packet_history] loop, on the pair
    [(index_counts, checksum_errors)]. *)
Definition statistics_step (acc : gmap Z Z * Z) (p : packet_info) : gmap Z Z * Z :=
  match p with
  | Valid pk =>
      let index_counts := <[index pk := default 0 (acc.1 !! index pk) + 1]> acc.1 in
      (index_counts, if checksum_valid pk then acc.2 else acc.2 + 1)
  | Invalid _ _ => acc
  end.

(** [get_packet_statistics(self)]; [None] is the empty dictionary [{}]. *)
Definition get_packet_statistics (self : t) : option statistics :=
  match packet_history self with
  | [] => None
  | _ =>
      let total_packets := Z.of_nat (length (packet_history self)) in
      let '(index_counts, checksum_errors) :=
        foldl statistics_step (∅, 0) (packet_history self) in
      Some {| total_packets := total_packets;
              valid_packets :=
                Z.of_nat (length (filter (λ p, valid p = true) (packet_history self)));
              checksum_errors := checksum_errors;
              index_distribution := index_counts;
              error_rate :=
                if 0 <? total_packets
                then PFloat (IZR checksum_errors / IZR total_packets)
                else PInt 0 |}
  end.

(** Vocabulary for the statistics: a stored dictionary of an accepted frame
    whose checksum flag is false, and one whose type index is [i]. *)
Definition checksum_error (p : packet_info) : bool :=
  match p with
  | Valid pk => negb (checksum_valid pk)
  | Invalid _ _ => false
  end.

Definition has_index (i : Z) (p : packet_info) : bool :=
  match p with
  | Valid pk => index pk =? i
  | Invalid _ _ => false
  end.

(** [get_recent_packets(self, count=10)] *)
Definition get_recent_packets (self : t) (count : Z) : list packet_info :=
  match packet_history self with
  | [] => []
  | _ => slice_from (packet_history self) (- count)
  end.

End PacketInspector.

(** ** class ControllerData *)

Module ControllerData.

(** One entry of [recorded_data]; the row written to the CSV file holds the
    same eleven values in the same order. *)
Record data_point : Type := MkDataPoint {
  dp_timestamp : string;
  dp_throttle : pyval;
  dp_gear : pyval;
  dp_rpm : pyval;
  dp_controller_temp : pyval;
  dp_motor_temp : pyval;
  dp_speed : pyval;
  dp_power : pyval;
  dp_voltage : pyval;
  dp_packet_count : Z;
  dp_latency : R
}.

(** The attributes of the object.  [csv_file] is [None] while no file is
    open and otherwise holds the rows written after the header (it stands
    for both [csv_file] and [csv_writer], which are set and cleared
    together). *)
Record t : Type := Mk {
  throttle : pyval;
  gear : pyval;
  rpm : pyval;
  controller_temp : pyval;
  motor_temp : pyval;
  speed : pyval;
  power : pyval;
  voltage : pyval;
  last_update : R;
  _last_values : gmap string pyval;
  _has_changes : bool;
  recording : bool;
  recorded_data : list data_point;
  csv_file : option (list data_point);
  recording_start_time : option R;
  packet_count : Z;
  packet_errors : Z;
  last_packet_time : R;
  avg_latency : R;
  latency_samples : list R
}.

(** [__init__]; [now] is [time.time()]. *)
Definition init (now : R) : t :=
  {| throttle := PInt 0; gear := PInt 0; rpm := PInt 0;
     controller_temp := PInt 0; motor_temp := PInt 0;
     speed := PInt 0; power := PInt 0; voltage := PInt 0;
     last_update := now;
     _last_values := ∅;
     _has_changes := false;
     recording := false;
     recorded_data := [];
     csv_file := None;
     recording_start_time := None;
     packet_count := 0;
     packet_errors := 0;
     last_packet_time := 0;
     avg_latency := 0;
     latency_samples := [] |}.

(** Attribute assignments [self.x = v]. *)
Definition set_throttle (v : pyval) (self : t) : t :=
  let 'Mk _ a2 a3 a4 a5 a6 a7 a8 a9 a10 a11 a12 a13 a14 a15 a16 a17 a18 a19 a20 := self in
  Mk v a2 a3 a4 a5 a6 a7 a8 a9 a10 a11 a12 a13 a14 a15 a16 a17 a18 a19 a20.
Definition set_gear (v : pyval) (self : t) : t :=
  let 'Mk a1 _ a3 a4 a5 a6 a7 a8 a9 a10 a11 a12 a13 a14 a15 a16 a17 a18 a19 a20 := self in
  Mk a1 v a3 a4 a5 a6 a7 a8 a9 a10 a11 a12 a13 a14 a15 a16 a17 a18 a19 a20.
Definition set_rpm (v : pyval) (self : t) : t :=
  let 'Mk a1 a2 _ a4 a5 a6 a7 a8 a9 a10 a11 a12 a13 a14 a15 a16 a17 a18 a19 a20 := self in
  Mk a1 a2 v a4 a5 a6 a7 a8 a9 a10 a11 a12 a13 a14 a15 a16 a17 a18 a19 a20.
Definition set_controller_temp (v : pyval) (self : t) : t :=
  let 'Mk a1 a2 a3 _ a5 a6 a7 a8 a9 a10 a11 a12 a13 a14 a15 a16 a17 a18 a19 a20 := self in
  Mk a1 a2 a3 v a5 a6 a7 a8 a9 a10 a11 a12 a13 a14 a15 a16 a17 a18 a19 a20.
Definition set_motor_temp (v : pyval) (self : t) : t :=
  let 'Mk a1 a2 a3 a4 _ a6 a7 a8 a9 a10 a11 a12 a13 a14 a15 a16 a17 a18 a19 a20 := self in
  Mk a1 a2 a3 a4 v a6 a7 a8 a9 a10 a11 a12 a13 a14 a15 a16 a17 a18 a19 a20.
Definition set_speed (v : pyval) (self : t) : t :=
  let 'Mk a1 a2 a3 a4 a5 _ a7 a8 a9 a10 a11 a12 a13 a14 a15 a16 a17 a18 a19 a20 := self in
  Mk a1 a2 a3 a4 a5 v a7 a8 a9 a10 a11 a12 a13 a14 a15 a16 a17 a18 a19 a20.
Definition set_power (v : pyval) (self : t) : t :=
  let 'Mk a1 a2 a3 a4 a5 a6 _ a8 a9 a10 a11 a12 a13 a14 a15 a16 a17 a18 a19 a20 := self in
  Mk a1 a2 a3 a4 a5 a6 v a8 a9 a10 a11 a12 a13 a14 a15 a16 a17 a18 a19 a20.
Definition set_voltage (v : pyval) (self : t) : t :=
  let 'Mk a1 a2 a3 a4 a5 a6 a7 _ a9 a10 a11 a12 a13 a14 a15 a16 a17 a18 a19 a20 := self in
  Mk a1 a2 a3 a4 a5 a6 a7 v a9 a10 a11 a12 a13 a14 a15 a16 a17 a18 a19 a20.
Definition set_last_update (v : R) (self : t) : t :=
  let 'Mk a1 a2 a3 a4 a5 a6 a7 a8 _ a10 a11 a12 a13 a14 a15 a16 a17 a18 a19 a20 := self in
  Mk a1 a2 a3 a4 a5 a6 a7 a8 v a10 a11 a12 a13 a14 a15 a16 a17 a18 a19 a20.
Definition set_last_values (v : gmap string pyval) (self : t) : t :=
  let 'Mk a1 a2 a3 a4 a5 a6 a7 a8 a9 _ a11 a12 a13 a14 a15 a16 a17 a18 a19 a20 := self in
  Mk a1 a2 a3 a4 a5 a6 a7 a8 a9 v a11 a12 a13 a14 a15 a16 a17 a18 a19 a20.
Definition set_has_changes (v : bool) (self : t) : t :=
  let 'Mk a1 a2 a3 a4 a5 a6 a7 a8 a9 a10 _ a12 a13 a14 a15 a16 a17 a18 a19 a20 := self in
  Mk a1 a2 a3 a4 a5 a6 a7 a8 a9 a10 v a12 a13 a14 a15 a16 a17 a18 a19 a20.
Definition set_recorded_data (v : list data_point) (self : t) : t :=
  let 'Mk a1 a2 a3 a4 a5 a6 a7 a8 a9 a10 a11 a12 _ a14 a15 a16 a17 a18 a19 a20 := self in
  Mk a1 a2 a3 a4 a5 a6 a7 a8 a9 a10 a11 a12 v a14 a15 a16 a17 a18 a19 a20.
Definition set_csv_file (v : option (list data_point)) (self : t) : t :=
  let 'Mk a1 a2 a3 a4 a5 a6 a7 a8 a9 a10 a11 a12 a13 _ a15 a16 a17 a18 a19 a20 := self in
  Mk a1 a2 a3 a4 a5 a6 a7 a8 a9 a10 a11 a12 a13 v a15 a16 a17 a18 a19 a20.
Definition set_packet_errors (v : Z) (self : t) : t :=
  let 'Mk a1 a2 a3 a4 a5 a6 a7 a8 a9 a10 a11 a12 a13 a14 a15 a16 _ a18 a19 a20 := self in
  Mk a1 a2 a3 a4 a5 a6 a7 a8 a9 a10 a11 a12 a13 a14 a15 a16 v a18 a19 a20.
Definition set_performance (count : Z) (time latency : R) (samples : list R) (self : t) : t :=
  let 'Mk a1 a2 a3 a4 a5 a6 a7 a8 a9 a10 a11 a12 a13 a14 a15 _ a17 _ _ _ := self in
  Mk a1 a2 a3 a4 a5 a6 a7 a8 a9 a10 a11 a12 a13 a14 a15 count a17 time latency samples.

(** [setattr(self, key, value)] for the eight telemetry attributes, the only
    names [update_value] is called with; another name would create an
    attribute that nothing reads. *)
Definition setattr (self : t) (key : string) (value : pyval) : t :=
  if String.eqb key "throttle" then set_throttle value self
  else if String.eqb key "gear" then set_gear value self
  else if String.eqb key "rpm" then set_rpm value self
  else if String.eqb key "controller_temp" then set_controller_temp value self
  else if String.eqb key "motor_temp" then set_motor_temp value self
  else if String.eqb key "speed" then set_speed value self
  else if String.eqb key "power" then set_power value self
  else if String.eqb key "voltage" then set_voltage value self
  else self.

(** [getattr(self, key)] for the same names. *)
Definition getattr (self : t) (key : string) : option pyval :=
  if String.eqb key "throttle" then Some (throttle self)
  else if String.eqb key "gear" then Some (gear self)
  else if String.eqb key "rpm" then Some (rpm self)
  else if String.eqb key "controller_temp" then Some (controller_temp self)
  else if String.eqb key "motor_temp" then Some (motor_temp self)
  else if String.eqb key "speed" then Some (speed self)
  else if String.eqb key "power" then Some (power self)
  else if String.eqb key "voltage" then Some (voltage self)
  else None.

(** [record_data_point(self)]; [stamp] is [datetime.now().isoformat()] and
    [auto_save] is [settings.get('auto_save', True)]. *)
Definition record_data_point (self : t) (stamp : string) (auto_save : bool) : t :=
  if negb (recording self) then self
  else
    let data_point :=
      {| dp_timestamp := stamp;
         dp_throttle := throttle self;
         dp_gear := gear self;
         dp_rpm := rpm self;
         dp_controller_temp := controller_temp self;
         dp_motor_temp := motor_temp self;
         dp_speed := speed self;
         dp_power := power self;
         dp_voltage := voltage self;
         dp_packet_count := packet_count self;
         dp_latency := avg_latency self |} in
    let self := set_recorded_data (recorded_data self ++ [data_point]) self in
    match csv_file self with
    | Some rows =>
        if auto_save then set_csv_file (Some (rows ++ [data_point])) self else self
    | None => self
    end.

(** The test [key not in self._last_values or self._last_values[key] != value]
    of [update_value]. *)
Definition value_changed (self : t) (key : string) (value : pyval) : bool :=
  match _last_values self !! key with
  | None => true
  | Some last => ne last value
  end.

(** [update_value(self, key, value)]; [now] is [time.time()]. *)
Definition update_value (self : t) (key : string) (value : pyval)
    (now : R) (stamp : string) (auto_save : bool) : t :=
  if value_changed self key value
  then
    let self := set_last_values (<[key := value]> (_last_values self)) self in
    let self := set_has_changes true self in
    let self := setattr self key value in
    let self := set_last_update now self in
    if recording self then record_data_point self stamp auto_save else self
  else self.

(** [has_changes(self)]: the returned flag and the object afterwards. *)
Definition has_changes (self : t) : bool * t :=
  let has_changes := _has_changes self in
  (has_changes, set_has_changes false self).

(** [sum(self.latency_samples)] *)
Definition sum (l : list R) : R := foldl Rplus 0%R l.

(** [update_performance_metrics(self, packet_time, latency)] *)
Definition update_performance_metrics (self : t) (packet_time latency : R) : t :=
  let samples := latency_samples self ++ [latency] in
  let samples := if bool_decide (100 < length samples)%nat then tail samples else samples in
  set_performance (packet_count self + 1) packet_time
    (sum samples / INR (length samples))%R samples self.

Definition set_recording (v : bool) (self : t) : t :=
  let 'Mk a1 a2 a3 a4 a5 a6 a7 a8 a9 a10 a11 _ a13 a14 a15 a16 a17 a18 a19 a20 := self in
  Mk a1 a2 a3 a4 a5 a6 a7 a8 a9 a10 a11 v a13 a14 a15 a16 a17 a18 a19 a20.
Definition set_recording_start_time (v : option R) (self : t) : t :=
  let 'Mk a1 a2 a3 a4 a5 a6 a7 a8 a9 a10 a11 a12 a13 a14 _ a16 a17 a18 a19 a20 := self in
  Mk a1 a2 a3 a4 a5 a6 a7 a8 a9 a10 a11 a12 a13 a14 v a16 a17 a18 a19 a20.

(** What the file system does when [start_recording] needs a file:
    [os.makedirs] raises (outside the [try]), [open] raises, the header
    row cannot be written, or the file is open with its header. *)
Inductive file_event : Type :=
| MakedirsFails
| OpenFails
| HeaderFails
| Opened.

(** [start_recording(self, filename=None)]: the returned flag and the
    object afterwards; [None] is the exception of [os.makedirs].  [now] is
    [time.time()], [auto_save] is [settings.get('auto_save', True)].  The
    file name only selects the file and is left out. *)
Definition start_recording (self : t) (now : R) (auto_save : bool)
    (fs : file_event) : option (bool * t) :=
  if recording self then Some (false, self)
  else if negb auto_save then
    Some (true,
          set_recorded_data []
            (set_recording_start_time (Some now) (set_recording true self)))
  else
    match fs with
    | MakedirsFails => None
    | OpenFails => Some (false, self)
    | HeaderFails => Some (false, set_csv_file (Some []) self)
    | Opened =>
        Some (true,
              set_recorded_data []
                (set_recording_start_time (Some now)
                   (set_recording true (set_csv_file (Some []) self))))
    end.

(** [stop_recording(self)] *)
Definition stop_recording (self : t) : t :=
  if negb (recording self) then self
  else
    let self := set_recording false self in
    match csv_file self with
    | Some _ => set_csv_file None self
    | None => self
    end.

(** The dictionary returned by [get_performance_stats]. *)
Record performance_stats : Type := MkPerformanceStats {
  ps_packet_count : Z;
  ps_packet_errors : Z;
  ps_avg_latency : R;
  ps_packet_rate : pyval;
  ps_error_rate : R
}.

(** [get_performance_stats(self)]; [now] is [time.time()].  A start time
    of [None] or [0.0] is false in the conditional expression. *)
Definition get_performance_stats (self : t) (now : R) : performance_stats :=
  {| ps_packet_count := packet_count self;
     ps_packet_errors := packet_errors self;
     ps_avg_latency := avg_latency self;
     ps_packet_rate :=
       match recording_start_time self with
       | Some start =>
           if bool_decide (start = 0)%R then PInt 0
           else PFloat (IZR (packet_count self) / float_max 1 (now - start))
       | None => PInt 0
       end;
     ps_error_rate :=
       (IZR (packet_errors self) / IZR (Z.max 1 (packet_count self)))%R |}.

(** The attribute names that [update_value] is called with. *)
Definition telemetry_keys : list string :=
  ["throttle"; "gear"; "rpm"; "controller_temp"; "motor_temp"; "speed";
   "power"; "voltage"]%string.

(** [tracked c key value]: the shadow map holds for [key] a value equal to
    [value], so an update of [key] to [value] finds nothing to do. *)
Definition tracked (c : t) (key : string) (value : pyval) : Prop :=
  value_changed c key value = false.

End ControllerData.

(** ** Module-level state, [message_handler] and the display update *)

Module Monitor.

Import ControllerData.

(** The globals [ctr_data], [packet_inspector], [is_connected] and the
    [settings] entry that the recorder reads. *)
Record state : Type := MkState {
  ctr_data : ControllerData.t;
  packet_inspector : PacketInspector.t;
  is_connected : bool;
  auto_save : bool
}.

(** The state when the module has been loaded at time [now]. *)
Definition init (now : R) : state :=
  {| ctr_data := ControllerData.init now;
     packet_inspector := PacketInspector.init;
     is_connected := false;
     auto_save := true |}.

Definition set_ctr_data (c : ControllerData.t) (s : state) : state :=
  {| ctr_data := c; packet_inspector := packet_inspector s;
     is_connected := is_connected s; auto_save := auto_save s |}.

(** The assignments [is_connected = False] of [disconnect_device] and of
    the BLE loop ([v] false), and [is_connected = True] ([v] true). *)
Definition set_is_connected (v : bool) (s : state) : state :=
  {| ctr_data := ctr_data s; packet_inspector := packet_inspector s;
     is_connected := v; auto_save := auto_save s |}.

(** The [if index == 0: ... elif ...] chain of [message_handler], on the
    controller data. *)
Definition process_packet (c : ControllerData.t) (data : list byte) (index : Z)
    (now : R) (stamp : string) (auto_save : bool) : option ControllerData.t :=
  if index =? 0 then
    d4 ← idx data 4;
    d5 ← idx data 5;
    let rpm := Z.lor (Z.shiftl d4 8) d5 in
    d2 ← idx data 2;
    let gear := Z.land (Z.shiftr d2 2) 0x03 in
    let gear := Z.max 1 (Z.min 3 gear) in
    d8 ← idx data 8;
    d9 ← idx data 9;
    let iq := (IZR (Z.lor (Z.shiftl d8 8) d9) / 100)%R in
    d10 ← idx data 10;
    d11 ← idx data 11;
    let id := (IZR (Z.lor (Z.shiftl d10 8) d11) / 100)%R in
    let is_mag := sqrt (iq * iq + id * id) in
    let power := (- is_mag * to_float (voltage c))%R in
    let power :=
      if bool_decide (iq < 0)%R || bool_decide (id < 0)%R
      then (- power)%R else power in
    let wheel_circumference := 1.350%R in
    let rear_wheel_rpm := (IZR rpm / 4)%R in
    let distance_per_min := (rear_wheel_rpm * wheel_circumference)%R in
    let speed := (distance_per_min * 0.06)%R in
    let c := update_value c "rpm" (PInt rpm) now stamp auto_save in
    let c := update_value c "gear" (PInt gear) now stamp auto_save in
    let c := update_value c "power" (PFloat power) now stamp auto_save in
    let c := update_value c "speed" (PFloat speed) now stamp auto_save in
    Some c
  else if index =? 1 then
    d2 ← idx data 2;
    d3 ← idx data 3;
    let voltage := (IZR (Z.lor (Z.shiftl d2 8) d3) / 10)%R in
    Some (update_value c "voltage" (PFloat voltage) now stamp auto_save)
  else if index =? 4 then
    controller_temp ← idx data 2;
    Some (update_value c "controller_temp" (PInt controller_temp) now stamp auto_save)
  else if index =? 13 then
    motor_temp ← idx data 2;
    d4 ← idx data 4;
    d5 ← idx data 5;
    let throttle := Z.lor (Z.shiftl d4 8) d5 in
    let c := update_value c "motor_temp" (PInt motor_temp) now stamp auto_save in
    let c := update_value c "throttle" (PInt throttle) now stamp auto_save in
    Some c
  else Some c.

(** [message_handler(data)].  [packet_start_time] is the clock read on
    entry, [now] the clock read by the later calls of [time.time()] and
    [stamp] the text of [datetime.now().isoformat()]; [None] is an
    [IndexError].  The source reads [datetime.now()] once in
    [analyze_packet] and once more in every [record_data_point] of the
    call; the model gives the one text [stamp] to all of these readings, so
    nothing is stated about how the time stamps of one call compare. *)
Definition message_handler (s : state) (data : list byte)
    (packet_start_time now : R) (stamp : string) : option state :=
  '(packet_info, inspector) ←
    PacketInspector.analyze_packet (packet_inspector s) data stamp;
  let c := ctr_data s in
  if bool_decide (length data < 16)%nat then
    Some {| ctr_data := set_packet_errors (packet_errors c + 1) c;
            packet_inspector := inspector;
            is_connected := is_connected s;
            auto_save := auto_save s |}
  else
    d0 ← idx data 0;
    if bool_decide (d0 ≠ 0xAA) then
      Some {| ctr_data := set_packet_errors (packet_errors c + 1) c;
              packet_inspector := inspector;
              is_connected := is_connected s;
              auto_save := auto_save s |}
    else
      index ← idx data 1;
      let c := set_last_update now c in
      let latency := ((now - packet_start_time) * 1000)%R in
      let c := update_performance_metrics c packet_start_time latency in
      c ← process_packet c data index now stamp (auto_save s);
      Some {| ctr_data := c;
              packet_inspector := inspector;
              is_connected := true;
              auto_save := auto_save s |}.

(** The assignments under [if not is_connected:] in [update_display]. *)
Definition reset_data (c : ControllerData.t) : ControllerData.t :=
  set_voltage (PInt 0) (set_power (PInt 0) (set_speed (PInt 0)
    (set_motor_temp (PInt 0) (set_controller_temp (PInt 0)
      (set_rpm (PInt 0) (set_gear (PInt 0) (set_throttle (PInt 0) c))))))).

(** The data part of [update_display]: whether the telemetry widgets are
    redrawn, and the state afterwards.  [terminal_paused] is the global of
    that name: while it is set the method returns before it reads the
    change flag, so nothing is reset and nothing is redrawn.  Otherwise the
    redraw is gated by [data_changed]. *)
Definition update_display (terminal_paused : bool) (s : state) : bool * state :=
  if terminal_paused then (false, s)
  else
    let '(data_changed, c) := has_changes (ctr_data s) in
    if negb (is_connected s)
    then (true, set_ctr_data (reset_data c) s)
    else (data_changed, set_ctr_data c s).




(** [show_packet_inspector]: [None] when the method returns at its guard
    [if not packet_inspector.current_packet] (it then only reports that no
    packets were received), and otherwise the four numbers printed in the
    statistics tab: [stats.get('total_packets', 0)],
    [stats.get('valid_packets', 0)], [stats.get('checksum_errors', 0)] and
    [stats.get('error_rate', 0)]. *)
Definition show_packet_inspector (s : state) : option (Z * Z * Z * pyval) :=
  match PacketInspector.current_packet (packet_inspector s) with
  | None => None
  | Some _ =>
      match PacketInspector.get_packet_statistics (packet_inspector s) with
      | Some stats =>
          Some (PacketInspector.total_packets stats,
                PacketInspector.valid_packets stats,
                PacketInspector.checksum_errors stats,
                PacketInspector.error_rate stats)
      | None => Some (0, 0, 0, PInt 0)
      end
  end.



(** [message_handler] called on each frame of a sequence in turn; every
    frame comes with the two clock readings and the clock text of its
    call. *)
Fixpoint handle_all (s : state) (frames : list (list byte * (R * R) * string))
  : option state :=
  match frames with
  | [] => Some s
  | (data, (packet_start_time, now), stamp) :: frames' =>
      s ← message_handler s data packet_start_time now stamp;
      handle_all s frames'
  end.

(** Vocabulary for runs of frames: a frame that passes the two checks of
    [message_handler], and the latency that the handler computes from the
    two clock readings of a call. *)
Definition accepted (data : list byte) : bool :=
  bool_decide (16 <= length data)%nat && bool_decide (data !! 0%nat = Some xaa).

Definition latency_of (frame : list byte * (R * R) * string) : R :=
  ((frame.1.2.2 - frame.1.2.1) * 1000)%R.

(** The entries of [COLORS] that the battery bar uses. *)
Definition COLORS_success : string := "#10b981".
Definition COLORS_warning : string := "#f59e0b".
Definition COLORS_error : string := "#ef4444".

(** What [update_battery_bar] computes: the level, the width of the filled
    rectangle, its colour, and whether the rectangle is drawn.

    The thresholds of this method are met by voltages that the controller
    sends, so here the rounding of the float operations is kept: [rnd] is
    the rounding of the platform (for CPython, IEEE 754 binary64 to
    nearest), applied to the result of each float operation and to each
    decimal literal.  [max] and [min] select one of their arguments and
    [int] truncates, without rounding. *)
Record battery_bar : Type := MkBatteryBar {
  level : R;
  fill_width : Z;
  color : string;
  filled : bool
}.

Definition update_battery_bar (rnd : R -> R) (s : state) : battery_bar :=
  let bar_width := 180 in
  let low_limit := rnd 84.0%R in
  let high_limit := rnd 96.0%R in
  let voltage :=
    float_max low_limit
      (float_min high_limit (to_float (voltage (ctr_data s)))) in
  let level :=
    rnd (rnd (voltage - low_limit) / rnd (high_limit - low_limit))%R in
  let fill_width := int_of_float (rnd (rnd (IZR bar_width) * level))%R in
  let color :=
    if bool_decide (rnd 0.5 < level)%R then COLORS_success
    else if bool_decide (rnd 0.2 < level)%R then COLORS_warning
    else COLORS_error in
  {| level := level;
     fill_width := fill_width;
     color := color;
     filled := 0 <? fill_width |}.

(** The [BooleanVar]s of [self.terminal_filters]. *)
Record terminal_filters : Type := MkTerminalFilters {
  show_info : bool;
  show_warning : bool;
  show_error : bool;
  show_success : bool;
  show_data : bool;
  show_connection : bool;
  show_recording : bool;
  show_performance : bool
}.

(** [should_show_message(self, level, message)]; [lower] is [str.lower]. *)
Definition should_show_message (lower : string -> string)
    (filters : terminal_filters) (level message : string) : bool :=
  if str_contains "Terminal filters updated" message then true
  else if String.eqb level "INFO" then show_info filters
  else if String.eqb level "WARNING" then show_warning filters
  else if String.eqb level "ERROR" then show_error filters
  else if String.eqb level "SUCCESS" then show_success filters
  else if String.eqb level "DATA" then show_data filters
  else if str_contains "connected" (lower message)
          || str_contains "disconnected" (lower message)
  then show_connection filters
  else if str_contains "recording" (lower message)
          || str_contains "recorded" (lower message)
  then show_recording filters
  else if str_contains "fps" (lower message)
          || str_contains "latency" (lower message)
          || str_contains "performance" (lower message)
  then show_performance filters
  else true.

(** The two early returns of the method [log_to_terminal]: whether the
    message reaches the terminal widget. *)
Definition terminal_accepts (lower : string -> string)
    (filters : terminal_filters) (terminal_paused : bool)
    (level message : string) : bool :=
  if terminal_paused
     && negb (str_contains "Display paused" message)
     && negb (str_contains "Display resumed" message)
  then false
  else should_show_message lower filters level message.

End Monitor.

(** ** class AnimatedGauge *)

Module AnimatedGauge.

(** The numeric attributes of the gauge; the canvas is left out. *)
Record t : Type := Mk {
  value : R;
  max_value : R;
  animation_speed : R;
  target_value : R;
  is_animating : bool
}.

(** [__init__] *)
Definition init : t :=
  {| value := 0;
     max_value := 100;
     animation_speed := 0.3;
     target_value := 0;
     is_animating := false |}.

(** [animate(self)], one call.  The call schedules the next one with
    [self.after(8, self.animate)] exactly when it takes the first branch,
    which leaves [is_animating] as it is. *)
Definition animate (self : t) : t :=
  if bool_decide (0.5 < Rabs (value self - target_value self))%R then
    {| value :=
         value self
         + (target_value self - value self) * animation_speed self;
       max_value := max_value self;
       animation_speed := animation_speed self;
       target_value := target_value self;
       is_animating := is_animating self |}
  else
    {| value := target_value self;
       max_value := max_value self;
       animation_speed := animation_speed self;
       target_value := target_value self;
       is_animating := false |}.

(** [set_value(self, value, max_value=None)] *)
Definition set_value (self : t) (v : R) (new_max : option R) : t :=
  let max_value := default (max_value self) new_max in
  let target_value := float_min v max_value in
  let self :=
    {| value := value self;
       max_value := max_value;
       animation_speed := animation_speed self;
       target_value := target_value;
       is_animating := is_animating self |} in
  if bool_decide (1.0 < Rabs (value self - target_value))%R then
    if negb (is_animating self) then
      animate {| value := value self;
                 max_value := max_value;
                 animation_speed := animation_speed self;
                 target_value := target_value;
                 is_animating := true |}
    else self
  else self.

(** The scheduled calls of [animate] that follow, at most [n] of them: a
    call is pending while [is_animating] is set. *)
Fixpoint run_scheduled (n : nat) (self : t) : t :=
  match n with
  | O => self
  | S n' => if is_animating self then run_scheduled n' (animate self) else self
  end.

End AnimatedGauge.

(** ** ebike_data_parser/svmc_parser.py *)

Module SvmcParser.

Definition EXPECTED_ID : Z := 0x18F88006.
Definition PACKET_LENGTH : nat := 12.

(** The dictionary returned for an accepted packet.  [voltage_scaled] is
    the number that the source formats with two decimals. *)
Record decoded : Type := MkDecoded {
  rpm : Z;
  throttle_current : Z;
  odometer : Z;
  voltage_raw : Z;
  voltage_scaled : pyval
}.

(** The outcome of a call: [struct.error] raised by [struct.unpack], the
    value [None] returned after the warning, or the dictionary. *)
Inductive outcome : Type :=
| StructError
| UnexpectedId (can_id : Z)
| Decoded (d : decoded).

(** [struct.unpack('>I', b)] and [struct.unpack('<H', b)] on byte values. *)
Definition be32 (b0 b1 b2 b3 : Z) : Z :=
  b0 * 2 ^ 24 + b1 * 2 ^ 16 + b2 * 2 ^ 8 + b3.
Definition le16 (b0 b1 : Z) : Z := b0 + b1 * 2 ^ 8.

(** [parse_sabvoton_packet(packet_bytes)] *)
Definition parse_sabvoton_packet (packet_bytes : list byte) : outcome :=
  match byte_val <$> packet_bytes with
  | [i0; i1; i2; i3; p0; p1; p2; p3; p4; p5; p6; p7] =>
      let can_id := be32 i0 i1 i2 i3 in
      if bool_decide (can_id ≠ EXPECTED_ID) then UnexpectedId can_id
      else
        let val1 := le16 p0 p1 in
        let val2 := le16 p2 p3 in
        let val3 := le16 p4 p5 in
        let val4 := le16 p6 p7 in
        let voltage_raw := val4 in
        let voltage_scaled :=
          if 0 <? voltage_raw then PFloat (IZR voltage_raw / 1.68)
          else PInt 0 in
        Decoded {| rpm := val1;
                   throttle_current := val2;
                   odometer := val3;
                   voltage_raw := voltage_raw;
                   voltage_scaled := voltage_scaled |}
  | _ => StructError
  end.

End SvmcParser.

(** ** Sample frames *)

Module Frames.

(** [AA 00 04 00 13 88 00 00 27 10 00 00 00 00 A8 00]: main data with
    rpm bytes [13 88], iq bytes [27 10] and a matching checksum. *)
Definition main_frame : list byte :=
  [xaa; x00; x04; x00; x13; x88; x00; x00;
   x27; x10; x00; x00; x00; x00; xa8; x00].

(** The same frame with a checksum byte that does not match. *)
Definition main_frame_bad_checksum : list byte :=
  [xaa; x00; x04; x00; x13; x88; x00; x00;
   x27; x10; x00; x00; x00; x00; x00; x00].

(** [AA 01 03 84 ...]: voltage, raw value [0x0384]. *)
Definition voltage_frame : list byte :=
  [xaa; x01; x03; x84; x00; x00; x00; x00;
   x00; x00; x00; x00; x00; x00; x86; x00].

(** [AA 04 2D ...]: controller temperature 45. *)
Definition controller_temp_frame : list byte :=
  [xaa; x04; x2d; x00; x00; x00; x00; x00;
   x00; x00; x00; x00; x00; x00; x29; x00].

(** [AA 04 00 ...]: controller temperature 0. *)
Definition zero_temp_frame : list byte :=
  [xaa; x04; x00; x00; x00; x00; x00; x00;
   x00; x00; x00; x00; x00; x00; x04; x00].

(** [AA 02 ...]: a type index that no branch handles. *)
Definition unknown_frame : list byte :=
  [xaa; x02; x00; x00; x00; x00; x00; x00;
   x00; x00; x00; x00; x00; x00; x02; x00].

(** The main-data frame followed by one more byte: 17 bytes. *)
Definition long_frame : list byte := main_frame ++ [x00].

(** An inspector that keeps two packets, and three frames for it. *)
Definition small_inspector : PacketInspector.t :=
  {| PacketInspector.packet_history := [];
     PacketInspector.max_history := 2;
     PacketInspector.current_packet := None |}.

Definition three_frames : list (list byte * string) :=
  [(main_frame_bad_checksum, "t1"); (voltage_frame, "t2");
   (controller_temp_frame, "t3")]%string.

(** A session that lost its connection after a controller temperature of
    45 had been received and shown. *)
Definition disconnected_at_45 : Monitor.state :=
  {| Monitor.ctr_data :=
       ControllerData.set_last_values (<["controller_temp" := PInt 45]> ∅)
         (ControllerData.set_controller_temp (PInt 45) (ControllerData.init 0));
     Monitor.packet_inspector := PacketInspector.init;
     Monitor.is_connected := false;
     Monitor.auto_save := true |}.

(** A connected session whose last voltage packet read 90.0 V. *)
Definition at_90_volts : Monitor.state :=
  {| Monitor.ctr_data :=
       ControllerData.set_last_values (<["voltage" := PFloat 90]> ∅)
         (ControllerData.set_voltage (PFloat 90) (ControllerData.init 0));
     Monitor.packet_inspector := PacketInspector.init;
     Monitor.is_connected := true;
     Monitor.auto_save := true |}.

End Frames.

(** * Properties *)

(** ** Bytes and indexing *)

Section Bytes.

Lemma byte_val_range (b : byte) : 0 <= byte_val b < 256.
Proof.
  unfold byte_val. pose proof (Byte.to_N_bounded b) as H. lia.
Qed.

Lemma idx_in_range (data : list byte) (i : nat) :
  (i < length data)%nat ->
  exists b, data !! i = Some b /\ idx data i = Some (byte_val b).
Proof.
  intros Hi. destruct (lookup_lt_is_Some_2 data i Hi) as [b Hb].
  exists b. split; [exact Hb|]. unfold idx. now rewrite Hb.
Qed.

Lemma idx_Some (data : list byte) (i : nat) (b : byte) :
  data !! i = Some b -> idx data i = Some (byte_val b).
Proof. intros H. unfold idx. now rewrite H. Qed.

Lemma idx_range (data : list byte) (i : nat) (z : Z) :
  idx data i = Some z -> 0 <= z < 256.
Proof.
  unfold idx. destruct (data !! i) as [b|]; simpl; [|discriminate].
  intros [= <-]. apply byte_val_range.
Qed.

(** [(hi << 8) | lo] is [hi * 256 + lo] when [lo] is a byte. *)
Lemma shift_or_is_sum (hi lo : Z) :
  0 <= hi -> 0 <= lo < 256 ->
  Z.lor (Z.shiftl hi 8) lo = hi * 256 + lo.
Proof.
  intros Hhi Hlo.
  assert (Hdisj : Z.land (Z.shiftl hi 8) lo = 0).
  { apply Z.bits_inj'. intros n Hn. rewrite Z.land_spec, Z.bits_0.
    destruct (Z.lt_ge_cases n 8) as [Hlt|Hge].
    - rewrite Z.shiftl_spec_low by exact Hlt. reflexivity.
    - rewrite (Z.bits_above_log2 lo n); [apply andb_false_r|lia|].
      destruct (Z.eq_dec lo 0) as [->|Hne]; [simpl; lia|].
      apply Z.lt_le_trans with 8; [|exact Hge].
      apply Z.log2_lt_pow2; lia. }
  rewrite <- Z.lxor_lor by exact Hdisj.
  rewrite <- Z.add_nocarry_lxor by exact Hdisj.
  rewrite Z.shiftl_mul_pow2 by lia. reflexivity.
Qed.

Lemma word16_range (hi lo : Z) :
  0 <= hi < 256 -> 0 <= lo < 256 ->
  0 <= Z.lor (Z.shiftl hi 8) lo <= 65535.
Proof.
  intros Hhi Hlo. rewrite shift_or_is_sum by lia. lia.
Qed.

End Bytes.

(** ** The packet inspector never raises and accepts frames of 16 bytes or more *)

Section Inspector.

Import PacketInspector.

Lemma foldl_lxor (l : list byte) (acc : Z) :
  foldl (fun a b => Z.lxor a (byte_val b)) acc l
  = Z.lxor acc (foldr Z.lxor 0 (byte_val <$> l)).
Proof.
  revert acc. induction l as [|b l IH]; intros acc; simpl.
  - now rewrite Z.lxor_0_r.
  - rewrite IH. now rewrite Z.lxor_assoc.
Qed.

Lemma xor_loop_seq (data : list byte) (n s : nat) (acc : Z) :
  (s + n <= length data)%nat ->
  xor_loop data (seq s n) acc
  = Some (foldl (fun a b => Z.lxor a (byte_val b)) acc (take n (drop s data))).
Proof.
  revert s acc. induction n as [|n IH]; intros s acc Hlen; simpl.
  - reflexivity.
  - destruct (idx_in_range data s ltac:(lia)) as (b & Hb & Hidx).
    rewrite Hidx. simpl. rewrite IH by lia.
    rewrite (drop_S _ _ _ Hb). reflexivity.
Qed.

(** The loop of [analyze_packet] computes the XOR of bytes 1 to 13. *)
Lemma expected_checksum_is_xor (data : list byte) :
  (14 <= length data)%nat ->
  xor_loop data (seq 1 13) 0
  = Some (foldr Z.lxor 0 (byte_val <$> take 13 (drop 1 data))).
Proof.
  intros Hlen. rewrite xor_loop_seq by lia. now rewrite foldl_lxor.
Qed.

(** Reading below the length succeeds; used to run the parsers. *)
Ltac read i data Hlen :=
  let b := fresh "b" in
  let Hb := fresh "Hb" in
  let Hi := fresh "Hi" in
  destruct (idx_in_range data i ltac:(lia)) as (b & Hb & Hi);
  rewrite Hi; simpl.

Lemma parse_by_index_total (data : list byte) (index : Z) :
  (16 <= length data)%nat -> is_Some (parse_by_index data index).
Proof.
  intros Hlen. unfold parse_by_index.
  repeat case_match; try (eexists; reflexivity).
  - unfold _parse_main_data.
    read 2%nat data Hlen. read 4%nat data Hlen. read 5%nat data Hlen.
    read 8%nat data Hlen. read 9%nat data Hlen. read 10%nat data Hlen.
    read 11%nat data Hlen. eexists; reflexivity.
  - unfold _parse_voltage_data.
    read 2%nat data Hlen. read 3%nat data Hlen. eexists; reflexivity.
  - unfold _parse_controller_temp_data.
    read 2%nat data Hlen. eexists; reflexivity.
  - unfold _parse_motor_throttle_data.
    read 2%nat data Hlen. read 4%nat data Hlen. read 5%nat data Hlen.
    eexists; reflexivity.
Qed.

(** What [analyze_packet] returns for a frame of at least 16 bytes that
    starts with [0xAA]. *)
Lemma analyze_packet_accepts (self : t) (data : list byte) (now : string) :
  (16 <= length data)%nat ->
  data !! 0%nat = Some xaa ->
  exists b1 b14 b15 parsed_data,
    data !! 1%nat = Some b1 /\ data !! 14%nat = Some b14 /\
    data !! 15%nat = Some b15 /\
    parse_by_index data (byte_val b1) = Some parsed_data /\
    let expected := foldr Z.lxor 0 (byte_val <$> take 13 (drop 1 data)) in
    let p := {| index := byte_val b1;
                raw_data := hex_dump data;
                checksum_valid := byte_val b14 =? expected;
                checksum := byte_val b14;
                expected_checksum := expected;
                reserved := byte_val b15;
                timestamp := now;
                parsed_data := parsed_data |} in
    analyze_packet self data now = Some (Valid p, store_in_history self (Valid p)).
Proof.
  intros Hlen H0.
  destruct (idx_in_range data 1 ltac:(lia)) as (b1 & Hb1 & Hi1).
  destruct (idx_in_range data 14 ltac:(lia)) as (b14 & Hb14 & Hi14).
  destruct (idx_in_range data 15 ltac:(lia)) as (b15 & Hb15 & Hi15).
  destruct (parse_by_index_total data (byte_val b1) Hlen) as [pd Hpd].
  exists b1, b14, b15, pd. repeat split; try assumption.
  unfold analyze_packet.
  rewrite bool_decide_eq_false_2 by lia.
  rewrite (idx_Some _ _ _ H0). cbn [mbind option_bind].
  rewrite bool_decide_eq_false_2 by (intros H; apply H; reflexivity).
  rewrite Hi1, Hi14, Hi15. cbn [mbind option_bind].
  rewrite expected_checksum_is_xor by lia. cbn [mbind option_bind].
  rewrite Hpd. reflexivity.
Qed.

(** A frame shorter than 16 bytes is rejected before any byte is read. *)
Lemma analyze_packet_short (self : t) (data : list byte) (now : string) :
  (length data < 16)%nat ->
  analyze_packet self data now
  = Some (Invalid (InvalidPacketLength (length data)) (hex_dump data), self).
Proof.
  intros Hlen. unfold analyze_packet.
  now rewrite bool_decide_eq_true_2 by exact Hlen.
Qed.

(** A frame of 16 bytes or more with another first byte is rejected. *)
Lemma analyze_packet_bad_header (self : t) (data : list byte) (now : string)
    (b0 : byte) :
  (16 <= length data)%nat ->
  data !! 0%nat = Some b0 -> b0 <> xaa ->
  analyze_packet self data now
  = Some (Invalid (InvalidHeader (byte_val b0)) (hex_dump data), self).
Proof.
  intros Hlen H0 Hne. unfold analyze_packet.
  rewrite bool_decide_eq_false_2 by lia.
  rewrite (idx_Some _ _ _ H0). cbn [mbind option_bind].
  rewrite bool_decide_eq_true_2; [reflexivity|].
  intros Heq. apply Hne.
  assert (Hn : Byte.to_N b0 = Byte.to_N xaa).
  { unfold byte_val in Heq. change 170 with (Z.of_N 170) in Heq.
    apply N2Z.inj in Heq. exact Heq. }
  apply (f_equal Byte.of_N) in Hn. rewrite !Byte.of_to_N in Hn.
  now injection Hn.
Qed.

(** [analyze_packet] returns a dictionary for every byte sequence: no read
    is out of range. *)
Lemma analyze_packet_total (self : t) (data : list byte) (now : string) :
  is_Some (analyze_packet self data now).
Proof.
  destruct (Nat.lt_ge_cases (length data) 16) as [Hshort|Hlong].
  - rewrite analyze_packet_short by exact Hshort. eexists; reflexivity.
  - destruct (lookup_lt_is_Some_2 data 0 ltac:(lia)) as [b0 Hb0].
    destruct (decide (b0 = xaa)) as [->|Hne].
    + destruct (analyze_packet_accepts self data now Hlong Hb0)
        as (b1 & b14 & b15 & pd & _ & _ & _ & _ & Heq).
      rewrite Heq. eexists; reflexivity.
    + rewrite (analyze_packet_bad_header self data now b0) by assumption.
      eexists; reflexivity.
Qed.

End Inspector.

(** ** Checksum flag and payload decoding *)

Section Decoding.

Import PacketInspector.

(** The newest stored packet is the last of the history. *)
Lemma store_in_history_last (self : t) (info : packet_info) :
  (0 < max_history self)%nat ->
  last (packet_history (store_in_history self info)) = Some info.
Proof.
  intros Hmax. unfold store_in_history. cbn [packet_history].
  case_bool_decide as Hcmp; [|apply last_snoc].
  rewrite length_app in Hcmp. cbn [length] in Hcmp.
  destruct (packet_history self) as [|x h]; [cbn in Hcmp; lia|].
  cbn [app tail]. apply last_snoc.
Qed.

(** C1. Every 16-byte frame whose first byte is [0xAA] is accepted by
    [analyze_packet], whatever its type index and whatever its checksum
    byte.  The returned dictionary has [checksum_valid] true exactly when
    the XOR of bytes 1 to 13 equals byte 14, and it holds the fully decoded
    payload in either case: gear bits, gear name, rpm, currents and current
    magnitude for type index 0, the raw and scaled voltage for 1, the
    temperature for 4, motor temperature and raw and scaled throttle for
    13, and the index itself for any other type.  The payload does not
    depend on byte 14.  The dictionary becomes [current_packet] and the
    newest entry of the history. *)
Theorem checksum_valid_iff_xor (self : t) (now : string)
    (ty b2 b3 b4 b5 b6 b7 b8 b9 b10 b11 b12 b13 ck rs : byte) :
  let data :=
    [xaa; ty; b2; b3; b4; b5; b6; b7; b8; b9; b10; b11; b12; b13; ck; rs] in
  let expected :=
    foldr Z.lxor 0
      (byte_val <$> [ty; b2; b3; b4; b5; b6; b7; b8; b9; b10; b11; b12; b13]) in
  let word (hi lo : byte) := byte_val hi * 256 + byte_val lo in
  let iq := (IZR (word b8 b9) / 100)%R in
  let id := (IZR (word b10 b11) / 100)%R in
  let payload :=
    if byte_val ty =? 0 then
      MainData
        {| gear_bits := Z.land (Z.shiftr (byte_val b2) 2) 3;
           gear := gear_map (Z.land (Z.shiftr (byte_val b2) 2) 3);
           rpm := word b4 b5;
           iq_current := iq;
           id_current := id;
           current_magnitude := sqrt (iq * iq + id * id);
           main_data_bytes :=
             [("gear_byte", byte_val b2); ("rpm_high", byte_val b4);
              ("rpm_low", byte_val b5); ("iq_high", byte_val b8);
              ("iq_low", byte_val b9); ("id_high", byte_val b10);
              ("id_low", byte_val b11)]%string |}
    else if byte_val ty =? 1 then
      VoltageData
        {| voltage_raw := word b2 b3;
           voltage := (IZR (word b2 b3) / 10)%R;
           voltage_data_bytes :=
             [("voltage_high", byte_val b2);
              ("voltage_low", byte_val b3)]%string |}
    else if byte_val ty =? 4 then
      ControllerTempData
        {| temperature := byte_val b2;
           controller_temp_data_bytes := [("temp_byte", byte_val b2)]%string |}
    else if byte_val ty =? 13 then
      MotorThrottleData
        {| motor_temperature := byte_val b2;
           throttle_raw := word b4 b5;
           throttle_percent := (IZR (word b4 b5) / 4095 * 100)%R;
           motor_throttle_data_bytes :=
             [("motor_temp", byte_val b2); ("throttle_high", byte_val b4);
              ("throttle_low", byte_val b5)]%string |}
    else UnknownIndex (byte_val ty) in
  let p :=
    {| index := byte_val ty;
       raw_data := hex_dump data;
       checksum_valid := byte_val ck =? expected;
       checksum := byte_val ck;
       expected_checksum := expected;
       reserved := byte_val rs;
       timestamp := now;
       parsed_data := payload |} in
  analyze_packet self data now
  = Some (Valid p, store_in_history self (Valid p)) /\
  (checksum_valid p = true <-> expected = byte_val ck) /\
  (checksum_valid p = false <-> expected <> byte_val ck) /\
  current_packet (store_in_history self (Valid p)) = Some (Valid p) /\
  ((0 < max_history self)%nat ->
   last (packet_history (store_in_history self (Valid p)))
   = Some (Valid p)).
Proof.
  intros data expected word iq id payload p.
  assert (Hword : forall hi lo : byte,
            Z.lor (Z.shiftl (byte_val hi) 8) (byte_val lo) = word hi lo).
  { intros hi lo. pose proof (byte_val_range hi).
    pose proof (byte_val_range lo). apply shift_or_is_sum; lia. }
  split; [|split; [|split; [|split]]].
  - destruct (analyze_packet_accepts self data now ltac:(cbn; lia) eq_refl)
      as (b1 & b14 & b15 & pd & Hb1 & Hb14 & Hb15 & Hpd & Heq).
    injection Hb1 as <-. injection Hb14 as <-. injection Hb15 as <-.
    rewrite Heq. cbv zeta.
    assert (Hpayload : pd = payload); [|now rewrite Hpayload].
    unfold parse_by_index in Hpd. subst payload.
    destruct (byte_val ty =? 0).
    { unfold _parse_main_data in Hpd. cbn in Hpd. injection Hpd as <-.
      rewrite !Hword. reflexivity. }
    destruct (byte_val ty =? 1).
    { unfold _parse_voltage_data in Hpd. cbn in Hpd. injection Hpd as <-.
      rewrite !Hword. reflexivity. }
    destruct (byte_val ty =? 4).
    { unfold _parse_controller_temp_data in Hpd. cbn in Hpd.
      now injection Hpd as <-. }
    destruct (byte_val ty =? 13).
    { unfold _parse_motor_throttle_data in Hpd. cbn in Hpd.
      injection Hpd as <-. rewrite !Hword. reflexivity. }
    now injection Hpd as <-.
  - subst p. cbn [checksum_valid]. rewrite Z.eqb_eq. split; congruence.
  - subst p. cbn [checksum_valid]. rewrite Z.eqb_neq. split; congruence.
  - reflexivity.
  - intros Hmax. now apply store_in_history_last.
Qed.

Lemma checksum_valid_iff_xor_witness :
  exists p d,
    analyze_packet init Frames.main_frame_bad_checksum ""
    = Some (Valid p, store_in_history init (Valid p)) /\
    checksum_valid p = false /\
    expected_checksum p = 0xA8 /\
    parsed_data p = MainData d /\
    rpm d = 5000 /\
    iq_current d = (IZR 10000 / 100)%R.
Proof.
  destruct (checksum_valid_iff_xor init ""
              x00 x04 x00 x13 x88 x00 x00 x27 x10 x00 x00 x00 x00 x00 x00)
    as (Heq & _ & Hfalse & _).
  eexists _, _. split; [exact Heq|].
  split; [apply Hfalse; discriminate|].
  split; [reflexivity|]. split; [reflexivity|]. split; reflexivity.
Defined.

(** The dictionary built by [_parse_main_data] from the bytes it reads. *)
Lemma parse_main_data_eq (data : list byte) (b2 b4 b5 b8 b9 b10 b11 : byte) :
  data !! 2%nat = Some b2 ->
  data !! 4%nat = Some b4 -> data !! 5%nat = Some b5 ->
  data !! 8%nat = Some b8 -> data !! 9%nat = Some b9 ->
  data !! 10%nat = Some b10 -> data !! 11%nat = Some b11 ->
  exists d,
    _parse_main_data data = Some d /\
    gear_bits d = Z.land (Z.shiftr (byte_val b2) 2) 3 /\
    gear d = gear_map (gear_bits d) /\
    rpm d = Z.lor (Z.shiftl (byte_val b4) 8) (byte_val b5) /\
    iq_current d
      = (IZR (Z.lor (Z.shiftl (byte_val b8) 8) (byte_val b9)) / 100)%R /\
    id_current d
      = (IZR (Z.lor (Z.shiftl (byte_val b10) 8) (byte_val b11)) / 100)%R /\
    current_magnitude d
      = sqrt (iq_current d * iq_current d + id_current d * id_current d).
Proof.
  intros H2 H4 H5 H8 H9 H10 H11. unfold _parse_main_data.
  rewrite (idx_Some _ _ _ H2), (idx_Some _ _ _ H4), (idx_Some _ _ _ H5),
    (idx_Some _ _ _ H8), (idx_Some _ _ _ H9), (idx_Some _ _ _ H10),
    (idx_Some _ _ _ H11).
  cbn [mbind option_bind]. eexists. split; [reflexivity|].
  cbn [gear_bits gear rpm iq_current id_current current_magnitude].
  repeat split.
Qed.

(** The two gear bits are bits 2 and 3 of the byte. *)
Lemma gear_bits_arith (b : Z) :
  Z.land (Z.shiftr b 2) 3 = (b / 4) mod 4.
Proof.
  rewrite Z.shiftr_div_pow2 by lia.
  change 3 with (Z.ones 2). rewrite Z.land_ones by lia. reflexivity.
Qed.

(** C2. For every accepted frame of type index 0 the packet carries
    [gear_bits = (byte2 >> 2) & 3] with the names High, Mid, Low, Mid for
    0, 1, 2, 3; [rpm = byte4 * 256 + byte5], an unsigned 16-bit value;
    [iq = (byte8 * 256 + byte9) / 100]; [id = (byte10 * 256 + byte11) / 100];
    and the magnitude [sqrt (iq^2 + id^2)].  With bytes 4..5 = [13 88] and
    bytes 8..9 = [27 10] this is rpm 5000 and iq 100, and the checksum
    flag is true when byte 14 is the XOR of bytes 1 to 13. *)
Theorem main_data_decoding (self : t) (data : list byte) (now : string)
    (b2 b4 b5 b8 b9 b10 b11 b14 : byte) :
  (16 <= length data)%nat ->
  data !! 0%nat = Some xaa ->
  data !! 1%nat = Some x00 ->
  data !! 2%nat = Some b2 ->
  data !! 4%nat = Some b4 -> data !! 5%nat = Some b5 ->
  data !! 8%nat = Some b8 -> data !! 9%nat = Some b9 ->
  data !! 10%nat = Some b10 -> data !! 11%nat = Some b11 ->
  data !! 14%nat = Some b14 ->
  exists p d,
    analyze_packet self data now
      = Some (Valid p, store_in_history self (Valid p)) /\
    index p = 0 /\
    parsed_data p = MainData d /\
    gear_bits d = Z.land (Z.shiftr (byte_val b2) 2) 3 /\
    gear_bits d = (byte_val b2 / 4) mod 4 /\
    (gear_bits d = 0 /\ gear d = "High"%string \/
     gear_bits d = 1 /\ gear d = "Mid"%string \/
     gear_bits d = 2 /\ gear d = "Low"%string \/
     gear_bits d = 3 /\ gear d = "Mid"%string) /\
    rpm d = byte_val b4 * 256 + byte_val b5 /\
    0 <= rpm d <= 65535 /\
    iq_current d = (IZR (byte_val b8 * 256 + byte_val b9) / 100)%R /\
    id_current d = (IZR (byte_val b10 * 256 + byte_val b11) / 100)%R /\
    current_magnitude d
      = sqrt (iq_current d ^ 2 + id_current d ^ 2) /\
    (b4 = x13 -> b5 = x88 -> b8 = x27 -> b9 = x10 ->
     rpm d = 5000 /\ iq_current d = 100%R /\
     (byte_val b14 = foldr Z.lxor 0 (byte_val <$> take 13 (drop 1 data)) ->
      checksum_valid p = true)).
Proof.
  intros Hlen H0 H1 H2 H4 H5 H8 H9 H10 H11 H14.
  destruct (analyze_packet_accepts self data now Hlen H0)
    as (b1 & c14 & b15 & pd & Hb1 & Hb14 & Hb15 & Hpd & Heq).
  assert (b1 = x00) as -> by congruence.
  assert (c14 = b14) as -> by congruence.
  destruct (parse_main_data_eq data _ _ _ _ _ _ _ H2 H4 H5 H8 H9 H10 H11)
    as (d & Hd & Hgb & Hg & Hrpm & Hiq & Hid & Hmag).
  assert (pd = MainData d) as ->.
  { unfold parse_by_index in Hpd. change (byte_val x00 =? 0) with true in Hpd.
    cbn [fmap option_fmap option_map] in Hpd. rewrite Hd in Hpd.
    now injection Hpd. }
  pose proof (byte_val_range b2) as R2.
  pose proof (byte_val_range b4) as R4.
  pose proof (byte_val_range b5) as R5.
  pose proof (byte_val_range b8) as R8.
  pose proof (byte_val_range b9) as R9.
  pose proof (byte_val_range b10) as R10.
  pose proof (byte_val_range b11) as R11.
  eexists _, d. split; [exact Heq|]. cbn [index parsed_data checksum_valid].
  split; [reflexivity|]. split; [reflexivity|]. split; [exact Hgb|].
  split; [rewrite Hgb; apply gear_bits_arith|].
  split.
  { rewrite Hg. rewrite Hgb, gear_bits_arith.
    assert (Hr : 0 <= (byte_val b2 / 4) mod 4 < 4) by (apply Z.mod_pos_bound; lia).
    destruct (Z.eq_dec ((byte_val b2 / 4) mod 4) 0) as [->|?]; [now left|].
    destruct (Z.eq_dec ((byte_val b2 / 4) mod 4) 1) as [->|?]; [now right; left|].
    destruct (Z.eq_dec ((byte_val b2 / 4) mod 4) 2) as [->|?];
      [now right; right; left|].
    assert ((byte_val b2 / 4) mod 4 = 3) as -> by lia.
    now right; right; right. }
  split; [rewrite Hrpm; apply shift_or_is_sum; lia|].
  split; [rewrite Hrpm; apply word16_range; lia|].
  split; [rewrite Hiq, shift_or_is_sum by lia; reflexivity|].
  split; [rewrite Hid, shift_or_is_sum by lia; reflexivity|].
  split; [rewrite Hmag; f_equal; ring|].
  intros -> -> -> ->. split; [rewrite Hrpm; reflexivity|].
  split.
  - rewrite Hiq. change (Z.lor (Z.shiftl (byte_val x27) 8) (byte_val x10))
      with 10000. lra.
  - intros Hck. apply Z.eqb_eq. exact Hck.
Qed.

Lemma main_data_decoding_witness :
  exists p d,
    analyze_packet init Frames.main_frame ""
      = Some (Valid p, store_in_history init (Valid p)) /\
    parsed_data p = MainData d /\
    gear_bits d = 1 /\ gear d = "Mid"%string /\
    rpm d = 5000 /\ iq_current d = 100%R /\ id_current d = 0%R /\
    current_magnitude d = 100%R /\
    checksum_valid p = true.
Proof.
  destruct (main_data_decoding init Frames.main_frame ""
              x04 x13 x88 x27 x10 x00 x00 xa8)
    as (p & d & Heq & _ & Hpd & Hgb & _ & Hg & _ & _ & _ & Hid & Hmag & Hex);
    try reflexivity.
  destruct (Hex eq_refl eq_refl eq_refl eq_refl) as (Hrpm & Hiq & Hck).
  exists p, d. split; [exact Heq|]. split; [exact Hpd|].
  assert (Hgb1 : gear_bits d = 1) by (rewrite Hgb; reflexivity).
  split; [exact Hgb1|].
  split.
  { rewrite Hgb1 in Hg.
    destruct Hg as [[? ?]|[[? ?]|[[? ?]|[? ?]]]]; try discriminate; assumption. }
  split; [exact Hrpm|]. split; [exact Hiq|].
  assert (Hid0 : id_current d = 0%R).
  { rewrite Hid. change (byte_val x00 * 256 + byte_val x00) with 0. lra. }
  split; [exact Hid0|].
  split.
  { rewrite Hmag, Hiq, Hid0.
    replace (100 ^ 2 + 0 ^ 2)%R with (100 * 100)%R by ring.
    apply sqrt_square. lra. }
  apply Hck. reflexivity.
Defined.

End Decoding.

(** ** Change tracking in the controller data *)

Section Store.

Import ControllerData.

Lemma ne_false_iff (a b : pyval) : ne a b = false <-> to_float a = to_float b.
Proof.
  destruct a as [x|x], b as [y|y]; simpl.
  - rewrite negb_false_iff, Z.eqb_eq. split; [now intros ->|apply eq_IZR].
  - rewrite bool_decide_eq_false. split; [apply dec_stable|tauto].
  - rewrite bool_decide_eq_false. split; [apply dec_stable|tauto].
  - rewrite bool_decide_eq_false. split; [apply dec_stable|tauto].
Qed.

Lemma ne_refl (a : pyval) : ne a a = false.
Proof. now apply ne_false_iff. Qed.

Lemma tracked_lookup (c : t) (key : string) (value : pyval) :
  tracked c key value <->
  exists last, _last_values c !! key = Some last /\ ne last value = false.
Proof.
  unfold tracked, value_changed. destruct (_last_values c !! key) as [last|].
  - split; [intros H; now exists last|now intros (? & [= <-] & ?)].
  - split; [discriminate|now intros (? & ? & ?)].
Qed.

Lemma tracked_dec (c : t) (key : string) (value : pyval) :
  {tracked c key value} + {value_changed c key value = true}.
Proof.
  unfold tracked. destruct (value_changed c key value); [now right|now left].
Qed.

Lemma getattr_telemetry (c : t) (key : string) :
  key ∈ telemetry_keys <-> is_Some (getattr c key).
Proof.
  unfold telemetry_keys, getattr. split.
  - intros H. repeat (apply elem_of_cons in H as [->|H]; [eexists; reflexivity|]).
    now apply elem_of_nil in H.
  - intros [v Hv]. revert Hv.
    repeat match goal with
           | |- context [String.eqb key ?s] =>
               destruct (String.eqb_spec key s) as [->|?];
               [intros _; set_solver|]
           end.
    discriminate.
Qed.

Lemma getattr_setattr (c : t) (key : string) (value : pyval) :
  key ∈ telemetry_keys -> getattr (setattr c key value) key = Some value.
Proof.
  unfold telemetry_keys. intros H. destruct c.
  repeat (apply elem_of_cons in H as [->|H]; [reflexivity|]).
  now apply elem_of_nil in H.
Qed.

Lemma getattr_setattr_ne (c : t) (key key' : string) (value : pyval) :
  key <> key' -> getattr (setattr c key value) key' = getattr c key'.
Proof.
  intros Hne. destruct c. unfold setattr.
  repeat match goal with
         | |- context [String.eqb key ?s] =>
             destruct (String.eqb_spec key s) as [->|?];
             [unfold getattr;
              repeat match goal with
                     | |- context [String.eqb key' ?s'] =>
                         destruct (String.eqb_spec key' s') as [->|?];
                         [first [congruence|reflexivity]|]
                     end; reflexivity|]
         end.
  reflexivity.
Qed.

Lemma setattr_untracked (c : t) (key : string) (value : pyval) :
  _last_values (setattr c key value) = _last_values c /\
  _has_changes (setattr c key value) = _has_changes c /\
  last_update (setattr c key value) = last_update c /\
  recording (setattr c key value) = recording c /\
  recorded_data (setattr c key value) = recorded_data c /\
  csv_file (setattr c key value) = csv_file c /\
  packet_count (setattr c key value) = packet_count c /\
  avg_latency (setattr c key value) = avg_latency c.
Proof.
  destruct c. unfold setattr.
  repeat match goal with
         | |- context [String.eqb key ?s] =>
             destruct (String.eqb key s); [repeat split|]
         end.
  repeat split.
Qed.

(** An update to a value that is tracked already changes nothing. *)
Lemma update_value_same (c : t) (key : string) (value : pyval)
    (now : R) (stamp : string) (auto_save : bool) :
  tracked c key value -> update_value c key value now stamp auto_save = c.
Proof.
  intros Ht. unfold update_value. now rewrite Ht.
Qed.

(** An update to a value that is not tracked writes it. *)
Lemma update_value_changed (c : t) (key : string) (value : pyval)
    (now : R) (stamp : string) (auto_save : bool) :
  value_changed c key value = true ->
  let c' := update_value c key value now stamp auto_save in
  _last_values c' = <[key := value]> (_last_values c) /\
  _has_changes c' = true /\
  (key ∈ telemetry_keys -> getattr c' key = Some value) /\
  (forall key', key <> key' -> getattr c' key' = getattr c key') /\
  last_update c' = now /\
  recording c' = recording c /\
  packet_count c' = packet_count c /\
  (recording c = true ->
   exists point, recorded_data c' = recorded_data c ++ [point] /\
                 dp_timestamp point = stamp) /\
  (recording c = false -> recorded_data c' = recorded_data c).
Proof.
  intros Hcond c'. subst c'. unfold update_value. rewrite Hcond.
  set (c1 := set_has_changes true
               (set_last_values (<[key:=value]> (_last_values c)) c)).
  assert (H1 : _last_values c1 = <[key:=value]> (_last_values c) /\
               _has_changes c1 = true /\
               (forall k, getattr c1 k = getattr c k) /\
               recording c1 = recording c /\
               packet_count c1 = packet_count c /\
               recorded_data c1 = recorded_data c)
    by (subst c1; destruct c; repeat split).
  destruct H1 as (Hlv & Hhc & Hga & Hrec & Hpc & Hrd).
  destruct (setattr_untracked c1 key value)
    as (Slv & Shc & _ & Srec & Srd & _ & Spc & _).
  set (c2 := setattr c1 key value) in *.
  assert (Hattr : key ∈ telemetry_keys -> getattr c2 key = Some value)
    by (intros Hk; apply getattr_setattr; exact Hk).
  assert (Hframe : forall key', key <> key' -> getattr c2 key' = getattr c key').
  { intros key' Hne. subst c2. rewrite getattr_setattr_ne by exact Hne.
    apply Hga. }
  clearbody c2. clearbody c1.
  rewrite Hlv in Slv. rewrite Hhc in Shc. rewrite Hrec in Srec.
  rewrite Hrd in Srd. rewrite Hpc in Spc.
  clear Hlv Hhc Hga Hrec Hpc Hrd c1.
  destruct c2; simpl in *. unfold record_data_point; simpl.
  destruct recording0; simpl.
  - destruct csv_file0 as [rows|]; [destruct auto_save|]; simpl;
      (repeat split; try assumption; try congruence;
       [intros _; eexists; split; [rewrite Srd; reflexivity|reflexivity]]).
  - repeat split; try assumption; try congruence.
Qed.

(** After an update the shadow map tracks the value, whichever branch ran. *)
Lemma update_value_tracks (c : t) (key : string) (value : pyval)
    (now : R) (stamp : string) (auto_save : bool) :
  tracked (update_value c key value now stamp auto_save) key value.
Proof.
  destruct (tracked_dec c key value) as [Ht|Hc].
  - now rewrite update_value_same.
  - destruct (update_value_changed c key value now stamp auto_save Hc)
      as (Hlv & _).
    apply tracked_lookup. exists value.
    rewrite Hlv, lookup_insert_eq. split; [reflexivity|]. apply ne_refl.
Qed.

(** An update of one key leaves what is tracked for another key. *)
Lemma update_value_tracked_other (c : t) (key key' : string)
    (value value' : pyval) (now : R) (stamp : string) (auto_save : bool) :
  key <> key' ->
  tracked c key' value' ->
  tracked (update_value c key value now stamp auto_save) key' value'.
Proof.
  intros Hne Ht. destruct (tracked_dec c key value) as [Hs|Hc].
  - now rewrite update_value_same.
  - destruct (update_value_changed c key value now stamp auto_save Hc)
      as (Hlv & _).
    apply tracked_lookup in Ht as (last & Hlast & Hn).
    apply tracked_lookup. exists last.
    rewrite Hlv, lookup_insert_ne by exact Hne. now split.
Qed.

(** An update of one key leaves the other attributes. *)
Lemma update_value_getattr_other (c : t) (key key' : string)
    (value : pyval) (now : R) (stamp : string) (auto_save : bool) :
  key <> key' ->
  getattr (update_value c key value now stamp auto_save) key' = getattr c key'.
Proof.
  intros Hne. destruct (tracked_dec c key value) as [Hs|Hc].
  - now rewrite update_value_same.
  - now apply (update_value_changed c key value now stamp auto_save Hc).
Qed.

(** The flag after an update: set when the value was written, as before
    otherwise. *)
Lemma update_value_flag (c : t) (key : string) (value : pyval)
    (now : R) (stamp : string) (auto_save : bool) :
  _has_changes (update_value c key value now stamp auto_save)
  = _has_changes c || value_changed c key value.
Proof.
  destruct (tracked_dec c key value) as [Hs|Hc].
  - rewrite update_value_same by exact Hs.
    rewrite Hs. now rewrite orb_false_r.
  - destruct (update_value_changed c key value now stamp auto_save Hc)
      as (_ & -> & _).
    rewrite Hc. now rewrite orb_true_r.
Qed.

(** An update of one key leaves the test of another key. *)
Lemma value_changed_update_other (c : t) (key key' : string)
    (value value' : pyval) (now : R) (stamp : string) (auto_save : bool) :
  key <> key' ->
  value_changed (update_value c key value now stamp auto_save) key' value'
  = value_changed c key' value'.
Proof.
  intros Hne. destruct (tracked_dec c key value) as [Hs|Hc].
  - now rewrite update_value_same.
  - destruct (update_value_changed c key value now stamp auto_save Hc)
      as (Hlv & _).
    unfold value_changed. now rewrite Hlv, lookup_insert_ne by exact Hne.
Qed.

Lemma existsb_eq_on {A : Type} (f g : A -> bool) (l : list A) :
  (forall x, x ∈ l -> f x = g x) -> existsb f l = existsb g l.
Proof.
  induction l as [|x l IH]; intros H; [reflexivity|]. simpl.
  rewrite (H x) by left. f_equal. apply IH. intros y Hy. apply H. now right.
Qed.

(** A run of updates, as [message_handler] issues them for one packet. *)
Section Updates.

Variables (now : R) (stamp : string) (auto_save : bool).

Local Abbreviation step :=
  (fun (c : t) (kv : string * pyval) =>
     update_value c kv.1 kv.2 now stamp auto_save).

Lemma updates_all_tracked (c : t) (updates : list (string * pyval)) :
  Forall (fun kv => tracked c kv.1 kv.2) updates ->
  foldl step c updates = c.
Proof.
  induction 1 as [|kv updates Hkv _ IH]; [reflexivity|].
  simpl. now rewrite update_value_same.
Qed.

Lemma updates_spec (updates : list (string * pyval)) :
  NoDup updates.*1 ->
  forall c : t,
  let c' := foldl step c updates in
  (forall kv, kv ∈ updates -> tracked c' kv.1 kv.2) /\
  (forall kv, kv ∈ updates -> kv.1 ∈ telemetry_keys ->
     value_changed c kv.1 kv.2 = true /\ getattr c' kv.1 = Some kv.2 \/
     tracked c kv.1 kv.2 /\ getattr c' kv.1 = getattr c kv.1) /\
  (forall key, key ∉ updates.*1 ->
     getattr c' key = getattr c key /\
     forall value, value_changed c' key value = value_changed c key value) /\
  _has_changes c'
  = _has_changes c || existsb (fun kv => value_changed c kv.1 kv.2) updates.
Proof.
  induction updates as [|[k0 v0] rest IH]; intros Hnd c c'.
  - subst c'. simpl. repeat split; try (intros ? H; now apply elem_of_nil in H).
    now rewrite orb_false_r.
  - rewrite fmap_cons in Hnd. apply NoDup_cons in Hnd as [Hk0 Hnd].
    simpl in Hk0.
    pose (c1 := update_value c k0 v0 now stamp auto_save).
    assert (Hc' : c' = foldl step c1 rest) by reflexivity.
    clearbody c'. subst c'.
    destruct (IH Hnd c1) as (IHa & IHb & IHc & IHd).
    assert (Hother : forall kv, kv ∈ rest -> k0 <> kv.1).
    { intros kv Hin ->. apply Hk0. apply list_elem_of_fmap. now exists kv. }
    split; [|split; [|split]].
    + intros kv Hin. apply elem_of_cons in Hin as [->|Hin]; [|now apply IHa].
      cbn [fst snd]. unfold tracked. rewrite (proj2 (IHc k0 Hk0)).
      apply update_value_tracks.
    + intros kv Hin Htel. apply elem_of_cons in Hin as [->|Hin].
      * cbn [fst snd] in *. rewrite (proj1 (IHc k0 Hk0)).
        destruct (tracked_dec c k0 v0) as [Hs|Hc].
        -- right. split; [exact Hs|]. subst c1.
           now rewrite update_value_same.
        -- left. split; [exact Hc|].
           now apply (update_value_changed c k0 v0 now stamp auto_save Hc).
      * pose proof (Hother kv Hin) as Hne.
        unfold tracked.
        rewrite <- (value_changed_update_other c k0 kv.1 v0 kv.2 now stamp
                      auto_save Hne).
        rewrite <- (update_value_getattr_other c k0 kv.1 v0 now stamp
                      auto_save Hne).
        now apply IHb.
    + intros key Hkey. apply not_elem_of_cons in Hkey as [Hne Hkey].
      cbn [fst] in Hne.
      destruct (IHc key Hkey) as [Hg Hv]. split.
      * rewrite Hg. subst c1. apply update_value_getattr_other. congruence.
      * intros value. rewrite Hv. subst c1.
        apply value_changed_update_other. congruence.
    + rewrite IHd. subst c1. rewrite update_value_flag.
      rewrite <- orb_assoc. f_equal. cbn [existsb fst snd]. f_equal.
      apply existsb_eq_on. intros kv Hin.
      apply value_changed_update_other. now apply Hother.
Qed.

End Updates.

(** The bookkeeping before the updates touches neither the telemetry
    attributes nor the change tracking. *)
Lemma bookkeeping_frame (c : t) (now packet_time latency : R) :
  let c' := update_performance_metrics (set_last_update now c)
              packet_time latency in
  (forall key, getattr c' key = getattr c key) /\
  voltage c' = voltage c /\
  _last_values c' = _last_values c /\
  _has_changes c' = _has_changes c /\
  recording c' = recording c /\
  recorded_data c' = recorded_data c /\
  packet_count c' = packet_count c + 1 /\
  last_update c' = now.
Proof.
  destruct c. simpl. repeat split.
Qed.

Lemma bookkeeping_value_changed (c : t) (now packet_time latency : R)
    (key : string) (value : pyval) :
  value_changed (update_performance_metrics (set_last_update now c)
                   packet_time latency) key value
  = value_changed c key value.
Proof.
  unfold value_changed.
  now rewrite (proj1 (proj2 (proj2 (bookkeeping_frame c now packet_time latency)))).
Qed.

End Store.

(** ** The message handler *)

Section Handler.

Import ControllerData Monitor.

Lemma word_bytes (hi lo : byte) :
  Z.lor (Z.shiftl (byte_val hi) 8) (byte_val lo)
  = byte_val hi * 256 + byte_val lo.
Proof.
  pose proof (byte_val_range hi). pose proof (byte_val_range lo).
  apply shift_or_is_sum; lia.
Qed.

(** A frame shorter than 16 bytes only counts as an error. *)
Lemma message_handler_short (s : state) (data : list byte)
    (packet_start_time now : R) (stamp : string) :
  (length data < 16)%nat ->
  message_handler s data packet_start_time now stamp
  = Some (set_ctr_data
            (set_packet_errors (packet_errors (ctr_data s) + 1) (ctr_data s)) s).
Proof.
  intros Hlen. unfold message_handler.
  rewrite analyze_packet_short by exact Hlen.
  cbn [mbind option_bind].
  now rewrite bool_decide_eq_true_2 by exact Hlen.
Qed.

(** So does a frame that does not start with [0xAA]. *)
Lemma message_handler_bad_header (s : state) (data : list byte)
    (packet_start_time now : R) (stamp : string) (b0 : byte) :
  (16 <= length data)%nat ->
  data !! 0%nat = Some b0 -> b0 <> xaa ->
  message_handler s data packet_start_time now stamp
  = Some (set_ctr_data
            (set_packet_errors (packet_errors (ctr_data s) + 1) (ctr_data s)) s).
Proof.
  intros Hlen H0 Hne. unfold message_handler.
  rewrite (analyze_packet_bad_header _ _ _ b0) by assumption.
  cbn [mbind option_bind].
  rewrite bool_decide_eq_false_2 by lia.
  rewrite (idx_Some _ _ _ H0). cbn [mbind option_bind].
  rewrite bool_decide_eq_true_2; [reflexivity|].
  intros Heq. apply Hne.
  assert (Hn : Byte.to_N b0 = Byte.to_N xaa).
  { unfold byte_val in Heq. change 170 with (Z.of_N 170) in Heq.
    apply N2Z.inj in Heq. exact Heq. }
  apply (f_equal Byte.of_N) in Hn. rewrite !Byte.of_to_N in Hn.
  now injection Hn.
Qed.

(** An accepted frame goes through the bookkeeping and then the branch of
    its type index. *)
Lemma message_handler_accepts (s : state) (data : list byte)
    (packet_start_time now : R) (stamp : string) (b1 : byte) :
  (16 <= length data)%nat ->
  data !! 0%nat = Some xaa ->
  data !! 1%nat = Some b1 ->
  exists p,
    PacketInspector.analyze_packet (packet_inspector s) data stamp
    = Some (PacketInspector.Valid p,
            PacketInspector.store_in_history (packet_inspector s)
              (PacketInspector.Valid p)) /\
    message_handler s data packet_start_time now stamp
    = (c ← process_packet
             (update_performance_metrics (set_last_update now (ctr_data s))
                packet_start_time ((now - packet_start_time) * 1000)%R)
             data (byte_val b1) now stamp (auto_save s);
       Some {| ctr_data := c;
               packet_inspector :=
                 PacketInspector.store_in_history (packet_inspector s)
                   (PacketInspector.Valid p);
               is_connected := true;
               auto_save := auto_save s |}).
Proof.
  intros Hlen H0 H1.
  destruct (analyze_packet_accepts (packet_inspector s) data
              stamp Hlen H0)
    as (c1 & b14 & b15 & pd & Hb1 & _ & _ & _ & Heq).
  eexists. split; [exact Heq|].
  unfold message_handler. rewrite Heq. cbn [mbind option_bind].
  rewrite bool_decide_eq_false_2 by lia.
  rewrite (idx_Some _ _ _ H0). cbn [mbind option_bind].
  rewrite bool_decide_eq_false_2 by (intros H; apply H; reflexivity).
  rewrite (idx_Some _ _ _ H1). cbn [mbind option_bind].
  reflexivity.
Qed.

(** The main-data branch is a run of four updates; the values are written
    here in arithmetic form. *)
Lemma process_packet_main (c : ControllerData.t) (data : list byte)
    (now : R) (stamp : string) (auto_save : bool)
    (b2 b4 b5 b8 b9 b10 b11 : byte) :
  data !! 2%nat = Some b2 ->
  data !! 4%nat = Some b4 -> data !! 5%nat = Some b5 ->
  data !! 8%nat = Some b8 -> data !! 9%nat = Some b9 ->
  data !! 10%nat = Some b10 -> data !! 11%nat = Some b11 ->
  let rpm := byte_val b4 * 256 + byte_val b5 in
  let gear := Z.max 1 (Z.min 3 ((byte_val b2 / 4) mod 4)) in
  let iq := (IZR (byte_val b8 * 256 + byte_val b9) / 100)%R in
  let id := (IZR (byte_val b10 * 256 + byte_val b11) / 100)%R in
  let magnitude := sqrt (iq ^ 2 + id ^ 2) in
  let power :=
    if bool_decide (iq < 0 \/ id < 0)%R
    then (- (- magnitude * to_float (voltage c)))%R
    else (- magnitude * to_float (voltage c))%R in
  let speed := (IZR rpm / 4.0 * 1.350 * 0.06)%R in
  process_packet c data 0 now stamp auto_save
  = Some (foldl (fun c kv => update_value c kv.1 kv.2 now stamp auto_save) c
            [("rpm", PInt rpm); ("gear", PInt gear);
             ("power", PFloat power); ("speed", PFloat speed)]%string).
Proof.
  intros H2 H4 H5 H8 H9 H10 H11. unfold process_packet.
  change (0 =? 0) with true. cbv iota.
  rewrite (idx_Some _ _ _ H2), (idx_Some _ _ _ H4), (idx_Some _ _ _ H5),
    (idx_Some _ _ _ H8), (idx_Some _ _ _ H9), (idx_Some _ _ _ H10),
    (idx_Some _ _ _ H11).
  cbn [mbind option_bind foldl fst snd]. cbv zeta.
  rewrite !word_bytes, gear_bits_arith.
  set (iq := (IZR (byte_val b8 * 256 + byte_val b9) / 100)%R).
  set (id := (IZR (byte_val b10 * 256 + byte_val b11) / 100)%R).
  replace (iq * iq + id * id)%R with (iq ^ 2 + id ^ 2)%R by ring.
  replace (bool_decide (iq < 0)%R || bool_decide (id < 0)%R)
    with (bool_decide (iq < 0 \/ id < 0)%R)
    by apply bool_decide_or.
  replace (IZR (byte_val b4 * 256 + byte_val b5) / 4 * 1.350 * 0.06)%R
    with (IZR (byte_val b4 * 256 + byte_val b5) / 4.0 * 1.350 * 0.06)%R
    by lra.
  reflexivity.
Qed.

(** An accepted main-data frame: the handler returns, and the controller
    data is the bookkeeping followed by the four updates. *)
Lemma message_handler_main (s : state) (data : list byte)
    (packet_start_time now : R) (stamp : string)
    (b2 b4 b5 b8 b9 b10 b11 : byte) :
  (16 <= length data)%nat ->
  data !! 0%nat = Some xaa ->
  data !! 1%nat = Some x00 ->
  data !! 2%nat = Some b2 ->
  data !! 4%nat = Some b4 -> data !! 5%nat = Some b5 ->
  data !! 8%nat = Some b8 -> data !! 9%nat = Some b9 ->
  data !! 10%nat = Some b10 -> data !! 11%nat = Some b11 ->
  let c := ctr_data s in
  let rpm := byte_val b4 * 256 + byte_val b5 in
  let gear := Z.max 1 (Z.min 3 ((byte_val b2 / 4) mod 4)) in
  let iq := (IZR (byte_val b8 * 256 + byte_val b9) / 100)%R in
  let id := (IZR (byte_val b10 * 256 + byte_val b11) / 100)%R in
  let magnitude := sqrt (iq ^ 2 + id ^ 2) in
  let power :=
    if bool_decide (iq < 0 \/ id < 0)%R
    then (- (- magnitude * to_float (voltage c)))%R
    else (- magnitude * to_float (voltage c))%R in
  let speed := (IZR rpm / 4.0 * 1.350 * 0.06)%R in
  exists s',
    message_handler s data packet_start_time now stamp = Some s' /\
    is_connected s' = true /\
    ctr_data s'
    = foldl (fun c kv => update_value c kv.1 kv.2 now stamp (auto_save s))
        (update_performance_metrics (set_last_update now c)
           packet_start_time ((now - packet_start_time) * 1000)%R)
        [("rpm", PInt rpm); ("gear", PInt gear);
         ("power", PFloat power); ("speed", PFloat speed)]%string.
Proof.
  intros Hlen H0 H1 H2 H4 H5 H8 H9 H10 H11 c rpm gear iq id magnitude power
    speed.
  destruct (message_handler_accepts s data packet_start_time now stamp x00
              Hlen H0 H1) as (p & _ & Hmh).
  destruct (bookkeeping_frame (ctr_data s) now packet_start_time
              ((now - packet_start_time) * 1000)%R)
    as (_ & Hvolt & _).
  set (c0 := update_performance_metrics (set_last_update now (ctr_data s))
               packet_start_time ((now - packet_start_time) * 1000)%R) in *.
  change (byte_val x00) with 0 in Hmh.
  rewrite (process_packet_main c0 data now stamp (auto_save s)
             b2 b4 b5 b8 b9 b10 b11 H2 H4 H5 H8 H9 H10 H11) in Hmh.
  cbn [mbind option_bind] in Hmh. rewrite Hvolt in Hmh.
  eexists. split; [exact Hmh|]. split; reflexivity.
Qed.

(** The keys of a main-data packet are four distinct telemetry names. *)
Lemma main_keys (rpm gear power speed : pyval) :
  let updates :=
    [("rpm", rpm); ("gear", gear); ("power", power); ("speed", speed)]%string in
  NoDup updates.*1 /\ forall kv, kv ∈ updates -> kv.1 ∈ telemetry_keys.
Proof.
  split.
  - cbn [fmap list_fmap fst]. compute_done.
  - intros kv Hin. unfold telemetry_keys.
    repeat (apply elem_of_cons in Hin as [->|Hin]; [compute_done|]).
    now apply elem_of_nil in Hin.
Qed.

(** What the handler does with an accepted frame of type index 0: four
    field updates, of [rpm], of [gear] clamped to 1..3, of
    [power = - magnitude * voltage] (negated once more when iq or id is
    negative) with the voltage attribute the store holds at that moment,
    and of [speed = (rpm / 4.0) * 1.350 * 0.06].  Afterwards the store
    tracks each of the four values, and each attribute holds its new
    value unless that value was tracked before, in which case the
    compare-and-set update left the attribute as it was. *)
Theorem main_data_store_update (s : state) (data : list byte)
    (packet_start_time now : R) (stamp : string)
    (b2 b4 b5 b8 b9 b10 b11 : byte) :
  (16 <= length data)%nat ->
  data !! 0%nat = Some xaa ->
  data !! 1%nat = Some x00 ->
  data !! 2%nat = Some b2 ->
  data !! 4%nat = Some b4 -> data !! 5%nat = Some b5 ->
  data !! 8%nat = Some b8 -> data !! 9%nat = Some b9 ->
  data !! 10%nat = Some b10 -> data !! 11%nat = Some b11 ->
  let c := ctr_data s in
  let rpm := byte_val b4 * 256 + byte_val b5 in
  let gear := Z.max 1 (Z.min 3 ((byte_val b2 / 4) mod 4)) in
  let iq := (IZR (byte_val b8 * 256 + byte_val b9) / 100)%R in
  let id := (IZR (byte_val b10 * 256 + byte_val b11) / 100)%R in
  let magnitude := sqrt (iq ^ 2 + id ^ 2) in
  let power :=
    if bool_decide (iq < 0 \/ id < 0)%R
    then (- (- magnitude * to_float (voltage c)))%R
    else (- magnitude * to_float (voltage c))%R in
  let speed := (IZR rpm / 4.0 * 1.350 * 0.06)%R in
  let updates :=
    [("rpm", PInt rpm); ("gear", PInt gear);
     ("power", PFloat power); ("speed", PFloat speed)]%string in
  exists s',
    message_handler s data packet_start_time now stamp = Some s' /\
    1 <= gear <= 3 /\
    ctr_data s'
    = foldl (fun c kv => update_value c kv.1 kv.2 now stamp (auto_save s))
        (update_performance_metrics (set_last_update now c)
           packet_start_time ((now - packet_start_time) * 1000)%R)
        updates /\
    Forall (fun kv =>
              tracked (ctr_data s') kv.1 kv.2 /\
              (getattr (ctr_data s') kv.1 = Some kv.2 \/
               tracked c kv.1 kv.2 /\
               getattr (ctr_data s') kv.1 = getattr c kv.1))
           updates.
Proof.
  intros Hlen H0 H1 H2 H4 H5 H8 H9 H10 H11 c rpm gear iq id magnitude power
    speed updates.
  destruct (message_handler_main s data packet_start_time now stamp
              b2 b4 b5 b8 b9 b10 b11 Hlen H0 H1 H2 H4 H5 H8 H9 H10 H11)
    as (s' & Hmh & _ & Hc).
  fold c rpm gear iq id magnitude power speed updates in Hc.
  exists s'. split; [exact Hmh|]. split; [subst gear; lia|].
  split; [exact Hc|]. rewrite Hc.
  destruct (bookkeeping_frame c now packet_start_time
              ((now - packet_start_time) * 1000)%R) as (Hga & _).
  set (c0 := update_performance_metrics (set_last_update now c)
               packet_start_time ((now - packet_start_time) * 1000)%R) in *.
  destruct (main_keys (PInt rpm) (PInt gear) (PFloat power) (PFloat speed))
    as (Hnd & Htel).
  destruct (updates_spec now stamp (auto_save s) updates Hnd c0)
    as (Ha & Hb & _).
  apply Forall_forall. intros kv Hin. split; [now apply Ha|].
  destruct (Hb kv Hin (Htel kv Hin)) as [[_ Hw]|[Ht Hu]].
  - now left.
  - right. unfold tracked in *. subst c0.
    rewrite bookkeeping_value_changed in Ht.
    split; [exact Ht|]. etransitivity; [exact Hu|apply Hga].
Qed.

Lemma main_data_store_update_witness :
  exists s',
    message_handler (Monitor.init 0) Frames.main_frame 0 0 "" = Some s' /\
    getattr (ctr_data s') "rpm" = Some (PInt 5000) /\
    getattr (ctr_data s') "gear" = Some (PInt 1) /\
    tracked (ctr_data s') "rpm" (PInt 5000).
Proof.
  destruct (main_data_store_update (Monitor.init 0) Frames.main_frame 0 0 ""
              x04 x13 x88 x27 x10 x00 x00)
    as (s' & Hmh & _ & _ & Hall); try reflexivity.
  apply Forall_cons in Hall as [[Ht Hrpm] Hall].
  apply Forall_cons in Hall as [[_ Hgear] _].
  exists s'. split; [exact Hmh|].
  split; [|split].
  - destruct Hrpm as [Hrpm|[Htr _]]; [exact Hrpm|].
    vm_compute in Htr. discriminate.
  - destruct Hgear as [Hgear|[Htr _]]; [exact Hgear|].
    vm_compute in Htr. discriminate.
  - exact Ht.
Defined.

(** C8. In an accepted main-data frame iq and id are unsigned 16-bit
    values divided by 100, hence never negative: the test that guards the
    sign flip of the power is false, the power handed to the update is
    [- magnitude * voltage], and with a voltage that is not negative it is
    at most zero. *)
Theorem power_never_positive (s : state) (data : list byte)
    (packet_start_time now : R) (stamp : string)
    (b2 b4 b5 b8 b9 b10 b11 : byte) :
  (16 <= length data)%nat ->
  data !! 0%nat = Some xaa ->
  data !! 1%nat = Some x00 ->
  data !! 2%nat = Some b2 ->
  data !! 4%nat = Some b4 -> data !! 5%nat = Some b5 ->
  data !! 8%nat = Some b8 -> data !! 9%nat = Some b9 ->
  data !! 10%nat = Some b10 -> data !! 11%nat = Some b11 ->
  (0 <= to_float (voltage (ctr_data s)))%R ->
  let iq_raw := Z.lor (Z.shiftl (byte_val b8) 8) (byte_val b9) in
  let id_raw := Z.lor (Z.shiftl (byte_val b10) 8) (byte_val b11) in
  let iq := (IZR iq_raw / 100)%R in
  let id := (IZR id_raw / 100)%R in
  let power :=
    (- sqrt (iq * iq + id * id) * to_float (voltage (ctr_data s)))%R in
  0 <= iq_raw <= 65535 /\ 0 <= id_raw <= 65535 /\
  (0 <= iq)%R /\ (0 <= id)%R /\
  bool_decide (iq < 0)%R || bool_decide (id < 0)%R = false /\
  (power <= 0)%R /\
  exists d s',
    PacketInspector._parse_main_data data = Some d /\
    PacketInspector.iq_current d = iq /\
    PacketInspector.id_current d = id /\
    message_handler s data packet_start_time now stamp = Some s' /\
    tracked (ctr_data s') "power" (PFloat power) /\
    (getattr (ctr_data s') "power" = Some (PFloat power) \/
     tracked (ctr_data s) "power" (PFloat power) /\
     getattr (ctr_data s') "power" = getattr (ctr_data s) "power").
Proof.
  intros Hlen H0 H1 H2 H4 H5 H8 H9 H10 H11 Hvolt iq_raw id_raw iq id power.
  pose proof (byte_val_range b8) as R8. pose proof (byte_val_range b9) as R9.
  pose proof (byte_val_range b10) as R10.
  pose proof (byte_val_range b11) as R11.
  assert (Hiq_raw : 0 <= iq_raw <= 65535) by (apply word16_range; lia).
  assert (Hid_raw : 0 <= id_raw <= 65535) by (apply word16_range; lia).
  assert (Hiq : (0 <= iq)%R).
  { assert (0 <= IZR iq_raw)%R by (apply IZR_le; lia). subst iq. lra. }
  assert (Hid : (0 <= id)%R).
  { assert (0 <= IZR id_raw)%R by (apply IZR_le; lia). subst id. lra. }
  assert (Hflip : bool_decide (iq < 0)%R || bool_decide (id < 0)%R = false).
  { rewrite !bool_decide_eq_false_2 by lra. reflexivity. }
  assert (Hpow : (power <= 0)%R).
  { subst power. pose proof (sqrt_pos (iq * iq + id * id)) as Hs. nra. }
  repeat (split; [assumption|]).
  destruct (parse_main_data_eq data _ _ _ _ _ _ _ H2 H4 H5 H8 H9 H10 H11)
    as (d & Hd & _ & _ & _ & Hdiq & Hdid & _).
  destruct (message_handler_main s data packet_start_time now stamp
              b2 b4 b5 b8 b9 b10 b11 Hlen H0 H1 H2 H4 H5 H8 H9 H10 H11)
    as (s' & Hmh & _ & Hc).
  exists d, s'. repeat (split; [assumption|]).
  rewrite <- !word_bytes in Hc. fold iq_raw id_raw iq id in Hc.
  rewrite bool_decide_or, Hflip in Hc.
  replace (iq ^ 2 + id ^ 2)%R with (iq * iq + id * id)%R in Hc by ring.
  fold power in Hc. rewrite Hc.
  destruct (bookkeeping_frame (ctr_data s) now packet_start_time
              ((now - packet_start_time) * 1000)%R) as (Hga & _).
  set (c0 := update_performance_metrics (set_last_update now (ctr_data s))
               packet_start_time ((now - packet_start_time) * 1000)%R) in *.
  match goal with
  | |- context [foldl _ c0 [(_, ?r); (_, ?g); (_, ?p); (_, ?v)]] =>
      destruct (main_keys r g p v) as (Hnd & Htel);
      set (updates := [("rpm", r); ("gear", g); ("power", p);
                       ("speed", v)]%string) in *
  end.
  assert (Hin : ("power"%string, PFloat power) ∈ updates)
    by (subst updates; do 2 right; left).
  destruct (updates_spec now stamp (auto_save s) updates Hnd c0)
    as (Ha & Hb & _).
  split; [exact (Ha _ Hin)|].
  destruct (Hb _ Hin (Htel _ Hin)) as [[_ Hw]|[Ht Hu]].
  - now left.
  - right. unfold tracked in *. subst c0.
    rewrite bookkeeping_value_changed in Ht.
    split; [exact Ht|]. etransitivity; [exact Hu|apply Hga].
Qed.

Lemma power_never_positive_witness :
  (0 <= to_float (voltage (ctr_data Frames.at_90_volts)))%R /\
  exists s' power,
    message_handler Frames.at_90_volts Frames.main_frame 0 0 "" = Some s' /\
    getattr (ctr_data s') "power" = Some (PFloat power) /\
    (power <= 0)%R.
Proof.
  assert (Hv : (0 <= to_float (voltage (ctr_data Frames.at_90_volts)))%R)
    by (simpl; lra).
  split; [exact Hv|].
  destruct (power_never_positive Frames.at_90_volts Frames.main_frame 0 0 ""
              x04 x13 x88 x27 x10 x00 x00)
    as (_ & _ & _ & _ & _ & Hle & d & s' & _ & _ & _ & Hmh & _ & Hattr);
    try reflexivity; [exact Hv|].
  exists s'. eexists. split; [exact Hmh|].
  destruct Hattr as [Hattr|[Htr _]].
  - split; [exact Hattr|exact Hle].
  - vm_compute in Htr. discriminate.
Defined.

(** Every branch of the handler is a run of updates of distinct telemetry
    attributes.  The run depends on the frame and, for main data, on the
    voltage attribute; it is empty exactly for the type indices that no
    branch handles. *)
Lemma process_packet_updates (data : list byte) (index : Z) (v : pyval) :
  (16 <= length data)%nat ->
  exists updates : list (string * pyval),
    NoDup updates.*1 /\
    (forall kv, kv ∈ updates -> kv.1 ∈ telemetry_keys) /\
    (index = 0 -> "voltage"%string ∉ updates.*1) /\
    (updates = [] <-> ~ (index = 0 \/ index = 1 \/ index = 4 \/ index = 13)) /\
    forall (c : ControllerData.t) (now : R) (stamp : string) (auto_save : bool),
      (index = 0 -> voltage c = v) ->
      process_packet c data index now stamp auto_save
      = Some (foldl (fun c kv => update_value c kv.1 kv.2 now stamp auto_save)
                c updates).
Proof.
  intros Hlen.
  destruct (idx_in_range data 2 ltac:(lia)) as (b2 & H2 & I2).
  destruct (idx_in_range data 3 ltac:(lia)) as (b3 & H3 & I3).
  destruct (idx_in_range data 4 ltac:(lia)) as (b4 & H4 & I4).
  destruct (idx_in_range data 5 ltac:(lia)) as (b5 & H5 & I5).
  destruct (idx_in_range data 8 ltac:(lia)) as (b8 & H8 & I8).
  destruct (idx_in_range data 9 ltac:(lia)) as (b9 & H9 & I9).
  destruct (idx_in_range data 10 ltac:(lia)) as (b10 & H10 & I10).
  destruct (idx_in_range data 11 ltac:(lia)) as (b11 & H11 & I11).
  destruct (Z.eq_dec index 0) as [->|N0].
  { pose proof (fun c now stamp auto_save =>
                  process_packet_main c data now stamp auto_save
                    b2 b4 b5 b8 b9 b10 b11 H2 H4 H5 H8 H9 H10 H11) as Hm.
    cbv zeta in Hm.
    eexists [("rpm", _); ("gear", _); ("power", PFloat _); ("speed", _)]%string.
    split; [apply main_keys|]. split; [apply main_keys|].
    split; [intros _; cbn [fmap list_fmap fst]; compute_done|].
    split; [split; [discriminate|intros H; exfalso; apply H; now left]|].
    intros c now stamp auto_save Hv. rewrite Hm, (Hv eq_refl). reflexivity. }
  destruct (Z.eq_dec index 1) as [->|N1].
  { exists [("voltage"%string,
             PFloat (IZR (Z.lor (Z.shiftl (byte_val b2) 8) (byte_val b3)) / 10))].
    split; [cbn [fmap list_fmap fst]; compute_done|].
    split; [intros kv ->%list_elem_of_singleton; compute_done|].
    split; [discriminate|].
    split; [split; [discriminate|intros H; exfalso; apply H; now right; left]|].
    intros c now stamp auto_save _. unfold process_packet.
    change (1 =? 0) with false. change (1 =? 1) with true. cbv iota.
    rewrite I2, I3. reflexivity. }
  destruct (Z.eq_dec index 4) as [->|N4].
  { exists [("controller_temp"%string, PInt (byte_val b2))].
    split; [cbn [fmap list_fmap fst]; compute_done|].
    split; [intros kv ->%list_elem_of_singleton; compute_done|].
    split; [discriminate|].
    split; [split; [discriminate|
                    intros H; exfalso; apply H; now right; right; left]|].
    intros c now stamp auto_save _. unfold process_packet.
    change (4 =? 0) with false. change (4 =? 1) with false.
    change (4 =? 4) with true. cbv iota.
    rewrite I2. reflexivity. }
  destruct (Z.eq_dec index 13) as [->|N13].
  { exists [("motor_temp"%string, PInt (byte_val b2));
            ("throttle"%string,
             PInt (Z.lor (Z.shiftl (byte_val b4) 8) (byte_val b5)))].
    split; [cbn [fmap list_fmap fst]; compute_done|].
    split.
    { intros kv Hin.
      repeat (apply elem_of_cons in Hin as [->|Hin]; [compute_done|]).
      now apply elem_of_nil in Hin. }
    split; [discriminate|].
    split; [split; [discriminate|
                    intros H; exfalso; apply H; now right; right; right]|].
    intros c now stamp auto_save _. unfold process_packet.
    change (13 =? 0) with false. change (13 =? 1) with false.
    change (13 =? 4) with false. change (13 =? 13) with true. cbv iota.
    rewrite I2, I4, I5. reflexivity. }
  exists []. split; [apply NoDup_nil_2|].
  split; [intros kv Hin; now apply elem_of_nil in Hin|].
  split; [intros ->; congruence|].
  split; [split; [intros _; lia|reflexivity]|].
  intros c now stamp auto_save _. unfold process_packet.
  rewrite (proj2 (Z.eqb_neq index 0)), (proj2 (Z.eqb_neq index 1)),
    (proj2 (Z.eqb_neq index 4)), (proj2 (Z.eqb_neq index 13)) by assumption.
  reflexivity.
Qed.

(** The handler returns for every byte sequence: no read is out of range. *)
Lemma message_handler_total (s : state) (data : list byte)
    (packet_start_time now : R) (stamp : string) :
  is_Some (message_handler s data packet_start_time now stamp).
Proof.
  destruct (Nat.lt_ge_cases (length data) 16) as [Hshort|Hlong].
  - rewrite message_handler_short by exact Hshort. eexists; reflexivity.
  - destruct (lookup_lt_is_Some_2 data 0 ltac:(lia)) as [b0 H0].
    destruct (decide (b0 = xaa)) as [->|Hne].
    + destruct (lookup_lt_is_Some_2 data 1 ltac:(lia)) as [b1 H1].
      destruct (message_handler_accepts s data packet_start_time now stamp b1
                  Hlong H0 H1) as (p & _ & ->).
      destruct (process_packet_updates data (byte_val b1)
                  (voltage
                     (update_performance_metrics
                        (set_last_update now (ctr_data s)) packet_start_time
                        ((now - packet_start_time) * 1000)%R)) Hlong)
        as (updates & _ & _ & _ & _ & ->); [|reflexivity].
      eexists; reflexivity.
    + rewrite (message_handler_bad_header s data _ _ _ b0) by assumption.
      eexists; reflexivity.
Qed.

(** ** Applying a packet twice *)

Lemma getattr_voltage (c : ControllerData.t) :
  getattr c "voltage" = Some (voltage c).
Proof. reflexivity. Qed.

(** What an accepted frame does to the controller data: the bookkeeping,
    then the run of updates of its type index. *)
Lemma message_handler_updates (data : list byte) (b1 : byte) (v : pyval) :
  (16 <= length data)%nat ->
  data !! 0%nat = Some xaa ->
  data !! 1%nat = Some b1 ->
  exists updates : list (string * pyval),
    NoDup updates.*1 /\
    (forall kv, kv ∈ updates -> kv.1 ∈ telemetry_keys) /\
    (byte_val b1 = 0 -> "voltage"%string ∉ updates.*1) /\
    (updates = [] <->
     ~ (byte_val b1 = 0 \/ byte_val b1 = 1 \/ byte_val b1 = 4 \/
        byte_val b1 = 13)) /\
    forall (s : state) (packet_start_time now : R) (stamp : string),
      (byte_val b1 = 0 -> voltage (ctr_data s) = v) ->
      exists s',
        message_handler s data packet_start_time now stamp = Some s' /\
        is_connected s' = true /\
        auto_save s' = auto_save s /\
        ctr_data s'
        = foldl (fun c kv => update_value c kv.1 kv.2 now stamp (auto_save s))
            (update_performance_metrics (set_last_update now (ctr_data s))
               packet_start_time ((now - packet_start_time) * 1000)%R)
            updates.
Proof.
  intros Hlen H0 H1.
  destruct (process_packet_updates data (byte_val b1) v Hlen)
    as (updates & Hnd & Htel & Hvolt & Hnil & Hpp).
  exists updates. repeat (split; [assumption|]).
  intros s packet_start_time now stamp Hv.
  destruct (message_handler_accepts s data packet_start_time now stamp b1
              Hlen H0 H1) as (p & _ & ->).
  rewrite Hpp.
  - eexists. split; [reflexivity|]. repeat split.
  - intros Hi.
    rewrite (proj1 (proj2 (bookkeeping_frame (ctr_data s) now
                             packet_start_time _))).
    now apply Hv.
Qed.

(** Consuming the flag leaves everything else. *)
Lemma has_changes_frame (c : ControllerData.t) :
  (has_changes c).1 = _has_changes c /\
  _has_changes (has_changes c).2 = false /\
  _last_values (has_changes c).2 = _last_values c /\
  voltage (has_changes c).2 = voltage c /\
  recorded_data (has_changes c).2 = recorded_data c /\
  (forall key, getattr (has_changes c).2 key = getattr c key) /\
  (forall key value,
     value_changed (has_changes c).2 key value = value_changed c key value).
Proof.
  destruct c. cbn. repeat split.
Qed.

(** The second of two applications of one frame, with the flag consumed in
    between, finds every value tracked: it sets no flag and writes no
    attribute, tracked value or data point. *)
Lemma message_handler_twice (s : state) (data : list byte)
    (t0 now : R) (stamp : string) (t0' now' : R) (stamp' : string) :
  exists s1 s2,
    message_handler s data t0 now stamp = Some s1 /\
    message_handler (set_ctr_data (has_changes (ctr_data s1)).2 s1) data
      t0' now' stamp' = Some s2 /\
    _has_changes (ctr_data s2) = false /\
    _last_values (ctr_data s2) = _last_values (ctr_data s1) /\
    recorded_data (ctr_data s2) = recorded_data (ctr_data s1) /\
    forall key, getattr (ctr_data s2) key = getattr (ctr_data s1) key.
Proof.
  destruct (has_changes_frame
              (set_packet_errors (packet_errors (ctr_data s) + 1) (ctr_data s)))
    as (_ & Rhc & Rlv & _ & Rrd & Rga & _).
  assert (Hrej : forall c : ControllerData.t,
            _has_changes c = false ->
            let c' := set_packet_errors (packet_errors c + 1) c in
            _has_changes c' = false /\ _last_values c' = _last_values c /\
            recorded_data c' = recorded_data c /\
            forall key, getattr c' key = getattr c key).
  { intros c Hc. destruct c. cbn in *. repeat split. exact Hc. }
  destruct (Nat.lt_ge_cases (length data) 16) as [Hshort|Hlong].
  { eexists _, _. rewrite !message_handler_short by exact Hshort.
    split; [reflexivity|]. split; [reflexivity|]. cbn [ctr_data set_ctr_data].
    destruct (Hrej _ Rhc) as (Qhc & Qlv & Qrd & Qga).
    split; [exact Qhc|]. split; [now rewrite Qlv, Rlv|].
    split; [now rewrite Qrd, Rrd|]. intros key. now rewrite Qga, Rga. }
  destruct (lookup_lt_is_Some_2 data 0 ltac:(lia)) as [b0 H0].
  destruct (decide (b0 = xaa)) as [->|Hne].
  2:{ eexists _, _.
      rewrite !(message_handler_bad_header _ data _ _ _ b0) by assumption.
      split; [reflexivity|]. split; [reflexivity|]. cbn [ctr_data set_ctr_data].
      destruct (Hrej _ Rhc) as (Qhc & Qlv & Qrd & Qga).
      split; [exact Qhc|]. split; [now rewrite Qlv, Rlv|].
      split; [now rewrite Qrd, Rrd|]. intros key. now rewrite Qga, Rga. }
  destruct (lookup_lt_is_Some_2 data 1 ltac:(lia)) as [b1 H1].
  destruct (message_handler_updates data b1 (voltage (ctr_data s)) Hlong H0 H1)
    as (updates & Hnd & Htel & Hvolt & _ & Hmh).
  destruct (Hmh s t0 now stamp (fun _ => eq_refl))
    as (s1 & Hs1 & _ & Hauto & Hc1).
  destruct (bookkeeping_frame (ctr_data s) now t0 ((now - t0) * 1000)%R)
    as (_ & Bvolt & _).
  set (c0 := update_performance_metrics (set_last_update now (ctr_data s)) t0
               ((now - t0) * 1000)%R) in *.
  destruct (updates_spec now stamp (auto_save s) updates Hnd c0)
    as (Ha & _ & Hc & _).
  rewrite <- Hc1 in Ha, Hc.
  destruct (has_changes_frame (ctr_data s1))
    as (_ & Fhc & Flv & Fvolt & Frd & Fga & Fvc).
  set (c1 := (has_changes (ctr_data s1)).2) in *.
  destruct (Hmh (set_ctr_data c1 s1) t0' now' stamp') as (s2 & Hs2 & _ & _ & Hc2).
  { intros Hi. cbn [ctr_data set_ctr_data]. rewrite Fvolt.
    pose proof (proj1 (Hc "voltage"%string (Hvolt Hi))) as Hg.
    rewrite !getattr_voltage in Hg. injection Hg as ->. exact Bvolt. }
  cbn [ctr_data set_ctr_data auto_save] in Hc2.
  destruct (bookkeeping_frame c1 now' t0' ((now' - t0') * 1000)%R)
    as (Bga & _ & Blv & Bhc & _ & Brd & _).
  rewrite updates_all_tracked in Hc2.
  2:{ apply Forall_forall. intros kv Hin. unfold tracked.
      rewrite bookkeeping_value_changed. subst c1. rewrite Fvc.
      now apply Ha. }
  exists s1, s2. split; [exact Hs1|]. split; [exact Hs2|]. rewrite Hc2.
  split; [now rewrite Bhc|]. split; [now rewrite Blv|].
  split; [now rewrite Brd|]. intros key. now rewrite Bga.
Qed.

(** The flag after one application: an accepted frame raises it exactly
    when one of the values of its run of updates is not tracked yet; the
    run is empty for a rejected frame and for a type index that no branch
    handles. *)
Lemma message_handler_flag (s : state) (data : list byte)
    (t0 now : R) (stamp : string) :
  exists s1 (updates : list (string * pyval)),
    message_handler s data t0 now stamp = Some s1 /\
    (updates <> [] <->
     (16 <= length data)%nat /\ data !! 0%nat = Some xaa /\
     exists b1, data !! 1%nat = Some b1 /\
       (byte_val b1 = 0 \/ byte_val b1 = 1 \/ byte_val b1 = 4 \/
        byte_val b1 = 13)) /\
    ((16 <= length data)%nat -> data !! 0%nat = Some xaa ->
     ctr_data s1
     = foldl (fun c kv => update_value c kv.1 kv.2 now stamp (auto_save s))
         (update_performance_metrics (set_last_update now (ctr_data s))
            t0 ((now - t0) * 1000)%R)
         updates) /\
    _has_changes (ctr_data s1)
    = _has_changes (ctr_data s)
      || existsb (fun kv => value_changed (ctr_data s) kv.1 kv.2) updates.
Proof.
  assert (Hrej : forall c : ControllerData.t,
            _has_changes (set_packet_errors (packet_errors c + 1) c)
            = _has_changes c) by (intros c; destruct c; reflexivity).
  destruct (Nat.lt_ge_cases (length data) 16) as [Hshort|Hlong].
  { exists (set_ctr_data
              (set_packet_errors (packet_errors (ctr_data s) + 1) (ctr_data s))
              s), [].
    split; [now apply message_handler_short|].
    split; [split; [congruence|intros (? & _); lia]|].
    split; [intros; lia|]. cbn [ctr_data set_ctr_data existsb].
    now rewrite Hrej, orb_false_r. }
  destruct (lookup_lt_is_Some_2 data 0 ltac:(lia)) as [b0 H0].
  destruct (decide (b0 = xaa)) as [->|Hne].
  2:{ exists (set_ctr_data
                (set_packet_errors (packet_errors (ctr_data s) + 1)
                   (ctr_data s)) s), [].
      split; [now apply (message_handler_bad_header _ _ _ _ _ b0)|].
      split; [split; [congruence|intros (_ & ? & _); congruence]|].
      split; [intros; congruence|]. cbn [ctr_data set_ctr_data existsb].
      now rewrite Hrej, orb_false_r. }
  destruct (lookup_lt_is_Some_2 data 1 ltac:(lia)) as [b1 H1].
  destruct (message_handler_updates data b1 (voltage (ctr_data s)) Hlong H0 H1)
    as (updates & Hnd & _ & _ & Hnil & Hmh).
  destruct (Hmh s t0 now stamp (fun _ => eq_refl)) as (s1 & Hs1 & _ & _ & Hc1).
  destruct (bookkeeping_frame (ctr_data s) now t0 ((now - t0) * 1000)%R)
    as (_ & _ & _ & Bhc & _).
  destruct (updates_spec now stamp (auto_save s) updates Hnd
              (update_performance_metrics (set_last_update now (ctr_data s))
                 t0 ((now - t0) * 1000)%R))
    as (_ & _ & _ & Hd).
  rewrite <- Hc1, Bhc in Hd.
  exists s1, updates. split; [exact Hs1|]. split; [|split].
  - split.
    + intros Hne. split; [exact Hlong|]. split; [exact H0|].
      exists b1. split; [exact H1|].
      destruct (decide (byte_val b1 = 0 \/ byte_val b1 = 1 \/
                        byte_val b1 = 4 \/ byte_val b1 = 13))
        as [Hd'|Hn]; [exact Hd'|].
      exfalso. apply Hne. now apply Hnil.
    + intros (_ & _ & b1' & H1' & Hdoc) Hemp.
      assert (b1' = b1) as -> by congruence. now apply Hnil in Hemp.
  - intros _ _. exact Hc1.
  - rewrite Hd. f_equal. apply existsb_eq_on. intros kv _.
    apply bookkeeping_value_changed.
Qed.

(** C5, as the code has it.  [update_value] is a compare-and-set against
    the value last tracked for the key: when a value equal to the new one
    is tracked it is a no-op; otherwise (another value tracked, or none
    yet) it tracks the value, writes the attribute, raises the change flag,
    sets [last_update] and, while recording, appends one data point.
    [has_changes] returns the flag and clears it, so the next call returns
    false.  Applying the same frame twice, with the flag consumed in
    between, leaves the flag clear after the second application, whatever
    the frame and the store.  After the first application the flag is set
    exactly when it was set before or one of the values that the frame
    carries is not tracked yet: always on a store that tracks nothing, for
    an accepted frame of type index 0, 1, 4 or 13; never by a rejected
    frame or by one of another type index, which carry no value. *)
Theorem update_value_compare_and_set :
  (forall (c : ControllerData.t) (key : string) (value : pyval)
          (now : R) (stamp : string) (auto_save : bool),
     let c' := update_value c key value now stamp auto_save in
     (tracked c key value <->
      exists last, _last_values c !! key = Some last /\
                   to_float last = to_float value) /\
     (tracked c key value -> c' = c) /\
     (~ tracked c key value ->
      _last_values c' = <[key := value]> (_last_values c) /\
      _has_changes c' = true /\
      last_update c' = now /\
      (key ∈ telemetry_keys -> getattr c' key = Some value) /\
      (recording c = true ->
       exists point, recorded_data c' = recorded_data c ++ [point] /\
                     dp_timestamp point = stamp) /\
      (recording c = false -> recorded_data c' = recorded_data c))) /\
  (forall c : ControllerData.t,
     (has_changes c).1 = _has_changes c /\
     _has_changes (has_changes c).2 = false /\
     (has_changes (has_changes c).2).1 = false) /\
  (forall (s : state) (data : list byte) (t0 now : R) (stamp : string)
          (t0' now' : R) (stamp' : string),
     exists s1 s2,
       message_handler s data t0 now stamp = Some s1 /\
       message_handler (set_ctr_data (has_changes (ctr_data s1)).2 s1) data
         t0' now' stamp' = Some s2 /\
       (has_changes (ctr_data s2)).1 = false /\
       _last_values (ctr_data s2) = _last_values (ctr_data s1) /\
       recorded_data (ctr_data s2) = recorded_data (ctr_data s1) /\
       forall key, getattr (ctr_data s2) key = getattr (ctr_data s1) key) /\
  (forall (s : state) (data : list byte) (t0 now : R) (stamp : string),
     exists s1 (updates : list (string * pyval)),
       message_handler s data t0 now stamp = Some s1 /\
       (updates <> [] <->
        (16 <= length data)%nat /\ data !! 0%nat = Some xaa /\
        exists b1, data !! 1%nat = Some b1 /\
          (byte_val b1 = 0 \/ byte_val b1 = 1 \/ byte_val b1 = 4 \/
           byte_val b1 = 13)) /\
       ((16 <= length data)%nat -> data !! 0%nat = Some xaa ->
        ctr_data s1
        = foldl (fun c kv => update_value c kv.1 kv.2 now stamp (auto_save s))
            (update_performance_metrics (set_last_update now (ctr_data s))
               t0 ((now - t0) * 1000)%R)
            updates) /\
       (has_changes (ctr_data s1)).1
       = _has_changes (ctr_data s)
         || existsb (fun kv => value_changed (ctr_data s) kv.1 kv.2) updates /\
       (_last_values (ctr_data s) = ∅ -> updates <> [] ->
        (has_changes (ctr_data s1)).1 = true)).
Proof.
  split; [|split; [|split]].
  - intros c key value now stamp auto_save c'. split; [|split].
    + rewrite tracked_lookup. split; intros (last & Hl & Hn); exists last;
        (split; [exact Hl|]); now apply ne_false_iff.
    + intros Ht. now apply update_value_same.
    + intros Hnt.
      assert (Hc : value_changed c key value = true).
      { unfold tracked in Hnt. now destruct (value_changed c key value). }
      destruct (update_value_changed c key value now stamp auto_save Hc)
        as (Hlv & Hhc & Hga & _ & Hlu & _ & _ & Hrec & Hnrec).
      repeat (split; [assumption|]). assumption.
  - intros c. destruct c. cbn. repeat split.
  - intros s data t0 now stamp t0' now' stamp'.
    destruct (message_handler_twice s data t0 now stamp t0' now' stamp')
      as (s1 & s2 & H1 & H2 & Hf & Hrest).
    exists s1, s2. split; [exact H1|]. split; [exact H2|].
    split; [|exact Hrest].
    now rewrite (proj1 (has_changes_frame (ctr_data s2))).
  - intros s data t0 now stamp.
    destruct (message_handler_flag s data t0 now stamp)
      as (s1 & updates & H1 & Hne & Hrun & Hflag).
    exists s1, updates. split; [exact H1|]. split; [exact Hne|].
    split; [exact Hrun|].
    rewrite (proj1 (has_changes_frame (ctr_data s1))).
    split; [exact Hflag|].
    intros Hfresh Hsome. rewrite Hflag.
    destruct updates as [|kv rest]; [congruence|].
    cbn [existsb]. unfold value_changed at 1.
    rewrite Hfresh, lookup_empty. apply orb_true_r.
Qed.

Lemma update_value_compare_and_set_witness :
  exists s1 s2,
    message_handler (Monitor.init 0) Frames.controller_temp_frame 0 0 ""
    = Some s1 /\
    (has_changes (ctr_data s1)).1 = true /\
    message_handler (set_ctr_data (has_changes (ctr_data s1)).2 s1)
      Frames.controller_temp_frame 1 1 "" = Some s2 /\
    (has_changes (ctr_data s2)).1 = false.
Proof.
  destruct update_value_compare_and_set as (_ & _ & Htwice & Hfirst).
  destruct (Htwice (Monitor.init 0) Frames.controller_temp_frame
              0%R 0%R ""%string 1%R 1%R ""%string)
    as (s1 & s2 & H1 & H2 & Hf2 & _).
  destruct (Hfirst (Monitor.init 0) Frames.controller_temp_frame
              0%R 0%R ""%string)
    as (s1' & updates & H1' & Hne & _ & _ & Hfresh).
  assert (s1' = s1) as -> by congruence.
  exists s1, s2. split; [exact H1|]. split; [|split; [exact H2|exact Hf2]].
  apply Hfresh; [reflexivity|]. apply Hne.
  split; [simpl; lia|]. split; [reflexivity|].
  exists x04. split; [reflexivity|]. right; right; left; reflexivity.
Defined.

(** Two first applications that leave the flag clear: a frame of type
    index 2 on a new store, and a voltage frame reading 90.0 V on a store
    that tracks 90.0 V already. *)
Lemma first_application_unchanged :
  (exists s1,
     message_handler (Monitor.init 0) Frames.unknown_frame 0 0 "" = Some s1 /\
     (has_changes (ctr_data s1)).1 = false) /\
  (exists s1,
     message_handler Frames.at_90_volts Frames.voltage_frame 0 0 "" = Some s1 /\
     (has_changes (ctr_data s1)).1 = false).
Proof.
  split.
  - eexists. split; [cbn; reflexivity|reflexivity].
  - destruct (message_handler_accepts Frames.at_90_volts Frames.voltage_frame
                0 0 "" x01) as (p & _ & Hmh); try reflexivity.
    unfold process_packet in Hmh.
    change (byte_val x01 =? 0) with false in Hmh.
    change (byte_val x01 =? 1) with true in Hmh. cbv iota in Hmh.
    change (idx Frames.voltage_frame 2) with (Some 3) in Hmh.
    change (idx Frames.voltage_frame 3) with (Some 132) in Hmh.
    cbn [mbind option_bind] in Hmh.
    rewrite update_value_same in Hmh.
    + eexists. split; [exact Hmh|]. reflexivity.
    + apply tracked_lookup. exists (PFloat 90). split; [reflexivity|].
      apply ne_false_iff. change (Z.lor (Z.shiftl 3 8) 132) with 900.
      simpl. lra.
Qed.

(** ** Frame length *)

(** Bytes past the sixteenth are never looked at by the parsers. *)
Lemma parse_by_index_prefix (data : list byte) (index : Z) :
  PacketInspector.parse_by_index (take 16 data) index
  = PacketInspector.parse_by_index data index.
Proof.
  assert (Hidx : forall i, (i < 16)%nat -> idx (take 16 data) i = idx data i).
  { intros i Hi. unfold idx. now rewrite lookup_take_lt by exact Hi. }
  unfold PacketInspector.parse_by_index, PacketInspector._parse_main_data,
    PacketInspector._parse_voltage_data,
    PacketInspector._parse_controller_temp_data,
    PacketInspector._parse_motor_throttle_data.
  rewrite !Hidx by lia. reflexivity.
Qed.

(** C4, as the code has it.  No byte sequence makes [analyze_packet] or
    [message_handler] read out of range.  A sequence shorter than 16 bytes
    is rejected with the invalid-length error: [analyze_packet] returns the
    error dictionary and leaves the inspector as it was, and
    [message_handler] only counts a packet error: no telemetry attribute,
    no tracked value, no change flag and no connection flag is touched.  A
    sequence of 16 bytes or more is not rejected for its length: when it
    starts with [0xAA] it is accepted and its payload is decoded from its
    first 16 bytes. *)
Theorem frame_length_check (s : state) (data : list byte)
    (packet_start_time now : R) (stamp : string) :
  is_Some (PacketInspector.analyze_packet (packet_inspector s) data stamp) /\
  is_Some (message_handler s data packet_start_time now stamp) /\
  ((length data < 16)%nat ->
   PacketInspector.analyze_packet (packet_inspector s) data stamp
   = Some (PacketInspector.Invalid
             (PacketInspector.InvalidPacketLength (length data))
             (hex_dump data),
           packet_inspector s) /\
   exists s',
     message_handler s data packet_start_time now stamp = Some s' /\
     packet_inspector s' = packet_inspector s /\
     is_connected s' = is_connected s /\
     packet_errors (ctr_data s') = packet_errors (ctr_data s) + 1 /\
     packet_count (ctr_data s') = packet_count (ctr_data s) /\
     last_update (ctr_data s') = last_update (ctr_data s) /\
     _last_values (ctr_data s') = _last_values (ctr_data s) /\
     _has_changes (ctr_data s') = _has_changes (ctr_data s) /\
     recorded_data (ctr_data s') = recorded_data (ctr_data s) /\
     forall key, getattr (ctr_data s') key = getattr (ctr_data s) key) /\
  ((16 <= length data)%nat ->
   forall b1, data !! 0%nat = Some xaa -> data !! 1%nat = Some b1 ->
   exists p s',
     PacketInspector.analyze_packet (packet_inspector s) data stamp
     = Some (PacketInspector.Valid p,
             PacketInspector.store_in_history (packet_inspector s)
               (PacketInspector.Valid p)) /\
     PacketInspector.index p = byte_val b1 /\
     PacketInspector.parse_by_index (take 16 data) (byte_val b1)
     = Some (PacketInspector.parsed_data p) /\
     message_handler s data packet_start_time now stamp = Some s' /\
     is_connected s' = true).
Proof.
  split; [apply analyze_packet_total|]. split; [apply message_handler_total|].
  split.
  - intros Hlen. split; [now apply analyze_packet_short|].
    eexists. split; [now apply message_handler_short|].
    destruct s as [c insp conn auto]. destruct c. cbn. repeat split.
  - intros Hlen b1 H0 H1.
    destruct (analyze_packet_accepts (packet_inspector s) data stamp Hlen H0)
      as (c1 & b14 & b15 & pd & Hb1 & _ & _ & Hpd & Heq).
    assert (c1 = b1) as -> by congruence.
    destruct (message_handler_updates data b1 (voltage (ctr_data s))
                Hlen H0 H1) as (updates & _ & _ & _ & _ & Hmh).
    destruct (Hmh s packet_start_time now stamp (fun _ => eq_refl))
      as (s' & Hs' & Hconn & _).
    eexists _, s'. split; [exact Heq|]. cbn [PacketInspector.index
      PacketInspector.parsed_data].
    split; [reflexivity|]. split; [now rewrite parse_by_index_prefix|].
    split; [exact Hs'|exact Hconn].
Qed.

Lemma frame_length_check_witness :
  (length [xaa; x00; x04] < 16)%nat /\
  (16 <= length Frames.long_frame)%nat /\
  (exists s',
     message_handler (Monitor.init 0) [xaa; x00; x04] 0 0 "" = Some s' /\
     packet_errors (ctr_data s') = 1 /\
     PacketInspector.packet_history (packet_inspector s') = []) /\
  (exists p s',
     PacketInspector.analyze_packet PacketInspector.init Frames.long_frame ""
     = Some (PacketInspector.Valid p,
             PacketInspector.store_in_history PacketInspector.init
               (PacketInspector.Valid p)) /\
     message_handler (Monitor.init 0) Frames.long_frame 0 0 "" = Some s' /\
     is_connected s' = true).
Proof.
  assert (Hshort : (length [xaa; x00; x04] < 16)%nat) by (simpl; lia).
  assert (Hlong : (16 <= length Frames.long_frame)%nat) by (simpl; lia).
  split; [exact Hshort|]. split; [exact Hlong|]. split.
  - destruct (frame_length_check (Monitor.init 0) [xaa; x00; x04] 0 0 "")
      as (_ & _ & Hrej & _).
    destruct (Hrej Hshort) as (_ & s' & Hmh & Hinsp & _ & Herr & _).
    exists s'. split; [exact Hmh|]. split; [exact Herr|].
    rewrite Hinsp. reflexivity.
  - destruct (frame_length_check (Monitor.init 0) Frames.long_frame 0 0 "")
      as (_ & _ & _ & Hacc).
    destruct (Hacc Hlong x00 eq_refl eq_refl)
      as (p & s' & Heq & _ & _ & Hmh & Hconn).
    exists p, s'. split; [exact Heq|]. split; [exact Hmh|exact Hconn].
Defined.

(** A frame of 17 bytes is not rejected for its length: its payload is
    decoded and the store is updated. *)
Lemma long_frame_is_decoded :
  length Frames.long_frame <> 16%nat /\
  (forall self now e raw self',
     PacketInspector.analyze_packet self Frames.long_frame now
     <> Some (PacketInspector.Invalid e raw, self')) /\
  exists p d s',
    PacketInspector.analyze_packet PacketInspector.init Frames.long_frame ""
    = Some (PacketInspector.Valid p,
            PacketInspector.store_in_history PacketInspector.init
              (PacketInspector.Valid p)) /\
    PacketInspector.parsed_data p = PacketInspector.MainData d /\
    PacketInspector.rpm d = 5000 /\
    message_handler (Monitor.init 0) Frames.long_frame 0 0 "" = Some s' /\
    getattr (ctr_data s') "rpm" = Some (PInt 5000).
Proof.
  split; [discriminate|].
  assert (Hacc : forall self now, exists p d,
            PacketInspector.analyze_packet self Frames.long_frame now
            = Some (PacketInspector.Valid p,
                    PacketInspector.store_in_history self
                      (PacketInspector.Valid p)) /\
            PacketInspector.parsed_data p = PacketInspector.MainData d /\
            PacketInspector.rpm d = 5000).
  { intros self now.
    destruct (analyze_packet_accepts self Frames.long_frame now)
      as (b1 & b14 & b15 & pd & Hb1 & _ & _ & Hpd & Heq);
      [simpl; lia|reflexivity|].
    injection Hb1 as <-.
    destruct (parse_main_data_eq Frames.long_frame x04 x13 x88 x27 x10 x00 x00)
      as (d & Hd & _ & _ & Hrpm & _); try reflexivity.
    unfold PacketInspector.parse_by_index in Hpd.
    change (byte_val x00 =? 0) with true in Hpd. cbv iota in Hpd.
    rewrite Hd in Hpd. injection Hpd as <-.
    eexists _, d. split; [exact Heq|]. split; [reflexivity|].
    rewrite Hrpm. reflexivity. }
  split.
  { intros self now e raw self' Heq.
    destruct (Hacc self now) as (p & d & Hp & _). congruence. }
  destruct (Hacc PacketInspector.init ""%string) as (p & d & Hp & Hpd & Hrpm).
  destruct (message_handler_main (Monitor.init 0) Frames.long_frame 0 0 ""
              x04 x13 x88 x27 x10 x00 x00)
    as (s' & Hmh & _ & Hc); try reflexivity; [simpl; lia|].
  exists p, d, s'. repeat (split; [assumption|]).
  rewrite Hc.
  match goal with
  | |- getattr (foldl _ ?c0 ?l) _ = _ =>
      destruct (updates_spec 0 "" (auto_save (Monitor.init 0)) l
                  (proj1 (main_keys _ _ _ _)) c0) as (_ & Hb & _);
      destruct (Hb ("rpm"%string, PInt 5000)) as [[_ Hw]|[Ht _]];
      [left|compute_done|exact Hw|vm_compute in Ht; discriminate]
  end.
Qed.

End Handler.

(** ** The packet history *)

Section History.

Import PacketInspector.

(** Dropping the excess over [cap] after every append is dropping it once
    at the end. *)
Lemma drop_excess_app {A : Type} (cap : nat) (xs ys : list A) :
  let kept := drop (length xs - cap) xs in
  drop (length (kept ++ ys) - cap) (kept ++ ys)
  = drop (length (xs ++ ys) - cap) (xs ++ ys).
Proof.
  intros kept. subst kept.
  destruct (Nat.le_gt_cases (length xs) cap) as [Hle|Hgt].
  - replace (length xs - cap)%nat with 0%nat by lia. reflexivity.
  - rewrite !length_app, length_drop.
    replace (length xs - (length xs - cap) + length ys - cap)%nat
      with (length ys) by lia.
    replace (length xs + length ys - cap)%nat
      with ((length xs - cap) + length ys)%nat by lia.
    rewrite <- drop_drop. f_equal.
    rewrite drop_app_le by lia. reflexivity.
Qed.

(** The history after [store_in_history], when it was within bounds. *)
Lemma store_in_history_spec (self : t) (info : packet_info) :
  (length (packet_history self) <= max_history self)%nat ->
  let stored := packet_history self ++ [info] in
  packet_history (store_in_history self info)
  = drop (length stored - max_history self) stored /\
  (length (packet_history (store_in_history self info)) <= max_history self)%nat /\
  max_history (store_in_history self info) = max_history self.
Proof.
  intros Hle stored. unfold store_in_history. cbn [packet_history max_history].
  fold stored. assert (Hlen : length stored = S (length (packet_history self)))
    by (subst stored; rewrite length_app; simpl; lia).
  case_bool_decide as Hcmp.
  - replace (length stored - max_history self)%nat with 1%nat by lia.
    split; [now destruct stored|]. split; [|reflexivity].
    destruct stored; simpl in *; lia.
  - replace (length stored - max_history self)%nat with 0%nat by lia.
    split; [reflexivity|]. split; [lia|reflexivity].
Qed.

(** A call of [analyze_packet] either rejects the frame and leaves the
    inspector, or accepts it and stores the returned dictionary. *)
Lemma analyze_packet_cases (self : t) (data : list byte) (now : string) :
  exists info,
    (valid info = false /\
     ((length data < 16)%nat \/ data !! 0%nat <> Some xaa) /\
     analyze_packet self data now = Some (info, self)) \/
    (valid info = true /\
     ((16 <= length data)%nat /\ data !! 0%nat = Some xaa) /\
     analyze_packet self data now = Some (info, store_in_history self info)).
Proof.
  destruct (Nat.lt_ge_cases (length data) 16) as [Hshort|Hlong].
  - eexists. left. split; [|split; [now left|now apply analyze_packet_short]].
    reflexivity.
  - destruct (lookup_lt_is_Some_2 data 0 ltac:(lia)) as [b0 H0].
    destruct (decide (b0 = xaa)) as [->|Hne].
    + destruct (analyze_packet_accepts self data now Hlong H0)
        as (b1 & b14 & b15 & pd & _ & _ & _ & _ & Heq).
      eexists. right. split; [|split; [now split|exact Heq]]. reflexivity.
    + eexists. left.
      split; [|split; [right; congruence|
                       now apply (analyze_packet_bad_header _ _ _ b0)]].
      reflexivity.
Qed.

(** Any sequence of frames: the calls return, the bound is kept and the
    history is the last [max_history] of the dictionaries stored so far. *)
Lemma analyze_all_history (frames : list (list byte * string)) (self : t) :
  (length (packet_history self) <= max_history self)%nat ->
  exists infos self',
    analyze_all self frames = Some (infos, self') /\
    length infos = length frames /\
    Forall2 (fun info frame =>
               valid info = true <->
               (16 <= length frame.1)%nat /\ frame.1 !! 0%nat = Some xaa)
            infos frames /\
    max_history self' = max_history self /\
    (length (packet_history self') <= max_history self')%nat /\
    let stored :=
      packet_history self ++ filter (fun p => valid p = true) infos in
    packet_history self' = drop (length stored - max_history self) stored.
Proof.
  revert self. induction frames as [|[data now] frames IH]; intros self Hle.
  - exists [], self. split; [reflexivity|]. split; [reflexivity|].
    split; [constructor|]. split; [reflexivity|]. split; [exact Hle|].
    cbn. rewrite app_nil_r.
    replace (length (packet_history self) - max_history self)%nat
      with 0%nat by lia. reflexivity.
  - destruct (analyze_packet_cases self data now)
      as [info [(Hv & Hrej & Heq)|(Hv & Hacc & Heq)]].
    + destruct (IH self Hle) as (infos & self' & Hall & Hlen & Hf2 & Hmax & Hb & Hh).
      exists (info :: infos), self'. cbn [analyze_all].
      rewrite Heq. cbn [mbind option_bind]. rewrite Hall.
      split; [reflexivity|]. split; [simpl; lia|].
      split.
      { constructor; [|exact Hf2]. cbn [fst]. rewrite Hv.
        split; [discriminate|]. intros [? ?]. destruct Hrej; [lia|congruence]. }
      split; [exact Hmax|]. split; [exact Hb|].
      rewrite filter_cons_False by (rewrite Hv; discriminate). exact Hh.
    + destruct (store_in_history_spec self info Hle) as (Hs & Hsb & Hsm).
      destruct (IH (store_in_history self info) ltac:(lia))
        as (infos & self' & Hall & Hlen & Hf2 & Hmax & Hb & Hh).
      exists (info :: infos), self'. cbn [analyze_all].
      rewrite Heq. cbn [mbind option_bind]. rewrite Hall.
      split; [reflexivity|]. split; [simpl; lia|].
      split.
      { constructor; [|exact Hf2]. cbn [fst]. rewrite Hv. tauto. }
      split; [congruence|]. split; [exact Hb|].
      rewrite filter_cons_True by exact Hv.
      cbv zeta in Hh. rewrite Hh, Hs, Hsm.
      rewrite drop_excess_app. rewrite <- app_assoc. reflexivity.
Qed.

Lemma filter_all {A : Type} (P : A -> Prop) `{!forall x, Decision (P x)}
    (l : list A) :
  Forall P l -> filter P l = l.
Proof.
  induction 1 as [|x l Hx _ IH]; [reflexivity|].
  rewrite filter_cons_True by exact Hx. now rewrite IH.
Qed.

Lemma last_drop_lt {A : Type} (l : list A) (n : nat) :
  (n < length l)%nat -> last (drop n l) = last l.
Proof.
  intros Hn. rewrite <- (take_drop n l) at 2. rewrite last_app.
  destruct (last (drop n l)) eqn:E; [reflexivity|].
  apply last_None in E. apply (f_equal length) in E.
  rewrite length_drop in E. simpl in E. lia.
Qed.

(** [get_recent_packets] with a positive count returns the last [count]
    stored packets, or all of them when there are fewer. *)
Lemma get_recent_packets_positive (self : t) (count : Z) :
  0 < count ->
  get_recent_packets self count
  = drop (length (packet_history self) - Z.to_nat count) (packet_history self).
Proof.
  intros Hc. unfold get_recent_packets, slice_from.
  destruct (packet_history self) as [|p h] eqn:E; [reflexivity|].
  rewrite (proj2 (Z.ltb_lt (- count) 0)) by lia. f_equal. lia.
Qed.

Lemma get_recent_packets_suffix (self : t) (count : Z) :
  get_recent_packets self count `suffix_of` packet_history self.
Proof.
  unfold get_recent_packets, slice_from.
  destruct (packet_history self) as [|p h]; [reflexivity|].
  apply suffix_drop.
Qed.

(** C6. The history never holds more than [max_history] packets (1000
    for a new inspector), whatever frames arrive; it is always the last
    [max_history] of the dictionaries stored so far.  After [max_history + k]
    accepted frames on an empty history the [k] oldest dictionaries are
    gone and the remaining [max_history] are there in arrival order.
    [get_recent_packets] returns a final segment of the history, for a
    positive count the last [count] packets, so the most recent packet
    comes last. *)
Theorem history_bounded_fifo :
  max_history init = 1000%nat /\
  (forall (self : t) (frames : list (list byte * string)),
     (length (packet_history self) <= max_history self)%nat ->
     exists infos self',
       analyze_all self frames = Some (infos, self') /\
       max_history self' = max_history self /\
       (length (packet_history self') <= max_history self')%nat /\
       let stored :=
         packet_history self ++ filter (fun p => valid p = true) infos in
       packet_history self' = drop (length stored - max_history self) stored) /\
  (forall (self : t) (frames : list (list byte * string)) (k : nat),
     packet_history self = [] ->
     Forall (fun frame => (16 <= length frame.1)%nat /\
                          frame.1 !! 0%nat = Some xaa) frames ->
     length frames = (max_history self + k)%nat ->
     exists infos self',
       analyze_all self frames = Some (infos, self') /\
       length infos = (max_history self + k)%nat /\
       Forall (fun p => valid p = true) infos /\
       packet_history self' = drop k infos /\
       length (packet_history self') = max_history self) /\
  (forall (self : t) (count : Z),
     get_recent_packets self count `suffix_of` packet_history self /\
     (0 < count ->
      get_recent_packets self count
      = drop (length (packet_history self) - Z.to_nat count)
          (packet_history self) /\
      length (get_recent_packets self count)
      = Nat.min (Z.to_nat count) (length (packet_history self)) /\
      last (get_recent_packets self count) = last (packet_history self))).
Proof.
  split; [reflexivity|]. split; [|split].
  - intros self frames Hle.
    destruct (analyze_all_history frames self Hle)
      as (infos & self' & Hall & _ & _ & Hmax & Hb & Hh).
    exists infos, self'. repeat (split; [assumption|]). exact Hh.
  - intros self frames k Hempty Hacc Hlen.
    destruct (analyze_all_history frames self ltac:(rewrite Hempty; simpl; lia))
      as (infos & self' & Hall & Hli & Hf2 & Hmax & Hb & Hh).
    assert (Hvalid : Forall (fun p => valid p = true) infos).
    { clear -Hf2 Hacc. induction Hf2 as [|info frame infos frames Hif _ IH];
        [constructor|].
      apply Forall_cons in Hacc as [Hfa Hacc].
      constructor; [now apply Hif|now apply IH]. }
    exists infos, self'. split; [exact Hall|]. split; [lia|].
    split; [exact Hvalid|].
    cbv zeta in Hh. rewrite Hempty, app_nil_l, filter_all in Hh by exact Hvalid.
    replace (length infos - max_history self)%nat with k in Hh by lia.
    split; [exact Hh|]. rewrite Hh, length_drop. lia.
  - intros self count. split; [apply get_recent_packets_suffix|].
    intros Hc. rewrite get_recent_packets_positive by exact Hc.
    split; [reflexivity|]. split; [rewrite length_drop; lia|].
    destruct (packet_history self) as [|p h] eqn:E; [reflexivity|].
    apply last_drop_lt. simpl. lia.
Qed.

Lemma history_bounded_fifo_witness :
  exists infos self',
    analyze_all Frames.small_inspector Frames.three_frames
    = Some (infos, self') /\
    length infos = 3%nat /\
    packet_history self' = drop 1 infos /\
    length (packet_history self') = 2%nat.
Proof.
  destruct history_bounded_fifo as (_ & _ & Hfifo & _).
  destruct (Hfifo Frames.small_inspector Frames.three_frames 1%nat)
    as (infos & self' & Hall & Hlen & _ & Hh & Hl).
  - reflexivity.
  - repeat constructor; simpl; lia.
  - reflexivity.
  - exists infos, self'. repeat (split; [assumption|]). exact Hl.
Defined.

End History.

(** ** Packet statistics *)

Section Statistics.

Import PacketInspector.

(** The loop of [get_packet_statistics]: the error counter grows by the
    number of checksum errors and the count of every type index by the
    number of stored packets of that index. *)
Lemma statistics_loop (history : list packet_info) (counts : gmap Z Z)
    (errors : Z) :
  let result := foldl statistics_step (counts, errors) history in
  result.2
  = errors + Z.of_nat (length (filter (fun p => checksum_error p = true) history)) /\
  forall i,
    let n := length (filter (fun p => has_index i p = true) history) in
    result.1 !! i
    = if decide (n = 0%nat) then counts !! i
      else Some (default 0 (counts !! i) + Z.of_nat n).
Proof.
  revert counts errors.
  induction history as [|p history IH]; intros counts errors result.
  - subst result. cbn. split; [lia|]. intros i. reflexivity.
  - subst result. cbn [foldl].
    destruct (IH (statistics_step (counts, errors) p).1
                 (statistics_step (counts, errors) p).2) as [IHe IHc].
    rewrite <- surjective_pairing in IHe, IHc. split.
    + rewrite IHe. destruct p as [e raw|pk]; cbn [statistics_step snd fst].
      * rewrite filter_cons_False by (cbn; discriminate). lia.
      * destruct (checksum_valid pk) eqn:E.
        -- rewrite filter_cons_False by (cbn; rewrite E; discriminate). lia.
        -- rewrite filter_cons_True by (cbn; now rewrite E).
           cbn [length]. lia.
    + intros i. cbv zeta. rewrite IHc.
      destruct p as [e raw|pk]; cbn [statistics_step snd fst].
      * rewrite filter_cons_False by (cbn; discriminate). reflexivity.
      * destruct (Z.eq_dec (index pk) i) as [<-|Hne].
        -- rewrite filter_cons_True by (cbn; apply Z.eqb_refl).
           rewrite lookup_insert_eq. cbn [length default].
           repeat case_decide; try lia; cbv [Datatypes.id]; f_equal; lia.
        -- rewrite filter_cons_False
             by (cbn; rewrite (proj2 (Z.eqb_neq _ _) Hne); discriminate).
           rewrite lookup_insert_ne by exact Hne. reflexivity.
Qed.

(** Along any run of frames on an inspector that keeps at least one
    packet, [current_packet] is set exactly when the history is not
    empty. *)
Lemma analyze_all_current (frames : list (list byte * string)) (self : t) :
  (0 < max_history self)%nat ->
  (current_packet self = None <-> packet_history self = []) ->
  forall infos self',
    analyze_all self frames = Some (infos, self') ->
    (current_packet self' = None <-> packet_history self' = []).
Proof.
  revert self. induction frames as [|[data now] frames IH];
    intros self Hmax Hinv infos self' Hall.
  - cbn in Hall. now injection Hall as _ <-.
  - cbn [analyze_all] in Hall.
    destruct (analyze_packet_cases self data now)
      as [info [(_ & _ & Heq)|(_ & _ & Heq)]];
      rewrite Heq in Hall; cbn [mbind option_bind] in Hall.
    + destruct (analyze_all self frames) as [[infos0 self0]|] eqn:E;
        [|discriminate].
      cbn in Hall. injection Hall as _ <-. now apply (IH self Hmax Hinv infos0).
    + destruct (analyze_all (store_in_history self info) frames)
        as [[infos0 self0]|] eqn:E; [|discriminate].
      cbn in Hall. injection Hall as _ <-.
      apply (IH (store_in_history self info)) with infos0; [exact Hmax| |exact E].
      pose proof (store_in_history_last self info Hmax) as Hlast.
      split; [discriminate|].
      intros Hnil. rewrite Hnil in Hlast. discriminate.
Qed.

(** C9, as the code has it.  On a non-empty history
    [get_packet_statistics] returns the number of stored packets, the
    number of them that are valid, the number of checksum errors, the
    count of every type index that occurs and the error rate
    [checksum_errors / total_packets].  On an empty history it returns the
    empty dictionary, with no counts and no error rate.  Its caller, the
    inspector window, is not opened while no packet has been stored: along
    every run of frames [current_packet] is set exactly when the history is
    not empty, so [show_packet_inspector] returns at its guard for an empty
    history and prints the four numbers of the dictionary otherwise. *)
Theorem packet_statistics_contract (self : t) :
  (packet_history self = [] -> get_packet_statistics self = None) /\
  (packet_history self <> [] ->
   exists stats,
     get_packet_statistics self = Some stats /\
     total_packets stats = Z.of_nat (length (packet_history self)) /\
     0 < total_packets stats /\
     valid_packets stats
     = Z.of_nat (length (filter (fun p => valid p = true)
                           (packet_history self))) /\
     checksum_errors stats
     = Z.of_nat (length (filter (fun p => checksum_error p = true)
                           (packet_history self))) /\
     (forall i,
        let n := length (filter (fun p => has_index i p = true)
                           (packet_history self)) in
        index_distribution stats !! i
        = if decide (n = 0%nat) then None else Some (Z.of_nat n)) /\
     error_rate stats
     = PFloat (IZR (checksum_errors stats) / IZR (total_packets stats))) /\
  (forall (frames : list (list byte * string)) (infos : list packet_info),
     analyze_all init frames = Some (infos, self) ->
     (current_packet self = None <-> packet_history self = []) /\
     forall s : Monitor.state,
       Monitor.packet_inspector s = self ->
       (packet_history self = [] -> Monitor.show_packet_inspector s = None) /\
       (packet_history self <> [] ->
        exists stats,
          get_packet_statistics self = Some stats /\
          Monitor.show_packet_inspector s
          = Some (total_packets stats, valid_packets stats,
                  checksum_errors stats, error_rate stats))).
Proof.
  split; [|split].
  - intros Hempty. unfold get_packet_statistics. now rewrite Hempty.
  - intros Hne. unfold get_packet_statistics.
    destruct (packet_history self) as [|p h] eqn:E; [congruence|].
    rewrite <- E in *. clear Hne.
    destruct (statistics_loop (packet_history self) ∅ 0) as [He Hc].
    destruct (foldl statistics_step (∅, 0) (packet_history self))
      as [index_counts errors] eqn:Ef.
    cbn [fst snd] in He, Hc.
    assert (Hpos : 0 < Z.of_nat (length (packet_history self)))
      by (rewrite E; simpl; lia).
    eexists. split; [reflexivity|].
    cbn [total_packets valid_packets checksum_errors index_distribution
           error_rate].
    split; [reflexivity|]. split; [exact Hpos|]. split; [reflexivity|].
    split; [rewrite He; lia|]. split.
    + intros i. cbv zeta. rewrite Hc. rewrite lookup_empty.
      case_decide; [reflexivity|]. cbn. f_equal.
    + rewrite (proj2 (Z.ltb_lt _ _) Hpos). reflexivity.
  - intros frames infos Hall.
    assert (Hinv : current_packet self = None <-> packet_history self = []).
    { apply (analyze_all_current frames init) with infos;
        [cbn; lia|now split|exact Hall]. }
    split; [exact Hinv|]. intros s <-. unfold Monitor.show_packet_inspector.
    split.
    + intros Hempty. now rewrite (proj2 Hinv Hempty).
    + intros Hne.
      destruct (current_packet (Monitor.packet_inspector s)) as [cp|] eqn:Ecp;
        [|exfalso; apply Hne; now apply Hinv].
      unfold get_packet_statistics.
      destruct (packet_history (Monitor.packet_inspector s)) as [|p h] eqn:E;
        [congruence|].
      destruct (foldl statistics_step (∅, 0) (p :: h)) as [counts errors].
      eexists. split; reflexivity.
Qed.

Lemma packet_statistics_contract_witness :
  exists infos self' stats,
    analyze_all init Frames.three_frames = Some (infos, self') /\
    get_packet_statistics self' = Some stats /\
    total_packets stats = 3 /\
    valid_packets stats = 3 /\
    checksum_errors stats = 1 /\
    index_distribution stats !! 1 = Some 1 /\
    index_distribution stats !! 2 = None /\
    error_rate stats = PFloat (IZR 1 / IZR 3) /\
    Monitor.show_packet_inspector
      (Monitor.MkState (ControllerData.init 0) self' true true)
    = Some (3, 3, 1, PFloat (IZR 1 / IZR 3)).
Proof.
  eexists _, _.
  match goal with
  | |- exists stats, ?a = Some (_, ?self') /\ _ =>
      assert (Hall : a = Some (_, self')) by (vm_compute; reflexivity)
  end.
  match type of Hall with
  | _ = Some (_, ?self') =>
      destruct (packet_statistics_contract self')
        as (_ & Hstats & Hshow)
  end.
  destruct Hstats as (stats & Hs & Ht & _ & Hv & He & Hd & Hr);
    [discriminate|].
  destruct (Hshow _ _ Hall) as (_ & Hwin).
  destruct (Hwin (Monitor.MkState (ControllerData.init 0) _ true true)
              eq_refl) as (_ & stats' & Hs' & Hw); [discriminate|].
  assert (stats' = stats) as -> by congruence.
  exists stats. split; [exact Hall|]. split; [exact Hs|].
  split; [exact Ht|]. split; [exact Hv|]. split; [exact He|].
  split; [exact (Hd 1)|]. split; [exact (Hd 2)|].
  split; [rewrite Hr, He, Ht; reflexivity|].
  rewrite Hw, Hr, He, Ht, Hv. reflexivity.
Defined.

(** With no packet stored the function returns the empty dictionary: there
    is no error rate in it, and no count. *)
Lemma statistics_of_empty_history :
  Z.of_nat (length (packet_history init)) = 0 /\
  get_packet_statistics init = None /\
  error_rate <$> get_packet_statistics init <> Some (PInt 0) /\
  total_packets <$> get_packet_statistics init <> Some 0.
Proof.
  repeat split; discriminate.
Qed.

End Statistics.

(** ** Reset on disconnection and connection status *)

Section Display.

Import ControllerData Monitor.

Lemma reset_data_frame (c : ControllerData.t) :
  _last_values (reset_data c) = _last_values c /\
  _has_changes (reset_data c) = _has_changes c /\
  last_update (reset_data c) = last_update c /\
  forall key, key ∈ telemetry_keys -> getattr (reset_data c) key = Some (PInt 0).
Proof.
  destruct c. cbn. repeat split. intros key H. unfold telemetry_keys in H.
  repeat (apply elem_of_cons in H as [->|H]; [reflexivity|]).
  now apply elem_of_nil in H.
Qed.

(** The display update of a disconnected session, when the display is not
    paused; a paused display is left alone. *)
Lemma update_display_disconnected (s : state) :
  is_connected s = false ->
  let s0 := (update_display false s).2 in
  (update_display false s).1 = true /\
  update_display true s = (false, s) /\
  is_connected s0 = false /\
  auto_save s0 = auto_save s /\
  packet_inspector s0 = packet_inspector s /\
  _last_values (ctr_data s0) = _last_values (ctr_data s) /\
  _has_changes (ctr_data s0) = false /\
  recorded_data (ctr_data s0) = recorded_data (ctr_data s) /\
  (forall key value,
     value_changed (ctr_data s0) key value
     = value_changed (ctr_data s) key value) /\
  (forall key, key ∈ telemetry_keys ->
     getattr (ctr_data s0) key = Some (PInt 0)).
Proof.
  intros Hdis s0. subst s0. unfold update_display. cbv iota.
  destruct (has_changes_frame (ctr_data s)) as (_ & Fhc & Flv & _ & Frd & _).
  destruct (reset_data_frame (has_changes (ctr_data s)).2)
    as (Rlv & Rhc & _ & Rga).
  destruct (has_changes (ctr_data s)) as [changed c].
  rewrite Hdis. cbn [negb fst snd set_ctr_data ctr_data is_connected
                       auto_save packet_inspector] in *.
  split; [reflexivity|]. split; [reflexivity|]. split; [exact Hdis|].
  split; [reflexivity|]. split; [reflexivity|].
  split; [now rewrite Rlv|]. split; [now rewrite Rhc|].
  split; [rewrite <- Frd; now destruct c|].
  split; [|exact Rga].
  intros key value. unfold value_changed. now rewrite Rlv, Flv.
Qed.

(** The values that the handler hands to [update_value] for a frame, by
    type index, with the bytes in arithmetic form; [volts] is the voltage
    attribute at that moment. *)
Local Abbreviation decoded_updates b1 b2 b3 b4 b5 b8 b9 b10 b11 volts :=
  (if byte_val b1 =? 0 then
     [("rpm"%string, PInt (byte_val b4 * 256 + byte_val b5));
      ("gear"%string, PInt (Z.max 1 (Z.min 3 ((byte_val b2 / 4) mod 4))));
      ("power"%string,
       PFloat (Rmult
                 (Ropp (sqrt (Rplus
                    (pow (Rdiv (IZR (byte_val b8 * 256 + byte_val b9)) 100%R) 2)
                    (pow (Rdiv (IZR (byte_val b10 * 256 + byte_val b11)) 100%R)
                       2))))
                 volts));
      ("speed"%string,
       PFloat (Rmult (Rmult (Rdiv (IZR (byte_val b4 * 256 + byte_val b5)) 4.0%R)
                        1.350%R) 0.06%R))]
   else if byte_val b1 =? 1 then
     [("voltage"%string,
       PFloat (Rdiv (IZR (byte_val b2 * 256 + byte_val b3)) 10%R))]
   else if byte_val b1 =? 4 then
     [("controller_temp"%string, PInt (byte_val b2))]
   else if byte_val b1 =? 13 then
     [("motor_temp"%string, PInt (byte_val b2));
      ("throttle"%string, PInt (byte_val b4 * 256 + byte_val b5))]
   else []).

(** An accepted frame is the bookkeeping followed by the updates of its
    type index, with these values. *)
Lemma message_handler_decoded (s : state) (data : list byte)
    (packet_start_time now : R) (stamp : string)
    (b1 b2 b3 b4 b5 b8 b9 b10 b11 : byte) :
  (16 <= length data)%nat ->
  data !! 0%nat = Some xaa ->
  data !! 1%nat = Some b1 ->
  data !! 2%nat = Some b2 -> data !! 3%nat = Some b3 ->
  data !! 4%nat = Some b4 -> data !! 5%nat = Some b5 ->
  data !! 8%nat = Some b8 -> data !! 9%nat = Some b9 ->
  data !! 10%nat = Some b10 -> data !! 11%nat = Some b11 ->
  let updates :=
    decoded_updates b1 b2 b3 b4 b5 b8 b9 b10 b11
      (to_float (voltage (ctr_data s))) in
  NoDup updates.*1 /\
  (forall kv, kv ∈ updates -> kv.1 ∈ telemetry_keys) /\
  exists s',
    message_handler s data packet_start_time now stamp = Some s' /\
    is_connected s' = true /\
    ctr_data s'
    = foldl (fun c kv => update_value c kv.1 kv.2 now stamp (auto_save s))
        (update_performance_metrics (set_last_update now (ctr_data s))
           packet_start_time ((now - packet_start_time) * 1000)%R)
        updates.
Proof.
  intros Hlen H0 H1 H2 H3 H4 H5 H8 H9 H10 H11.
  destruct (message_handler_accepts s data packet_start_time now stamp b1
              Hlen H0 H1) as (p & _ & Hmh).
  destruct (bookkeeping_frame (ctr_data s) now packet_start_time
              ((now - packet_start_time) * 1000)%R) as (_ & Hvolt & _).
  set (c0 := update_performance_metrics (set_last_update now (ctr_data s))
               packet_start_time ((now - packet_start_time) * 1000)%R) in *.
  destruct (Z.eqb_spec (byte_val b1) 0) as [E0|N0].
  { rewrite E0 in Hmh.
    rewrite (process_packet_main c0 data now stamp (auto_save s)
               b2 b4 b5 b8 b9 b10 b11 H2 H4 H5 H8 H9 H10 H11) in Hmh.
    cbn [mbind option_bind] in Hmh. rewrite Hvolt in Hmh.
    pose proof (byte_val_range b8). pose proof (byte_val_range b9).
    pose proof (byte_val_range b10). pose proof (byte_val_range b11).
    assert (Hiq : (0 <= IZR (byte_val b8 * 256 + byte_val b9) / 100)%R).
    { assert (0 <= IZR (byte_val b8 * 256 + byte_val b9))%R
        by (apply IZR_le; lia). lra. }
    assert (Hid : (0 <= IZR (byte_val b10 * 256 + byte_val b11) / 100)%R).
    { assert (0 <= IZR (byte_val b10 * 256 + byte_val b11))%R
        by (apply IZR_le; lia). lra. }
    rewrite bool_decide_eq_false_2 in Hmh by lra.
    split; [apply main_keys|]. split; [apply main_keys|].
    eexists. split; [exact Hmh|]. split; reflexivity. }
  unfold process_packet in Hmh.
  rewrite (proj2 (Z.eqb_neq _ _) N0) in Hmh.
  rewrite (idx_Some _ _ _ H2), (idx_Some _ _ _ H3), (idx_Some _ _ _ H4),
    (idx_Some _ _ _ H5) in Hmh.
  destruct (byte_val b1 =? 1).
  { cbn [mbind option_bind] in Hmh. rewrite word_bytes in Hmh.
    split; [cbn [fmap list_fmap fst]; compute_done|].
    split; [intros kv ->%list_elem_of_singleton; compute_done|].
    eexists. split; [exact Hmh|]. split; reflexivity. }
  destruct (byte_val b1 =? 4).
  { cbn [mbind option_bind] in Hmh.
    split; [cbn [fmap list_fmap fst]; compute_done|].
    split; [intros kv ->%list_elem_of_singleton; compute_done|].
    eexists. split; [exact Hmh|]. split; reflexivity. }
  destruct (byte_val b1 =? 13).
  { cbn [mbind option_bind] in Hmh. rewrite word_bytes in Hmh.
    split; [cbn [fmap list_fmap fst]; compute_done|].
    split.
    { intros kv Hin.
      repeat (apply elem_of_cons in Hin as [->|Hin]; [compute_done|]).
      now apply elem_of_nil in Hin. }
    eexists. split; [exact Hmh|]. split; reflexivity. }
  cbn [mbind option_bind] in Hmh.
  split; [apply NoDup_nil_2|].
  split; [intros kv Hin; now apply elem_of_nil in Hin|].
  eexists. split; [exact Hmh|]. split; reflexivity.
Qed.

(** The first frame after the reset of a disconnected session: every value
    of the frame that the shadow map tracks leaves its attribute at zero,
    every other value is written, and the change flag is raised exactly
    when one is written. *)
Lemma handler_after_reset (s : state) (data : list byte)
    (packet_start_time now : R) (stamp : string)
    (b1 b2 b3 b4 b5 b8 b9 b10 b11 : byte) :
  is_connected s = false ->
  (16 <= length data)%nat ->
  data !! 0%nat = Some xaa ->
  data !! 1%nat = Some b1 ->
  data !! 2%nat = Some b2 -> data !! 3%nat = Some b3 ->
  data !! 4%nat = Some b4 -> data !! 5%nat = Some b5 ->
  data !! 8%nat = Some b8 -> data !! 9%nat = Some b9 ->
  data !! 10%nat = Some b10 -> data !! 11%nat = Some b11 ->
  let updates := decoded_updates b1 b2 b3 b4 b5 b8 b9 b10 b11 0%R in
  exists s',
    message_handler (update_display false s).2 data packet_start_time now stamp
    = Some s' /\
    is_connected s' = true /\
    (forall key value, (key, value) ∈ updates ->
       tracked (ctr_data s') key value /\
       (tracked (ctr_data s) key value ->
        getattr (ctr_data s') key = Some (PInt 0)) /\
       (value_changed (ctr_data s) key value = true ->
        getattr (ctr_data s') key = Some value)) /\
    (forall key, key ∈ telemetry_keys -> key ∉ updates.*1 ->
       getattr (ctr_data s') key = Some (PInt 0)) /\
    _has_changes (ctr_data s')
    = existsb (fun kv => value_changed (ctr_data s) kv.1 kv.2) updates.
Proof.
  intros Hdis Hlen H0 H1 H2 H3 H4 H5 H8 H9 H10 H11 updates.
  destruct (update_display_disconnected s Hdis)
    as (_ & _ & _ & Has & _ & _ & Hflag & _ & Hvc & Hzero).
  set (s0 := (update_display false s).2) in *.
  assert (Hvolt : to_float (voltage (ctr_data s0)) = 0%R).
  { pose proof (Hzero "voltage"%string ltac:(compute_done)) as Hv.
    assert (Hv' : Some (voltage (ctr_data s0)) = Some (PInt 0)) by exact Hv.
    injection Hv' as ->. reflexivity. }
  destruct (message_handler_decoded s0 data packet_start_time now stamp
              b1 b2 b3 b4 b5 b8 b9 b10 b11
              Hlen H0 H1 H2 H3 H4 H5 H8 H9 H10 H11)
    as (Hnd & Htel & s' & Hs' & Hcon & Hc).
  rewrite Hvolt in Hnd, Htel, Hc. fold updates in Hnd, Htel, Hc.
  destruct (bookkeeping_frame (ctr_data s0) now packet_start_time
              ((now - packet_start_time) * 1000)%R)
    as (Bga & _ & _ & Bhc & _).
  assert (Bvc : forall key value,
            value_changed
              (update_performance_metrics (set_last_update now (ctr_data s0))
                 packet_start_time ((now - packet_start_time) * 1000)%R)
              key value
            = value_changed (ctr_data s) key value).
  { intros key value. rewrite bookkeeping_value_changed. apply Hvc. }
  set (c0 := update_performance_metrics (set_last_update now (ctr_data s0))
               packet_start_time ((now - packet_start_time) * 1000)%R) in *.
  destruct (updates_spec now stamp (auto_save s0) updates Hnd c0)
    as (Ua & Ub & Uc & Ud).
  cbv zeta in Ua, Ub, Uc, Ud. rewrite <- Hc in Ua, Ub, Uc, Ud.
  exists s'. split; [exact Hs'|]. split; [exact Hcon|].
  split; [|split].
  - intros key value Hin.
    specialize (Ua _ Hin). specialize (Ub _ Hin (Htel _ Hin)).
    cbn [fst snd] in Ua, Ub. rewrite Bvc in Ub. unfold tracked in Ub.
    rewrite Bvc in Ub. rewrite Bga in Ub.
    rewrite (Hzero key (Htel _ Hin)) in Ub.
    split; [exact Ua|]. split.
    + intros Ht. unfold tracked in Ht.
      destruct Ub as [[Hch _]|[_ Hg]]; [congruence|exact Hg].
    + intros Hch. destruct Ub as [[_ Hg]|[Ht _]]; [exact Hg|congruence].
  - intros key Hkey Hnot. destruct (Uc key Hnot) as [Hg _].
    rewrite Hg, Bga. now apply Hzero.
  - rewrite Ud, Bhc, Hflag. cbn [orb]. apply existsb_eq_on.
    intros kv _. apply Bvc.
Qed.

(** C10, as the code has it.  When the display update finds the session
    disconnected, and the display is not paused, it writes zero into every
    telemetry attribute and forces a redraw, but leaves the shadow map of
    tracked values; a paused display is left as it is.  For the frame that
    arrives next, of 16 bytes or more: every value of the frame for which
    the shadow map tracks an equal value finds nothing to do, so its
    attribute stays zero; every value that is not tracked (another value is
    tracked, or none yet, even when the frame carries the 0 that the
    attribute held) is written.  The change flag is clear afterwards
    exactly when all values of the frame were tracked. *)
Theorem reset_keeps_tracked_values (s : state) (rest : list byte)
    (packet_start_time now : R) (stamp : string)
    (b1 b2 b3 b4 b5 b6 b7 b8 b9 b10 b11 : byte) :
  is_connected s = false ->
  (4 <= length rest)%nat ->
  let data := [xaa; b1; b2; b3; b4; b5; b6; b7; b8; b9; b10; b11] ++ rest in
  let updates := decoded_updates b1 b2 b3 b4 b5 b8 b9 b10 b11 0%R in
  let s0 := (update_display false s).2 in
  (update_display false s).1 = true /\
  update_display true s = (false, s) /\
  _last_values (ctr_data s0) = _last_values (ctr_data s) /\
  _has_changes (ctr_data s0) = false /\
  (forall key, key ∈ telemetry_keys ->
     getattr (ctr_data s0) key = Some (PInt 0)) /\
  exists s',
    message_handler s0 data packet_start_time now stamp = Some s' /\
    (forall key value, (key, value) ∈ updates ->
       tracked (ctr_data s') key value /\
       (tracked (ctr_data s) key value ->
        getattr (ctr_data s') key = Some (PInt 0)) /\
       (value_changed (ctr_data s) key value = true ->
        getattr (ctr_data s') key = Some value /\
        _has_changes (ctr_data s') = true)) /\
    (_has_changes (ctr_data s') = false <->
     forall key value, (key, value) ∈ updates ->
       tracked (ctr_data s) key value).
Proof.
  intros Hdis Hrest data updates s0.
  destruct (update_display_disconnected s Hdis)
    as (Hfst & Hpaused & _ & _ & _ & Hlv & Hflag & _ & _ & Hzero).
  fold s0 in Hlv, Hflag, Hzero.
  destruct (handler_after_reset s data packet_start_time now stamp
              b1 b2 b3 b4 b5 b8 b9 b10 b11 Hdis)
    as (s' & Hs' & _ & Hupd & _ & Hch); try reflexivity.
  { subst data. rewrite length_app. cbn [length]. lia. }
  fold s0 in Hs'. fold updates in Hupd, Hch.
  split; [exact Hfst|]. split; [exact Hpaused|]. split; [exact Hlv|].
  split; [exact Hflag|]. split; [exact Hzero|].
  exists s'. split; [exact Hs'|]. split.
  - intros key value Hin. destruct (Hupd key value Hin) as (Ht & Hz & Hw).
    split; [exact Ht|]. split; [exact Hz|].
    intros Hc. split; [now apply Hw|].
    rewrite Hch. apply existsb_exists. exists (key, value).
    split; [now apply list_elem_of_In|exact Hc].
  - rewrite Hch. split.
    + intros Hnone key value Hin. unfold tracked.
      destruct (value_changed (ctr_data s) key value) eqn:E; [|reflexivity].
      exfalso. assert (Hex : existsb
                 (fun kv => value_changed (ctr_data s) kv.1 kv.2) updates
               = true).
      { apply existsb_exists. exists (key, value).
        split; [now apply list_elem_of_In|exact E]. }
      congruence.
    + intros Hall.
      destruct (existsb (fun kv => value_changed (ctr_data s) kv.1 kv.2)
                  updates) eqn:E; [|reflexivity].
      apply existsb_exists in E as ([key value] & Hin & Hc).
      apply list_elem_of_In in Hin. specialize (Hall key value Hin).
      unfold tracked in Hall. cbn [fst snd] in Hc. congruence.
Qed.

Lemma reset_keeps_tracked_values_witness :
  exists s1 s',
    message_handler (Monitor.init 0) Frames.controller_temp_frame 0 1 "t1"
    = Some s1 /\
    controller_temp (ctr_data s1) = PInt 45 /\
    message_handler (update_display false (set_is_connected false s1)).2
      Frames.controller_temp_frame 2 3 "t2"
    = Some s' /\
    controller_temp (ctr_data s') = PInt 0 /\
    _has_changes (ctr_data s') = false.
Proof.
  eexists. 
  assert (H1 : message_handler (Monitor.init 0) Frames.controller_temp_frame
                 0 1 "t1" = Some _) by (vm_compute; reflexivity).
  match type of H1 with
  | _ = Some ?s1 =>
      destruct (reset_keeps_tracked_values (set_is_connected false s1)
                  [x00; x00; x29; x00] 2 3 "t2"
                  x04 x2d x00 x00 x00 x00 x00 x00 x00 x00 x00
                  eq_refl ltac:(simpl; lia))
        as (_ & _ & _ & _ & _ & s' & Hs' & Hupd & Hflag)
  end.
  exists s'. split; [exact H1|]. split; [reflexivity|].
  split; [exact Hs'|].
  destruct (Hupd "controller_temp"%string (PInt 45)
              ltac:(apply list_elem_of_here)) as (_ & Hzero & _).
  split.
  - assert (Hg : Some (controller_temp (ctr_data s')) = Some (PInt 0))
      by (apply Hzero; reflexivity).
    now injection Hg.
  - apply Hflag. intros key value Hin.
    apply list_elem_of_singleton in Hin. injection Hin as -> ->.
    reflexivity.
Defined.

(** On a new session no value is tracked.  The controller temperature
    attribute holds 0; after the reset a frame that carries the
    temperature 0 is nevertheless reported as a change, and its value is
    written and tracked. *)
Lemma untracked_zero_reports_change :
  is_connected (Monitor.init 0) = false /\
  controller_temp (ctr_data (Monitor.init 0)) = PInt 0 /\
  _last_values (ctr_data (Monitor.init 0)) !! "controller_temp"%string = None /\
  exists s',
    message_handler (update_display false (Monitor.init 0)).2
      Frames.zero_temp_frame 1 2 "t"
    = Some s' /\
    _has_changes (ctr_data s') = true /\
    _last_values (ctr_data s') !! "controller_temp"%string = Some (PInt 0).
Proof.
  split; [reflexivity|]. split; [reflexivity|]. split; [reflexivity|].
  eexists. split; [vm_compute; reflexivity|]. split; reflexivity.
Qed.

(** C3 at a failing input.  A new session receives the main-data frame
    [AA 00 04 00 13 88 ...] and shows rpm 5000; the link is lost, and the
    display update resets the fields to zero.  When the same frame arrives
    again the session is connected again, but [update_value] finds the
    values of the frame in the shadow map and writes nothing: rpm, gear,
    power and speed stay zero. *)
Lemma main_frame_after_reset_keeps_zero :
  exists s1 s2,
    message_handler (Monitor.init 0) Frames.main_frame 0 1 "t1" = Some s1 /\
    rpm (ctr_data s1) = PInt 5000 /\
    gear (ctr_data s1) = PInt 1 /\
    speed (ctr_data s1) = PFloat (IZR 5000 / 4.0 * 1.350 * 0.06)%R /\
    message_handler (update_display false (set_is_connected false s1)).2
      Frames.main_frame 2 3 "t2"
    = Some s2 /\
    is_connected s2 = true /\
    rpm (ctr_data s2) = PInt 0 /\
    gear (ctr_data s2) = PInt 0 /\
    power (ctr_data s2) = PInt 0 /\
    speed (ctr_data s2) = PInt 0.
Proof.
  destruct (message_handler_decoded (Monitor.init 0) Frames.main_frame
              0 1 "t1" x00 x04 x00 x13 x88 x27 x10 x00 x00
              ltac:(simpl; lia) eq_refl eq_refl eq_refl eq_refl eq_refl
              eq_refl eq_refl eq_refl eq_refl eq_refl)
    as (Hnd & Htel & s1 & Hs1 & _ & Hc1).
  change (byte_val x00 =? 0) with true in Hnd, Htel, Hc1. cbv iota in *.
  match type of Hc1 with
  | _ = foldl _ ?c ?u => set (c0 := c) in *; set (updates := u) in *
  end.
  destruct (updates_spec 1 "t1" (auto_save (Monitor.init 0)) updates Hnd c0)
    as (Ua & Ub & _).
  cbv zeta in Ua, Ub. rewrite <- Hc1 in Ua, Ub.
  destruct (handler_after_reset (set_is_connected false s1) Frames.main_frame
              2 3 "t2" x00 x04 x00 x13 x88 x27 x10 x00 x00
              eq_refl ltac:(simpl; lia) eq_refl eq_refl eq_refl eq_refl
              eq_refl eq_refl eq_refl eq_refl eq_refl eq_refl)
    as (s2 & Hs2 & Hcon & Hupd & _).
  change (byte_val x00 =? 0) with true in Hupd. cbv iota in Hupd.
  cbn [set_is_connected ctr_data] in Hupd.
  assert (Hwritten : forall kv, kv ∈ updates ->
            getattr (ctr_data s1) kv.1 = Some kv.2).
  { intros kv Hin.
    destruct (Ub kv Hin (Htel kv Hin)) as [[_ Hg]|[Ht _]]; [exact Hg|].
    exfalso. unfold tracked, value_changed in Ht.
    assert (Hempty : _last_values c0 = ∅) by reflexivity.
    rewrite Hempty, lookup_empty in Ht. discriminate. }
  assert (Hzero : forall kv, kv ∈ updates ->
            getattr (ctr_data s2) kv.1 = Some (PInt 0)).
  { intros [key value] Hin. destruct (Hupd key value Hin) as (_ & Hz & _).
    apply Hz. exact (Ua _ Hin). }
  pose proof (Hwritten _ ltac:(apply list_elem_of_here)) as Hrpm1.
  pose proof (Hwritten _ ltac:(apply list_elem_of_further, list_elem_of_here))
    as Hgear1.
  pose proof (Hwritten _ ltac:(do 3 apply list_elem_of_further;
                               apply list_elem_of_here)) as Hspeed1.
  pose proof (Hzero _ ltac:(apply list_elem_of_here)) as Hrpm2.
  pose proof (Hzero _ ltac:(apply list_elem_of_further, list_elem_of_here))
    as Hgear2.
  pose proof (Hzero _ ltac:(do 2 apply list_elem_of_further;
                            apply list_elem_of_here)) as Hpower2.
  pose proof (Hzero _ ltac:(do 3 apply list_elem_of_further;
                            apply list_elem_of_here)) as Hspeed2.
  cbn [fst snd] in Hrpm1, Hgear1, Hspeed1, Hrpm2, Hgear2, Hpower2, Hspeed2.
  exists s1, s2. split; [exact Hs1|].
  split; [now injection Hrpm1|]. split; [now injection Hgear1|].
  split; [now injection Hspeed1|].
  split; [exact Hs2|]. split; [exact Hcon|].
  split; [now injection Hrpm2|]. split; [now injection Hgear2|].
  split; [now injection Hpower2|]. now injection Hspeed2.
Qed.




End Display.

(** * Further properties of the code *)

(** ** The other packet types *)

Section OtherPackets.

Import ControllerData Monitor.

(** The store after one update: the value is tracked, and the attribute
    holds it unless it was tracked before. *)
Lemma single_update (c : ControllerData.t) (key : string) (value : pyval)
    (now : R) (stamp : string) (auto_save : bool) :
  key ∈ telemetry_keys ->
  let c' := update_value c key value now stamp auto_save in
  tracked c' key value /\
  (getattr c' key = Some value \/
   tracked c key value /\ getattr c' key = getattr c key).
Proof.
  intros Hkey c'. split; [apply update_value_tracks|].
  destruct (tracked_dec c key value) as [Ht|Hc].
  - right. split; [exact Ht|]. subst c'. now rewrite update_value_same.
  - left. now apply (update_value_changed c key value now stamp auto_save Hc).
Qed.

(** X1. A voltage frame (type index 1) that is accepted: the inspector
    reports the unsigned 16-bit word of bytes 2..3 and a tenth of it as
    the voltage, between 0 and 6553.5; the handler hands the same voltage
    to the store, which tracks it. *)
Theorem voltage_frame_decoding (s : state) (data : list byte)
    (packet_start_time now : R) (stamp : string) (b2 b3 : byte) :
  (16 <= length data)%nat ->
  data !! 0%nat = Some xaa ->
  data !! 1%nat = Some x01 ->
  data !! 2%nat = Some b2 -> data !! 3%nat = Some b3 ->
  let raw := byte_val b2 * 256 + byte_val b3 in
  exists p d s',
    PacketInspector.analyze_packet (packet_inspector s) data stamp
    = Some (PacketInspector.Valid p,
            PacketInspector.store_in_history (packet_inspector s)
              (PacketInspector.Valid p)) /\
    PacketInspector.parsed_data p = PacketInspector.VoltageData d /\
    PacketInspector.voltage_raw d = raw /\
    0 <= raw <= 65535 /\
    PacketInspector.voltage d = (IZR raw / 10)%R /\
    (0 <= PacketInspector.voltage d <= 6553.5)%R /\
    message_handler s data packet_start_time now stamp = Some s' /\
    tracked (ctr_data s') "voltage" (PFloat (PacketInspector.voltage d)) /\
    (voltage (ctr_data s') = PFloat (PacketInspector.voltage d) \/
     tracked (ctr_data s) "voltage" (PFloat (PacketInspector.voltage d)) /\
     voltage (ctr_data s') = voltage (ctr_data s)).
Proof.
  intros Hlen H0 H1 H2 H3 raw. subst raw.
  pose proof (byte_val_range b2) as R2. pose proof (byte_val_range b3) as R3.
  destruct (analyze_packet_accepts (packet_inspector s) data stamp Hlen H0)
    as (b1 & b14 & b15 & pd & Hb1 & _ & _ & Hpd & Heq).
  assert (b1 = x01) as -> by congruence.
  unfold PacketInspector.parse_by_index in Hpd.
  change (byte_val x01 =? 0) with false in Hpd.
  change (byte_val x01 =? 1) with true in Hpd. cbv iota in Hpd.
  unfold PacketInspector._parse_voltage_data in Hpd.
  rewrite (idx_Some _ _ _ H2), (idx_Some _ _ _ H3) in Hpd.
  cbn [mbind option_bind fmap option_fmap option_map] in Hpd.
  rewrite word_bytes in Hpd. injection Hpd as <-.
  destruct (message_handler_accepts s data packet_start_time now stamp x01
              Hlen H0 H1) as (p' & _ & Hmh).
  unfold process_packet in Hmh.
  change (byte_val x01 =? 0) with false in Hmh.
  change (byte_val x01 =? 1) with true in Hmh. cbv iota in Hmh.
  rewrite (idx_Some _ _ _ H2), (idx_Some _ _ _ H3) in Hmh.
  cbn [mbind option_bind] in Hmh. rewrite word_bytes in Hmh.
  set (raw := byte_val b2 * 256 + byte_val b3) in *.
  assert (Hraw : 0 <= raw <= 65535) by (unfold raw; lia).
  clearbody raw.
  destruct (bookkeeping_frame (ctr_data s) now packet_start_time
              ((now - packet_start_time) * 1000)%R) as (Hga & Hvolt & _).
  set (c0 := update_performance_metrics (set_last_update now (ctr_data s))
               packet_start_time ((now - packet_start_time) * 1000)%R) in *.
  destruct (single_update c0 "voltage" (PFloat (IZR raw / 10)) now stamp
              (auto_save s)) as (Ht & Hattr); [compute_done|].
  eexists _, _, _. split; [exact Heq|].
  cbn [PacketInspector.parsed_data PacketInspector.voltage_raw
         PacketInspector.voltage].
  split; [reflexivity|]. split; [reflexivity|]. split; [exact Hraw|].
  split; [reflexivity|].
  split.
  { assert (0 <= IZR raw <= 65535)%R
      by (split; [apply IZR_le; lia|apply IZR_le; lia]).
    cbn [PacketInspector.voltage]. lra. }
  split; [exact Hmh|]. cbn [ctr_data]. split; [exact Ht|].
  rewrite !getattr_voltage in Hattr.
  destruct Hattr as [Hw|[Hb Hu]].
  - left. now injection Hw.
  - right. unfold tracked in *. subst c0.
    rewrite bookkeeping_value_changed in Hb. split; [exact Hb|].
    injection Hu as ->. exact Hvolt.
Qed.

Lemma voltage_frame_decoding_witness :
  exists s',
    message_handler (Monitor.init 0) Frames.voltage_frame 0 0 "" = Some s' /\
    exists v, voltage (ctr_data s') = PFloat v /\ v = 90%R.
Proof.
  destruct (voltage_frame_decoding (Monitor.init 0) Frames.voltage_frame
              0 0 "" x03 x84)
    as (p & d & s' & _ & _ & _ & _ & Hv & _ & Hmh & _ & Hattr);
    try reflexivity.
  exists s'. split; [exact Hmh|].
  destruct Hattr as [Hw|[Ht _]]; [|vm_compute in Ht; discriminate].
  eexists. split; [exact Hw|]. rewrite Hv.
  change (byte_val x03 * 256 + byte_val x84) with 900. lra.
Defined.

(** X2. A motor frame (type index 13) that is accepted: the inspector
    reports byte 2 as the motor temperature, the unsigned 16-bit word of
    bytes 4..5 as the raw throttle and [raw / 4095 * 100] as the
    percentage, which is not clamped: it exceeds 100 exactly when the raw
    value exceeds 4095.  The handler hands the temperature and the raw
    throttle, not the percentage, to the store. *)
Theorem motor_frame_decoding (s : state) (data : list byte)
    (packet_start_time now : R) (stamp : string) (b2 b4 b5 : byte) :
  (16 <= length data)%nat ->
  data !! 0%nat = Some xaa ->
  data !! 1%nat = Some x0d ->
  data !! 2%nat = Some b2 ->
  data !! 4%nat = Some b4 -> data !! 5%nat = Some b5 ->
  let raw := byte_val b4 * 256 + byte_val b5 in
  exists p d s',
    PacketInspector.analyze_packet (packet_inspector s) data stamp
    = Some (PacketInspector.Valid p,
            PacketInspector.store_in_history (packet_inspector s)
              (PacketInspector.Valid p)) /\
    PacketInspector.parsed_data p = PacketInspector.MotorThrottleData d /\
    PacketInspector.motor_temperature d = byte_val b2 /\
    PacketInspector.throttle_raw d = raw /\
    0 <= raw <= 65535 /\
    PacketInspector.throttle_percent d = (IZR raw / 4095 * 100)%R /\
    ((100 < PacketInspector.throttle_percent d)%R <-> 4095 < raw) /\
    message_handler s data packet_start_time now stamp = Some s' /\
    tracked (ctr_data s') "motor_temp" (PInt (byte_val b2)) /\
    tracked (ctr_data s') "throttle" (PInt raw) /\
    (getattr (ctr_data s') "throttle" = Some (PInt raw) \/
     tracked (ctr_data s) "throttle" (PInt raw) /\
     getattr (ctr_data s') "throttle" = getattr (ctr_data s) "throttle").
Proof.
  intros Hlen H0 H1 H2 H4 H5 raw. subst raw.
  pose proof (byte_val_range b4) as R4. pose proof (byte_val_range b5) as R5.
  destruct (analyze_packet_accepts (packet_inspector s) data stamp Hlen H0)
    as (b1 & b14 & b15 & pd & Hb1 & _ & _ & Hpd & Heq).
  assert (b1 = x0d) as -> by congruence.
  unfold PacketInspector.parse_by_index in Hpd.
  change (byte_val x0d =? 0) with false in Hpd.
  change (byte_val x0d =? 1) with false in Hpd.
  change (byte_val x0d =? 4) with false in Hpd.
  change (byte_val x0d =? 13) with true in Hpd. cbv iota in Hpd.
  unfold PacketInspector._parse_motor_throttle_data in Hpd.
  rewrite (idx_Some _ _ _ H2), (idx_Some _ _ _ H4), (idx_Some _ _ _ H5) in Hpd.
  cbn [mbind option_bind fmap option_fmap option_map] in Hpd.
  rewrite word_bytes in Hpd. injection Hpd as <-.
  destruct (message_handler_accepts s data packet_start_time now stamp x0d
              Hlen H0 H1) as (p' & _ & Hmh).
  unfold process_packet in Hmh.
  change (byte_val x0d =? 0) with false in Hmh.
  change (byte_val x0d =? 1) with false in Hmh.
  change (byte_val x0d =? 4) with false in Hmh.
  change (byte_val x0d =? 13) with true in Hmh. cbv iota in Hmh.
  rewrite (idx_Some _ _ _ H2), (idx_Some _ _ _ H4), (idx_Some _ _ _ H5) in Hmh.
  cbn [mbind option_bind] in Hmh. rewrite word_bytes in Hmh.
  set (raw := byte_val b4 * 256 + byte_val b5) in *.
  assert (Hraw : 0 <= raw <= 65535) by (unfold raw; lia).
  clearbody raw.
  destruct (bookkeeping_frame (ctr_data s) now packet_start_time
              ((now - packet_start_time) * 1000)%R) as (Hga & _).
  set (c0 := update_performance_metrics (set_last_update now (ctr_data s))
               packet_start_time ((now - packet_start_time) * 1000)%R) in *.
  set (updates := [("motor_temp", PInt (byte_val b2));
                   ("throttle", PInt raw)]%string).
  assert (Hnd : NoDup updates.*1) by (cbn [fmap list_fmap fst]; compute_done).
  destruct (updates_spec now stamp (auto_save s) updates Hnd c0)
    as (Ha & Hb & _).
  eexists _, _, _. split; [exact Heq|].
  cbn [PacketInspector.parsed_data PacketInspector.motor_temperature
         PacketInspector.throttle_raw PacketInspector.throttle_percent].
  split; [reflexivity|]. split; [reflexivity|]. split; [reflexivity|].
  split; [exact Hraw|]. split; [reflexivity|].
  split.
  { cbn [PacketInspector.throttle_percent]. split.
    - intros Hp. apply lt_IZR. lra.
    - intros Hr. apply IZR_lt in Hr. lra. }
  split; [exact Hmh|]. cbn [ctr_data].
  split; [apply (Ha ("motor_temp"%string, PInt (byte_val b2))); left|].
  split; [apply (Ha ("throttle"%string, PInt raw)); right; left|].
  destruct (Hb ("throttle"%string, PInt raw)) as [[_ Hw]|[Ht Hu]];
    [right; left|compute_done|now left|].
  right. unfold tracked in *. subst c0.
  rewrite bookkeeping_value_changed in Ht. split; [exact Ht|].
  etransitivity; [exact Hu|apply Hga].
Qed.

Lemma motor_frame_decoding_witness :
  let frame := [xaa; x0d; x28; x00; x20; x00; x00; x00;
                x00; x00; x00; x00; x00; x00; x05; x00] in
  exists p d s',
    PacketInspector.analyze_packet PacketInspector.init frame ""
    = Some (PacketInspector.Valid p,
            PacketInspector.store_in_history PacketInspector.init
              (PacketInspector.Valid p)) /\
    PacketInspector.parsed_data p = PacketInspector.MotorThrottleData d /\
    (100 < PacketInspector.throttle_percent d)%R /\
    message_handler (Monitor.init 0) frame 0 0 "" = Some s' /\
    getattr (ctr_data s') "throttle" = Some (PInt 8192).
Proof.
  intros frame.
  destruct (motor_frame_decoding (Monitor.init 0) frame 0 0 "" x28 x20 x00)
    as (p & d & s' & Heq & Hpd & _ & _ & _ & _ & Hover & Hmh & _ & _ & Hattr);
    try reflexivity.
  exists p, d, s'. split; [exact Heq|]. split; [exact Hpd|].
  split; [apply Hover; reflexivity|]. split; [exact Hmh|].
  destruct Hattr as [Hw|[Ht _]]; [exact Hw|vm_compute in Ht; discriminate].
Defined.

(** X3. The gear of a main-data frame: the inspector reports the two gear
    bits as they are, named High, Mid, Low, Mid; the handler clamps them to
    1..3 before the update, so the store tracks 1 both for gear bits 0
    (High) and for gear bits 1 (Mid), and the gear bits themselves for 2
    and 3. *)
Theorem gear_inspector_and_store (s : state) (data : list byte)
    (packet_start_time now : R) (stamp : string)
    (b2 b4 b5 b8 b9 b10 b11 : byte) :
  (16 <= length data)%nat ->
  data !! 0%nat = Some xaa ->
  data !! 1%nat = Some x00 ->
  data !! 2%nat = Some b2 ->
  data !! 4%nat = Some b4 -> data !! 5%nat = Some b5 ->
  data !! 8%nat = Some b8 -> data !! 9%nat = Some b9 ->
  data !! 10%nat = Some b10 -> data !! 11%nat = Some b11 ->
  exists d s',
    PacketInspector._parse_main_data data = Some d /\
    0 <= PacketInspector.gear_bits d <= 3 /\
    message_handler s data packet_start_time now stamp = Some s' /\
    tracked (ctr_data s') "gear"
      (PInt (if PacketInspector.gear_bits d =? 0 then 1
             else PacketInspector.gear_bits d)) /\
    (PacketInspector.gear d = "High"%string ->
     tracked (ctr_data s') "gear" (PInt 1)) /\
    (PacketInspector.gear_bits d = 1 ->
     PacketInspector.gear d = "Mid"%string /\
     tracked (ctr_data s') "gear" (PInt 1)).
Proof.
  intros Hlen H0 H1 H2 H4 H5 H8 H9 H10 H11.
  pose proof (byte_val_range b2) as R2.
  destruct (parse_main_data_eq data _ _ _ _ _ _ _ H2 H4 H5 H8 H9 H10 H11)
    as (d & Hd & Hgb & Hg & _).
  destruct (message_handler_main s data packet_start_time now stamp
              b2 b4 b5 b8 b9 b10 b11 Hlen H0 H1 H2 H4 H5 H8 H9 H10 H11)
    as (s' & Hmh & _ & Hc).
  rewrite gear_bits_arith in Hgb.
  assert (Hr : 0 <= (byte_val b2 / 4) mod 4 < 4) by (apply Z.mod_pos_bound; lia).
  rewrite <- Hgb in Hc, Hr.
  set (g := PacketInspector.gear_bits d) in *.
  assert (Hclamp : Z.max 1 (Z.min 3 g) = if g =? 0 then 1 else g).
  { destruct (Z.eqb_spec g 0); lia. }
  rewrite Hclamp in Hc.
  match type of Hc with
  | _ = foldl _ ?c0 [(_, ?r); (_, ?gv); (_, ?pw); (_, ?sp)] =>
      destruct (main_keys r gv pw sp) as (Hnd & _);
      destruct (updates_spec now stamp (auto_save s) _ Hnd c0) as (Ha & _);
      pose proof (Ha ("gear"%string, gv)) as Hgear
  end.
  rewrite <- Hc in Hgear. cbn [fst snd] in Hgear.
  assert (Ht : tracked (ctr_data s') "gear" (PInt (if g =? 0 then 1 else g)))
    by (apply Hgear; right; left).
  exists d, s'. split; [exact Hd|]. split; [lia|]. split; [exact Hmh|].
  split; [exact Ht|]. rewrite Hg. fold g. clear Hc Hgear Ha Hclamp.
  clearbody g.
  assert (Hcases : g = 0 \/ g = 1 \/ g = 2 \/ g = 3) by lia.
  split.
  - intros Hhigh.
    destruct Hcases as [-> | [-> | [-> | ->] ] ];
      [exact Ht|discriminate..].
  - intros ->. split; [reflexivity|exact Ht].
Qed.

Lemma gear_inspector_and_store_witness :
  let frame := [xaa; x00; x00; x00; x13; x88; x00; x00;
                x27; x10; x00; x00; x00; x00; xac; x00] in
  exists d s',
    PacketInspector._parse_main_data frame = Some d /\
    PacketInspector.gear d = "High"%string /\
    message_handler (Monitor.init 0) frame 0 0 "" = Some s' /\
    tracked (ctr_data s') "gear" (PInt 1).
Proof.
  intros frame.
  destruct (gear_inspector_and_store (Monitor.init 0) frame 0 0 ""
              x00 x13 x88 x27 x10 x00 x00)
    as (d & s' & Hd & _ & Hmh & _ & Hhigh & _); try reflexivity.
  assert (Hg : PacketInspector.gear d = "High"%string).
  { unfold PacketInspector._parse_main_data in Hd. cbn in Hd.
    injection Hd as <-. reflexivity. }
  exists d, s'. split; [exact Hd|]. split; [exact Hg|].
  split; [exact Hmh|]. now apply Hhigh.
Defined.

(** Only bytes 0 to 11 reach the branches of the handler. *)
Lemma process_packet_prefix (c : ControllerData.t) (data : list byte)
    (index : Z) (now : R) (stamp : string) (auto_save : bool) :
  process_packet c (take 12 data) index now stamp auto_save
  = process_packet c data index now stamp auto_save.
Proof.
  assert (Hidx : forall i, (i < 12)%nat -> idx (take 12 data) i = idx data i).
  { intros i Hi. unfold idx. now rewrite lookup_take_lt by exact Hi. }
  unfold process_packet. rewrite !Hidx by lia. reflexivity.
Qed.

(** X4. The handler never looks at the checksum: two frames of 16 bytes or
    more that agree on their first 12 bytes leave the same controller data
    and the same connection flag, whatever their bytes 12, 13, 14
    (checksum) and 15 are. *)
Theorem store_ignores_checksum (s : state) (data data' : list byte)
    (packet_start_time now : R) (stamp : string) :
  (16 <= length data)%nat -> (16 <= length data')%nat ->
  take 12 data = take 12 data' ->
  exists s1 s2,
    message_handler s data packet_start_time now stamp = Some s1 /\
    message_handler s data' packet_start_time now stamp = Some s2 /\
    ctr_data s1 = ctr_data s2 /\
    is_connected s1 = is_connected s2.
Proof.
  intros Hlen Hlen' Hpre.
  assert (Hsame : forall i, (i < 12)%nat -> data !! i = data' !! i).
  { intros i Hi. rewrite <- (lookup_take_lt data 12 i Hi),
      <- (lookup_take_lt data' 12 i Hi). now rewrite Hpre. }
  destruct (lookup_lt_is_Some_2 data 0 ltac:(lia)) as [b0 H0].
  pose proof H0 as H0'. rewrite (Hsame 0%nat) in H0' by lia.
  destruct (decide (b0 = xaa)) as [->|Hne].
  - destruct (lookup_lt_is_Some_2 data 1 ltac:(lia)) as [b1 H1].
    pose proof H1 as H1'. rewrite (Hsame 1%nat) in H1' by lia.
    destruct (message_handler_accepts s data packet_start_time now stamp b1
                Hlen H0 H1) as (p & _ & Hmh).
    destruct (message_handler_accepts s data' packet_start_time now stamp b1
                Hlen' H0' H1') as (p' & _ & Hmh').
    rewrite <- process_packet_prefix in Hmh.
    rewrite <- process_packet_prefix in Hmh'. rewrite <- Hpre in Hmh'.
    destruct (process_packet _ (take 12 data) _ _ _ _) as [c|] eqn:E;
      cbn [mbind option_bind] in Hmh, Hmh'.
    + eexists _, _. split; [exact Hmh|]. split; [exact Hmh'|].
      split; reflexivity.
    + exfalso. destruct (message_handler_total s data packet_start_time now
                           stamp) as [x Hx]. congruence.
  - eexists _, _.
    rewrite (message_handler_bad_header s data _ _ _ b0) by assumption.
    rewrite (message_handler_bad_header s data' _ _ _ b0) by assumption.
    split; [reflexivity|]. split; [reflexivity|]. split; reflexivity.
Qed.

Lemma store_ignores_checksum_witness :
  exists s1 s2,
    message_handler (Monitor.init 0) Frames.main_frame 0 0 "" = Some s1 /\
    message_handler (Monitor.init 0) Frames.main_frame_bad_checksum 0 0 ""
    = Some s2 /\
    ctr_data s1 = ctr_data s2.
Proof.
  destruct (store_ignores_checksum (Monitor.init 0) Frames.main_frame
              Frames.main_frame_bad_checksum 0 0 "")
    as (s1 & s2 & H1 & H2 & Hc & _); try reflexivity.
  exists s1, s2. now repeat split.
Defined.

End OtherPackets.

(** ** Counters and latency over a run of frames *)

Section Runs.

Import ControllerData Monitor.

(** An update touches none of the performance counters and none of the
    recording controls. *)
Lemma update_value_counters (c : ControllerData.t) (key : string)
    (value : pyval) (now : R) (stamp : string) (auto_save : bool) :
  let c' := update_value c key value now stamp auto_save in
  packet_count c' = packet_count c /\
  packet_errors c' = packet_errors c /\
  latency_samples c' = latency_samples c /\
  avg_latency c' = avg_latency c /\
  recording c' = recording c /\
  recording_start_time c' = recording_start_time c /\
  (csv_file c = None -> csv_file c' = None).
Proof.
  intros c'. subst c'. unfold update_value.
  destruct (value_changed c key value); [|repeat split; auto].
  destruct c. unfold setattr.
  repeat match goal with
         | |- context [String.eqb key ?s] => destruct (String.eqb key s)
         end;
    cbn; unfold record_data_point; cbn;
    destruct recording0, csv_file0, auto_save; cbn; repeat split;
    first [discriminate | intros; reflexivity].
Qed.

Lemma updates_counters (now : R) (stamp : string) (auto_save : bool)
    (updates : list (string * pyval)) (c : ControllerData.t) :
  let c' := foldl (fun c kv => update_value c kv.1 kv.2 now stamp auto_save)
              c updates in
  packet_count c' = packet_count c /\
  packet_errors c' = packet_errors c /\
  latency_samples c' = latency_samples c /\
  avg_latency c' = avg_latency c /\
  recording c' = recording c /\
  recording_start_time c' = recording_start_time c.
Proof.
  revert c. induction updates as [|kv updates IH]; intros c; [repeat split|].
  cbn [foldl]. cbv zeta in IH |- *.
  destruct (IH (update_value c kv.1 kv.2 now stamp auto_save))
    as (-> & -> & -> & -> & -> & ->).
  destruct (update_value_counters c kv.1 kv.2 now stamp auto_save)
    as (-> & -> & -> & -> & -> & -> & _).
  repeat split.
Qed.

(** One call of the handler: an accepted frame counts as a packet and adds
    its latency to the window, a rejected frame counts as an error. *)
Lemma message_handler_counters (s : state) (data : list byte)
    (packet_start_time now : R) (stamp : string) :
  exists s',
    message_handler s data packet_start_time now stamp = Some s' /\
    recording_start_time (ctr_data s') = recording_start_time (ctr_data s) /\
    if accepted data then
      packet_count (ctr_data s') = packet_count (ctr_data s) + 1 /\
      packet_errors (ctr_data s') = packet_errors (ctr_data s) /\
      latency_samples (ctr_data s')
      = latency_samples
          (update_performance_metrics (ctr_data s) packet_start_time
             ((now - packet_start_time) * 1000)%R) /\
      avg_latency (ctr_data s')
      = avg_latency
          (update_performance_metrics (ctr_data s) packet_start_time
             ((now - packet_start_time) * 1000)%R)
    else
      packet_count (ctr_data s') = packet_count (ctr_data s) /\
      packet_errors (ctr_data s') = packet_errors (ctr_data s) + 1 /\
      latency_samples (ctr_data s') = latency_samples (ctr_data s) /\
      avg_latency (ctr_data s') = avg_latency (ctr_data s).
Proof.
  assert (Hrej : forall c : ControllerData.t,
            let c' := set_packet_errors (packet_errors c + 1) c in
            recording_start_time c' = recording_start_time c /\
            packet_count c' = packet_count c /\
            packet_errors c' = packet_errors c + 1 /\
            latency_samples c' = latency_samples c /\
            avg_latency c' = avg_latency c)
    by (intros c; destruct c; repeat split).
  unfold accepted.
  destruct (Nat.lt_ge_cases (length data) 16) as [Hshort|Hlong].
  { eexists. split; [now apply message_handler_short|].
    rewrite bool_decide_eq_false_2 by lia. cbn [andb ctr_data set_ctr_data].
    destruct (Hrej (ctr_data s)) as (? & ? & ? & ? & ?). now repeat split. }
  destruct (lookup_lt_is_Some_2 data 0 ltac:(lia)) as [b0 H0].
  destruct (decide (b0 = xaa)) as [->|Hne].
  2:{ eexists.
      split; [now apply (message_handler_bad_header _ _ _ _ _ b0)|].
      rewrite (bool_decide_eq_false_2 (data !! 0%nat = Some xaa))
        by congruence.
      rewrite andb_false_r. cbn [ctr_data set_ctr_data].
      destruct (Hrej (ctr_data s)) as (? & ? & ? & ? & ?). now repeat split. }
  destruct (lookup_lt_is_Some_2 data 1 ltac:(lia)) as [b1 H1].
  destruct (message_handler_updates data b1 (voltage (ctr_data s)) Hlong H0 H1)
    as (updates & _ & _ & _ & _ & Hmh).
  destruct (Hmh s packet_start_time now stamp (fun _ => eq_refl))
    as (s' & Hs' & _ & _ & Hc).
  exists s'. split; [exact Hs'|].
  rewrite !bool_decide_eq_true_2 by assumption. cbn [andb].
  rewrite Hc.
  destruct (updates_counters now stamp (auto_save s) updates
              (update_performance_metrics (set_last_update now (ctr_data s))
                 packet_start_time ((now - packet_start_time) * 1000)%R))
    as (-> & -> & -> & -> & _ & ->).
  destruct (ctr_data s). cbn. repeat split.
Qed.

(** The window after [update_performance_metrics], when it was within
    bounds. *)
Lemma metrics_window (c : ControllerData.t) (packet_time latency : R) :
  (length (latency_samples c) <= 100)%nat ->
  let c' := update_performance_metrics c packet_time latency in
  let all := latency_samples c ++ [latency] in
  latency_samples c' = drop (length all - 100) all /\
  (1 <= length (latency_samples c') <= 100)%nat /\
  avg_latency c'
  = (ControllerData.sum (latency_samples c')
     / INR (length (latency_samples c')))%R /\
  packet_count c' = packet_count c + 1 /\
  last_packet_time c' = packet_time.
Proof.
  intros Hle c' all. subst c'. destruct c. cbn in *. fold all.
  assert (Hlen : length all = S (length latency_samples0))
    by (subst all; rewrite length_app; simpl; lia).
  case_bool_decide as Hcmp.
  - replace (length all - 100)%nat with 1%nat by lia.
    clearbody all. destruct all as [|x all']; [simpl in Hlen; lia|].
    cbn in *. repeat split; try reflexivity; lia.
  - replace (length all - 100)%nat with 0%nat by lia. cbn.
    repeat split; try reflexivity; lia.
Qed.

(** A run of frames, one call of the handler per frame. *)
Lemma handle_all_run (frames : list (list byte * (R * R) * string))
    (s : state) :
  (length (latency_samples (ctr_data s)) <= 100)%nat ->
  exists s',
    handle_all s frames = Some s' /\
    let n_accepted :=
      length (filter (fun f => accepted f.1.1 = true) frames) in
    let n_rejected :=
      length (filter (fun f => accepted f.1.1 = false) frames) in
    let all :=
      latency_samples (ctr_data s)
      ++ (latency_of <$> filter (fun f => accepted f.1.1 = true) frames) in
    packet_count (ctr_data s')
    = packet_count (ctr_data s) + Z.of_nat n_accepted /\
    packet_errors (ctr_data s')
    = packet_errors (ctr_data s) + Z.of_nat n_rejected /\
    (n_accepted + n_rejected = length frames)%nat /\
    recording_start_time (ctr_data s') = recording_start_time (ctr_data s) /\
    latency_samples (ctr_data s') = drop (length all - 100) all /\
    (length (latency_samples (ctr_data s')) <= 100)%nat.
Proof.
  revert s. induction frames as [|[[data [t0 now]] stamp] frames IH];
    intros s Hle.
  - exists s. split; [reflexivity|]. cbn. rewrite app_nil_r.
    replace (length (latency_samples (ctr_data s)) - 100)%nat with 0%nat by lia.
    repeat split; try lia.
  - destruct (message_handler_counters s data t0 now stamp)
      as (s1 & Hs1 & Hst & Hcase).
    cbn [handle_all]. rewrite Hs1. cbn [mbind option_bind].
    destruct (accepted data) eqn:Hacc.
    + destruct Hcase as (Hpc & Hpe & Hls & _).
      destruct (metrics_window (ctr_data s) t0 ((now - t0) * 1000)%R Hle)
        as (Hw & Hb & _).
      rewrite <- Hls in Hw, Hb.
      destruct (IH s1 ltac:(lia)) as (s' & Hs' & Hc & He & Hn & Hr & Hl & Hb').
      exists s'. split; [exact Hs'|].
      rewrite filter_cons_True by exact Hacc.
      rewrite filter_cons_False by (cbn; rewrite Hacc; discriminate).
      cbn [length fmap list_fmap]. cbv zeta in *.
      split; [lia|]. split; [lia|]. split; [lia|]. split; [congruence|].
      split; [|exact Hb'].
      rewrite Hl, Hw. rewrite drop_excess_app. rewrite <- app_assoc.
      reflexivity.
    + destruct Hcase as (Hpc & Hpe & Hls & _).
      destruct (IH s1 ltac:(rewrite Hls; exact Hle))
        as (s' & Hs' & Hc & He & Hn & Hr & Hl & Hb').
      exists s'. split; [exact Hs'|].
      rewrite filter_cons_False by (cbn; rewrite Hacc; discriminate).
      rewrite filter_cons_True by exact Hacc.
      cbn [length]. cbv zeta in *.
      split; [lia|]. split; [lia|]. split; [lia|]. split; [congruence|].
      split; [|exact Hb']. rewrite Hl, Hls. reflexivity.
Qed.

(** X5. Over any run of frames the handler returns for every frame,
    [packet_count] grows by the number of frames that pass the length and
    header checks, whether or not their checksum matches, and
    [packet_errors] by the number of the others; the two numbers add up to
    the number of frames. *)
Theorem handle_all_counters (frames : list (list byte * (R * R) * string))
    (s : state) :
  exists s',
    handle_all s frames = Some s' /\
    let n_accepted :=
      length (filter (fun f => accepted f.1.1 = true) frames) in
    let n_rejected :=
      length (filter (fun f => accepted f.1.1 = false) frames) in
    packet_count (ctr_data s')
    = packet_count (ctr_data s) + Z.of_nat n_accepted /\
    packet_errors (ctr_data s')
    = packet_errors (ctr_data s) + Z.of_nat n_rejected /\
    (n_accepted + n_rejected = length frames)%nat.
Proof.
  revert s. induction frames as [|[[data [t0 now]] stamp] frames IH];
    intros s.
  - exists s. split; [reflexivity|]. cbn. repeat split; lia.
  - destruct (message_handler_counters s data t0 now stamp)
      as (s1 & Hs1 & _ & Hcase).
    destruct (IH s1) as (s' & Hs' & Hc & He & Hn).
    exists s'. cbn [handle_all]. rewrite Hs1. cbn [mbind option_bind].
    split; [exact Hs'|]. cbv zeta in *.
    destruct (accepted data) eqn:Hacc; destruct Hcase as (Hpc & Hpe & _).
    + rewrite filter_cons_True by exact Hacc.
      rewrite filter_cons_False by (cbn; rewrite Hacc; discriminate).
      cbn [length]. repeat split; lia.
    + rewrite filter_cons_False by (cbn; rewrite Hacc; discriminate).
      rewrite filter_cons_True by exact Hacc.
      cbn [length]. repeat split; lia.
Qed.

(** X6. The latency window never holds more than 100 samples: after any
    run of frames it is the last 100 of the samples it held before followed
    by the latencies of the accepted frames, in arrival order. *)
Theorem latency_window_bounded
    (frames : list (list byte * (R * R) * string)) (s : state) :
  (length (latency_samples (ctr_data s)) <= 100)%nat ->
  exists s',
    handle_all s frames = Some s' /\
    let all :=
      latency_samples (ctr_data s)
      ++ (latency_of <$> filter (fun f => accepted f.1.1 = true) frames) in
    latency_samples (ctr_data s') = drop (length all - 100) all /\
    (length (latency_samples (ctr_data s')) <= 100)%nat.
Proof.
  intros Hle. destruct (handle_all_run frames s Hle)
    as (s' & Hs' & _ & _ & _ & _ & Hl & Hb).
  exists s'. split; [exact Hs'|]. split; [exact Hl|exact Hb].
Qed.

Lemma latency_window_bounded_witness :
  exists s',
    handle_all (Monitor.init 0)
      [(Frames.main_frame, (0, 2)%R, ""); ([xaa], (2, 3)%R, "");
       (Frames.voltage_frame, (3, 4)%R, "")]%string
    = Some s' /\
    latency_samples (ctr_data s') = [((2 - 0) * 1000)%R; ((4 - 3) * 1000)%R].
Proof.
  destruct (latency_window_bounded
              [(Frames.main_frame, (0, 2)%R, ""); ([xaa], (2, 3)%R, "");
               (Frames.voltage_frame, (3, 4)%R, "")]%string
              (Monitor.init 0))
    as (s' & Hs' & Hl & _); [simpl; lia|].
  exists s'. split; [exact Hs'|]. exact Hl.
Defined.

Lemma sum_shift (l : list R) (a : R) :
  foldl Rplus a l = (a + ControllerData.sum l)%R.
Proof.
  unfold ControllerData.sum. revert a.
  induction l as [|x l IH]; intros a; cbn.
  - lra.
  - rewrite (IH (a + x)%R), (IH (0 + x)%R). lra.
Qed.

Lemma sum_bounds (lo hi : R) (l : list R) :
  Forall (fun x => lo <= x <= hi)%R l ->
  (lo * INR (length l) <= ControllerData.sum l <= hi * INR (length l))%R.
Proof.
  induction 1 as [|x l Hx _ IH].
  - unfold ControllerData.sum. cbn. lra.
  - unfold ControllerData.sum. cbn [foldl]. rewrite sum_shift.
    rewrite length_cons, S_INR. lra.
Qed.

(** The mean of the window lies between the bounds of its samples. *)
Lemma metrics_average (lo hi : R) (c : ControllerData.t)
    (packet_time latency : R) :
  (length (latency_samples c) <= 100)%nat ->
  Forall (fun x => lo <= x <= hi)%R (latency_samples c) ->
  (lo <= latency <= hi)%R ->
  let c' := update_performance_metrics c packet_time latency in
  Forall (fun x => lo <= x <= hi)%R (latency_samples c') /\
  (lo <= avg_latency c' <= hi)%R.
Proof.
  intros Hle Hall Hlat c'.
  destruct (metrics_window c packet_time latency Hle) as (Hw & Hb & Havg & _).
  fold c' in Hw, Hb, Havg.
  assert (Hall' : Forall (fun x => lo <= x <= hi)%R (latency_samples c')).
  { rewrite Hw. apply Forall_drop. apply Forall_app. split; [exact Hall|].
    now constructor. }
  split; [exact Hall'|]. rewrite Havg.
  pose proof (sum_bounds lo hi _ Hall') as Hs.
  assert (Hpos : (0 < INR (length (latency_samples c')))%R)
    by (apply lt_0_INR; lia).
  set (n := INR (length (latency_samples c'))) in *.
  set (t := ControllerData.sum (latency_samples c')) in *.
  split.
  - apply Rmult_le_reg_r with n; [exact Hpos|].
    unfold Rdiv. rewrite Rmult_assoc, Rinv_l by lra. lra.
  - apply Rmult_le_reg_r with n; [exact Hpos|].
    unfold Rdiv. rewrite Rmult_assoc, Rinv_l by lra. lra.
Qed.

(** X7. [avg_latency] is the mean of the latency window, so it stays
    between any two bounds that hold for the samples: over a run of frames
    whose latencies lie between [lo] and [hi], starting from a window and a
    mean within these bounds, the mean stays within them.  In particular a
    clock that does not run backwards gives a mean that is not negative. *)
Theorem average_latency_bounds (lo hi : R)
    (frames : list (list byte * (R * R) * string)) (s : state) :
  (length (latency_samples (ctr_data s)) <= 100)%nat ->
  Forall (fun x => lo <= x <= hi)%R (latency_samples (ctr_data s)) ->
  (lo <= avg_latency (ctr_data s) <= hi)%R ->
  Forall (fun f => lo <= latency_of f <= hi)%R frames ->
  exists s',
    handle_all s frames = Some s' /\
    Forall (fun x => lo <= x <= hi)%R (latency_samples (ctr_data s')) /\
    (lo <= avg_latency (ctr_data s') <= hi)%R.
Proof.
  revert s. induction frames as [|[[data [t0 now]] stamp] frames IH];
    intros s Hle Hall Havg Hfr.
  - exists s. now repeat split.
  - apply Forall_cons in Hfr as [Hf Hfr]. unfold latency_of in Hf.
    cbn [fst snd] in Hf.
    destruct (message_handler_counters s data t0 now stamp)
      as (s1 & Hs1 & _ & Hcase).
    cbn [handle_all]. rewrite Hs1. cbn [mbind option_bind].
    destruct (accepted data).
    + destruct Hcase as (_ & _ & Hls & Hav).
      destruct (metrics_window (ctr_data s) t0 ((now - t0) * 1000)%R Hle)
        as (_ & Hb & _).
      destruct (metrics_average lo hi (ctr_data s) t0 ((now - t0) * 1000)%R
                  Hle Hall Hf) as (Hall1 & Havg1).
      rewrite <- Hls in Hb, Hall1. rewrite <- Hav in Havg1.
      apply IH; [lia|assumption..].
    + destruct Hcase as (_ & _ & Hls & Hav).
      apply IH; [now rewrite Hls|now rewrite Hls|now rewrite Hav|exact Hfr].
Qed.

Lemma average_latency_bounds_witness :
  exists s',
    handle_all (Monitor.init 0)
      [(Frames.main_frame, (0, 2)%R, ""); ([xaa], (2, 3)%R, "");
       (Frames.voltage_frame, (3, 4)%R, "")]%string
    = Some s' /\
    (0 <= avg_latency (ctr_data s') <= 2000)%R.
Proof.
  destruct (average_latency_bounds 0 2000
              [(Frames.main_frame, (0, 2)%R, ""); ([xaa], (2, 3)%R, "");
               (Frames.voltage_frame, (3, 4)%R, "")]%string
              (Monitor.init 0))
    as (s' & Hs' & _ & Havg).
  - simpl; lia.
  - constructor.
  - simpl; lra.
  - repeat constructor; unfold latency_of; simpl; lra.
  - exists s'. split; [exact Hs'|exact Havg].
Defined.

(** X8. [get_performance_stats] after a run of frames on a new session:
    the error rate is the number of rejected frames over the number of
    accepted frames (over 1 when none was accepted), so it is no fraction
    of the frames received: it exceeds 1 when two or more frames were
    rejected and fewer were accepted.  The packet rate is 0 as long as no recording
    has been started. *)
Theorem performance_stats_after_run
    (frames : list (list byte * (R * R) * string)) (t0 now : R) :
  exists s',
    handle_all (Monitor.init t0) frames = Some s' /\
    let n_accepted :=
      Z.of_nat (length (filter (fun f => accepted f.1.1 = true) frames)) in
    let n_rejected :=
      Z.of_nat (length (filter (fun f => accepted f.1.1 = false) frames)) in
    let stats := get_performance_stats (ctr_data s') now in
    ps_packet_count stats = n_accepted /\
    ps_packet_errors stats = n_rejected /\
    ps_error_rate stats = (IZR n_rejected / IZR (Z.max 1 n_accepted))%R /\
    (n_accepted = 0 -> ps_error_rate stats = IZR n_rejected) /\
    (1 < n_rejected /\ n_accepted < n_rejected ->
     (1 < ps_error_rate stats)%R) /\
    ps_packet_rate stats = PInt 0.
Proof.
  destruct (handle_all_run frames (Monitor.init t0)) as
    (s' & Hs' & Hc & He & _ & Hr & _); [simpl; lia|].
  exists s'. split; [exact Hs'|]. cbv zeta in *.
  cbn [Monitor.init ctr_data ControllerData.init packet_count packet_errors
         recording_start_time] in Hc, He, Hr.
  unfold get_performance_stats.
  cbn [ps_packet_count ps_packet_errors ps_error_rate ps_packet_rate].
  rewrite Hc, He, Hr. rewrite !Z.add_0_l.
  set (a := Z.of_nat (length (filter (fun f => accepted f.1.1 = true) frames))).
  set (r := Z.of_nat (length (filter (fun f => accepted f.1.1 = false) frames))).
  assert (Ha : 0 <= a) by (subst a; lia).
  assert (Hr0 : 0 <= r) by (subst r; lia).
  clearbody a r.
  split; [reflexivity|]. split; [reflexivity|]. split; [reflexivity|].
  split; [|split; [|reflexivity]].
  - intros ->. change (Z.max 1 0) with 1. lra.
  - intros [H1 Hlt].
    destruct (Z.eq_dec a 0) as [->|Hne].
    + change (Z.max 1 0) with 1. apply IZR_lt in H1. lra.
    + replace (Z.max 1 a) with a by lia.
      apply IZR_lt in Hlt. assert (Hpa : (0 < IZR a)%R) by (apply IZR_lt; lia).
      apply Rmult_lt_reg_r with (IZR a); [exact Hpa|].
      unfold Rdiv. rewrite Rmult_assoc, Rinv_l by lra. lra.
Qed.

End Runs.

(** ** The recorder *)

Section Recording.

Import ControllerData Monitor.

(** Every branch of the handler is a run of at most four updates. *)
Lemma process_packet_run (c : ControllerData.t) (data : list byte) (index : Z)
    (now : R) (stamp : string) (auto_save : bool) :
  (16 <= length data)%nat ->
  exists updates : list (string * pyval),
    (length updates <= 4)%nat /\
    process_packet c data index now stamp auto_save
    = Some (foldl (fun c kv => update_value c kv.1 kv.2 now stamp auto_save)
              c updates).
Proof.
  intros Hlen.
  destruct (idx_in_range data 2 ltac:(lia)) as (b2 & _ & I2).
  destruct (idx_in_range data 3 ltac:(lia)) as (b3 & _ & I3).
  destruct (idx_in_range data 4 ltac:(lia)) as (b4 & _ & I4).
  destruct (idx_in_range data 5 ltac:(lia)) as (b5 & _ & I5).
  destruct (idx_in_range data 8 ltac:(lia)) as (b8 & _ & I8).
  destruct (idx_in_range data 9 ltac:(lia)) as (b9 & _ & I9).
  destruct (idx_in_range data 10 ltac:(lia)) as (b10 & _ & I10).
  destruct (idx_in_range data 11 ltac:(lia)) as (b11 & _ & I11).
  unfold process_packet. rewrite I2, I3, I4, I5, I8, I9, I10, I11.
  cbn [mbind option_bind].
  destruct (index =? 0).
  { eexists [(_, _); (_, _); (_, _); (_, _)].
    split; [simpl; lia|reflexivity]. }
  destruct (index =? 1).
  { eexists [(_, _)]. split; [simpl; lia|reflexivity]. }
  destruct (index =? 4).
  { eexists [(_, _)]. split; [simpl; lia|reflexivity]. }
  destruct (index =? 13).
  { eexists [(_, _); (_, _)]. split; [simpl; lia|reflexivity]. }
  exists []. split; [simpl; lia|reflexivity].
Qed.

(** One call of the handler is either the error count of a rejected frame
    or the bookkeeping of an accepted frame followed by a run of at most
    four updates. *)
Lemma message_handler_step (s : state) (data : list byte)
    (packet_start_time now : R) (stamp : string) :
  exists s',
    message_handler s data packet_start_time now stamp = Some s' /\
    auto_save s' = auto_save s /\
    if accepted data then
      is_connected s' = true /\
      exists updates : list (string * pyval),
        (length updates <= 4)%nat /\
        ctr_data s'
        = foldl (fun c kv => update_value c kv.1 kv.2 now stamp (auto_save s))
            (update_performance_metrics (set_last_update now (ctr_data s))
               packet_start_time ((now - packet_start_time) * 1000)%R)
            updates
    else
      is_connected s' = is_connected s /\
      ctr_data s'
      = set_packet_errors (packet_errors (ctr_data s) + 1) (ctr_data s).
Proof.
  unfold accepted.
  destruct (Nat.lt_ge_cases (length data) 16) as [Hshort|Hlong].
  { eexists. split; [now apply message_handler_short|].
    rewrite bool_decide_eq_false_2 by lia. now cbn. }
  destruct (lookup_lt_is_Some_2 data 0 ltac:(lia)) as [b0 H0].
  destruct (decide (b0 = xaa)) as [->|Hne].
  2:{ eexists.
      split; [now apply (message_handler_bad_header _ _ _ _ _ b0)|].
      rewrite (bool_decide_eq_false_2 (data !! 0%nat = Some xaa))
        by congruence.
      rewrite andb_false_r. now cbn. }
  destruct (lookup_lt_is_Some_2 data 1 ltac:(lia)) as [b1 H1].
  destruct (message_handler_accepts s data packet_start_time now stamp b1
              Hlong H0 H1) as (p & _ & ->).
  destruct (process_packet_run
              (update_performance_metrics (set_last_update now (ctr_data s))
                 packet_start_time ((now - packet_start_time) * 1000)%R)
              data (byte_val b1) now stamp (auto_save s) Hlong)
    as (updates & Hfour & ->).
  cbn [mbind option_bind]. eexists. split; [reflexivity|].
  rewrite !bool_decide_eq_true_2 by assumption. cbn [andb auto_save ctr_data
    is_connected].
  split; [reflexivity|]. split; [reflexivity|].
  exists updates. split; [exact Hfour|reflexivity].
Qed.

(** What one update does to the recorder: nothing when the value is the
    tracked one or when no recording runs; otherwise one sample, taken after
    the attribute was written, and the same row in the file when there is
    one and auto-save is on. *)
Lemma update_value_recording (c : ControllerData.t) (key : string)
    (value : pyval) (now : R) (stamp : string) (auto_save : bool) :
  let c' := update_value c key value now stamp auto_save in
  exists new : list data_point,
    recorded_data c' = recorded_data c ++ new /\
    (length new <= 1)%nat /\
    (recording c = false -> new = []) /\
    Forall (fun dp => dp_timestamp dp = stamp /\
                      dp_packet_count dp = packet_count c /\
                      dp_latency dp = avg_latency c /\
                      getattr c' key = getattr (setattr c key value) key) new /\
    (auto_save = true ->
     forall rows, csv_file c = Some rows -> csv_file c' = Some (rows ++ new)) /\
    (auto_save = false -> csv_file c' = csv_file c).
Proof.
  intros c'. subst c'. unfold update_value.
  destruct (value_changed c key value).
  2:{ exists []. rewrite app_nil_r. repeat split; auto.
      intros _ rows ->. now rewrite app_nil_r. }
  destruct c. unfold setattr, getattr.
  repeat match goal with
         | |- context [String.eqb key ?s] => destruct (String.eqb key s)
         end;
    cbn; unfold record_data_point; cbn;
    (destruct recording0;
     [eexists [_]|exists []; rewrite ?app_nil_r]);
    destruct csv_file0, auto_save; cbn;
    (split; [reflexivity|]); (split; [lia|]);
    (split; [first [discriminate|reflexivity]|]);
    (split; [repeat constructor|]);
    (split; [first [discriminate
                   |intros _ rows [= <-]; rewrite ?app_nil_r; reflexivity
                   |intros _ rows [=]]
            |first [discriminate|reflexivity]]).
Qed.

Lemma updates_recording (now : R) (stamp : string) (auto_save : bool)
    (updates : list (string * pyval)) (c : ControllerData.t) :
  let c' := foldl (fun c kv => update_value c kv.1 kv.2 now stamp auto_save)
              c updates in
  exists new : list data_point,
    recorded_data c' = recorded_data c ++ new /\
    (length new <= length updates)%nat /\
    (recording c = false -> new = []) /\
    Forall (fun dp => dp_timestamp dp = stamp /\
                      dp_packet_count dp = packet_count c /\
                      dp_latency dp = avg_latency c) new /\
    (auto_save = true ->
     forall rows, csv_file c = Some rows -> csv_file c' = Some (rows ++ new)) /\
    (auto_save = false -> csv_file c' = csv_file c).
Proof.
  revert c. induction updates as [|kv updates IH]; intros c.
  { exists []. cbn. rewrite app_nil_r. repeat split; auto.
    intros _ rows ->. now rewrite app_nil_r. }
  cbn [foldl]. cbv zeta in IH |- *.
  destruct (update_value_recording c kv.1 kv.2 now stamp auto_save)
    as (new1 & Hr1 & Hl1 & Hoff1 & Hall1 & Hon1 & Hmem1).
  destruct (update_value_counters c kv.1 kv.2 now stamp auto_save)
    as (Hpc & _ & _ & Hav & Hrec & _).
  destruct (IH (update_value c kv.1 kv.2 now stamp auto_save))
    as (new2 & Hr2 & Hl2 & Hoff2 & Hall2 & Hon2 & Hmem2).
  exists (new1 ++ new2).
  split; [rewrite Hr2, Hr1; now rewrite app_assoc|].
  split; [rewrite length_app; cbn [length]; lia|].
  split.
  { intros Hoff. rewrite Hoff1 by exact Hoff.
    rewrite Hoff2 by (now rewrite Hrec). reflexivity. }
  split.
  { apply Forall_app. split.
    - eapply Forall_impl; [exact Hall1|]. intros dp (? & ? & ? & _). auto.
    - eapply Forall_impl; [exact Hall2|]. intros dp (? & ? & ?).
      rewrite <- Hpc, <- Hav. auto. }
  split.
  - intros Hon rows Hrows. rewrite app_assoc.
    apply (Hon2 Hon). now apply (Hon1 Hon).
  - intros Hmem. rewrite (Hmem2 Hmem). now apply Hmem1.
Qed.

(** The recorder over one call of the handler. *)
Lemma message_handler_recording (s : state) (data : list byte)
    (packet_start_time now : R) (stamp : string) :
  exists s' (new : list data_point),
    message_handler s data packet_start_time now stamp = Some s' /\
    auto_save s' = auto_save s /\
    recording (ctr_data s') = recording (ctr_data s) /\
    recording_start_time (ctr_data s') = recording_start_time (ctr_data s) /\
    recorded_data (ctr_data s') = recorded_data (ctr_data s) ++ new /\
    (length new <= 4)%nat /\
    (recording (ctr_data s) = false -> new = []) /\
    (accepted data = false -> new = []) /\
    Forall (fun dp => dp_timestamp dp = stamp /\
                      dp_packet_count dp = packet_count (ctr_data s) + 1 /\
                      dp_packet_count dp = packet_count (ctr_data s') /\
                      dp_latency dp = avg_latency (ctr_data s')) new /\
    (auto_save s = true ->
     forall rows, csv_file (ctr_data s) = Some rows ->
       csv_file (ctr_data s') = Some (rows ++ new)) /\
    (auto_save s = false -> csv_file (ctr_data s') = csv_file (ctr_data s)).
Proof.
  destruct (message_handler_step s data packet_start_time now stamp)
    as (s' & Hs' & Has & Hcase).
  exists s'. destruct (accepted data).
  - destruct Hcase as (_ & updates & Hfour & Hc).
    set (c0 := update_performance_metrics (set_last_update now (ctr_data s))
                 packet_start_time ((now - packet_start_time) * 1000)%R) in *.
    destruct (updates_recording now stamp (auto_save s) updates c0)
      as (new & Hr & Hl & Hoff & Hall & Hon & Hmem).
    destruct (updates_counters now stamp (auto_save s) updates c0)
      as (Hpc & _ & _ & Hav & Hrec & Hst).
    rewrite <- Hc in Hr, Hon, Hmem, Hpc, Hav, Hrec, Hst.
    assert (Hb : recording c0 = recording (ctr_data s) /\
                 recorded_data c0 = recorded_data (ctr_data s) /\
                 packet_count c0 = packet_count (ctr_data s) + 1 /\
                 csv_file c0 = csv_file (ctr_data s) /\
                 recording_start_time c0
                 = recording_start_time (ctr_data s))
      by (subst c0; destruct (ctr_data s); cbn; repeat split).
    destruct Hb as (Hb1 & Hb2 & Hb3 & Hb4 & Hb5).
    exists new. split; [exact Hs'|]. split; [exact Has|].
    split; [congruence|]. split; [congruence|]. split; [congruence|].
    split; [lia|]. split; [intros Hoff'; apply Hoff; congruence|].
    split; [discriminate|].
    split.
    { eapply Forall_impl; [exact Hall|]. intros dp (? & ? & ?).
      repeat split; congruence. }
    split.
    + intros Hon' rows Hrows. apply (Hon Hon'). congruence.
    + intros Hmem'. rewrite (Hmem Hmem'). exact Hb4.
  - destruct Hcase as (_ & Hc). exists [].
    split; [exact Hs'|]. split; [exact Has|]. rewrite Hc.
    destruct (ctr_data s). cbn. rewrite app_nil_r.
    repeat split; auto; try lia.
    intros _ rows ->. now rewrite app_nil_r.
Qed.

(** The recorder over a run of frames. *)
Lemma handle_all_recording (frames : list (list byte * (R * R) * string))
    (s : state) :
  exists s' (new : list data_point),
    handle_all s frames = Some s' /\
    auto_save s' = auto_save s /\
    recording (ctr_data s') = recording (ctr_data s) /\
    recording_start_time (ctr_data s') = recording_start_time (ctr_data s) /\
    recorded_data (ctr_data s') = recorded_data (ctr_data s) ++ new /\
    (length new
     <= 4 * length (filter (fun f => accepted f.1.1 = true) frames))%nat /\
    (recording (ctr_data s) = false -> new = []) /\
    (auto_save s = true ->
     forall rows, csv_file (ctr_data s) = Some rows ->
       csv_file (ctr_data s') = Some (rows ++ new)) /\
    (auto_save s = false -> csv_file (ctr_data s') = csv_file (ctr_data s)).
Proof.
  revert s. induction frames as [|[[data [t0 now]] stamp] frames IH];
    intros s.
  { exists s, []. cbn. rewrite app_nil_r. repeat split; auto.
    intros _ rows ->. now rewrite app_nil_r. }
  destruct (message_handler_recording s data t0 now stamp)
    as (s1 & new1 & Hs1 & Has1 & Hrec1 & Hst1 & Hr1 & Hl1 & Hoff1 & Hrej1
        & _ & Hon1 & Hmem1).
  destruct (IH s1)
    as (s' & new2 & Hs' & Has2 & Hrec2 & Hst2 & Hr2 & Hl2 & Hoff2
        & Hon2 & Hmem2).
  exists s', (new1 ++ new2).
  cbn [handle_all]. rewrite Hs1. cbn [mbind option_bind].
  split; [exact Hs'|]. split; [congruence|]. split; [congruence|].
  split; [congruence|].
  split; [rewrite Hr2, Hr1; now rewrite app_assoc|].
  split.
  { rewrite length_app. destruct (accepted data) eqn:Hacc.
    - rewrite filter_cons_True by exact Hacc. cbn [length]. lia.
    - rewrite filter_cons_False by (cbn; rewrite Hacc; discriminate).
      rewrite (Hrej1 eq_refl). cbn [length]. lia. }
  split.
  { intros Hoff. rewrite (Hoff1 Hoff). rewrite Hoff2 by congruence.
    reflexivity. }
  split.
  - intros Hon rows Hrows. rewrite app_assoc.
    apply Hon2; [congruence|]. now apply (Hon1 Hon).
  - intros Hmem. rewrite Hmem2 by congruence. now apply Hmem1.
Qed.

(** X9. A recording session with auto-save on: when no recording runs and
    the file can be opened, [start_recording] succeeds; over any run of
    frames that follows, the rows written to the file are exactly the
    samples of [recorded_data], at most four per accepted frame, and the
    start time stays the one of the start; [stop_recording] then closes the
    file and keeps the samples. *)
Theorem recording_session_mirrors_file (s : state) (start : R)
    (frames : list (list byte * (R * R) * string)) :
  recording (ctr_data s) = false ->
  auto_save s = true ->
  exists c1 s',
    start_recording (ctr_data s) start (auto_save s) Opened = Some (true, c1) /\
    handle_all (set_ctr_data c1 s) frames = Some s' /\
    recording (ctr_data s') = true /\
    recording_start_time (ctr_data s') = Some start /\
    csv_file (ctr_data s') = Some (recorded_data (ctr_data s')) /\
    (length (recorded_data (ctr_data s'))
     <= 4 * length (filter (fun f => accepted f.1.1 = true) frames))%nat /\
    let c2 := stop_recording (ctr_data s') in
    recording c2 = false /\
    csv_file c2 = None /\
    recorded_data c2 = recorded_data (ctr_data s').
Proof.
  intros Hoff Hon.
  eexists. unfold start_recording. rewrite Hoff, Hon. cbn [negb].
  set (c1 := set_recorded_data [] _).
  destruct (handle_all_recording frames (set_ctr_data c1 s))
    as (s' & new & Hs' & _ & Hrec & Hst & Hr & Hl & _ & Hfile & _).
  assert (Hc1 : recording c1 = true /\ recorded_data c1 = [] /\
                csv_file c1 = Some [] /\
                recording_start_time c1 = Some start)
    by (subst c1; destruct (ctr_data s); cbn; repeat split).
  destruct Hc1 as (H1 & H2 & H3 & H4).
  cbn [set_ctr_data ctr_data auto_save] in Hrec, Hst, Hr, Hfile.
  rewrite H2 in Hr. cbn [app] in Hr.
  specialize (Hfile Hon [] H3). cbn [app] in Hfile.
  exists s'. split; [reflexivity|]. split; [exact Hs'|].
  split; [congruence|]. split; [congruence|]. split; [congruence|].
  split; [rewrite Hr; exact Hl|].
  unfold stop_recording. rewrite Hrec, H1. cbn [negb].
  destruct (ctr_data s') eqn:E. cbn in Hfile |- *. rewrite Hfile. cbn.
  now repeat split.
Qed.

Lemma recording_session_mirrors_file_witness :
  exists c1 s',
    start_recording (ctr_data (Monitor.init 0)) 7 true Opened
    = Some (true, c1) /\
    handle_all (set_ctr_data c1 (Monitor.init 0))
      [(Frames.main_frame, (8, 9)%R, "t1"); (Frames.voltage_frame, (9, 10)%R, "t2")]%string
    = Some s' /\
    csv_file (ctr_data s') = Some (recorded_data (ctr_data s')) /\
    (length (recorded_data (ctr_data s')) <= 8)%nat.
Proof.
  destruct (recording_session_mirrors_file (Monitor.init 0) 7
              [(Frames.main_frame, (8, 9)%R, "t1");
               (Frames.voltage_frame, (9, 10)%R, "t2")]%string
              eq_refl eq_refl)
    as (c1 & s' & H1 & H2 & _ & _ & H3 & H4 & _).
  exists c1, s'. split; [exact H1|]. split; [exact H2|].
  split; [exact H3|exact H4].
Defined.

(** X10. A recording session with auto-save off: [start_recording]
    succeeds without touching the file system, whatever the file system
    would do; the samples are kept in [recorded_data] only, and over any
    run of frames no row is written and no file is opened. *)
Theorem memory_only_recording (s : state) (start : R) (fs : file_event)
    (frames : list (list byte * (R * R) * string)) :
  recording (ctr_data s) = false ->
  auto_save s = false ->
  exists c1 s',
    start_recording (ctr_data s) start (auto_save s) fs = Some (true, c1) /\
    recorded_data c1 = [] /\
    handle_all (set_ctr_data c1 s) frames = Some s' /\
    recording (ctr_data s') = true /\
    csv_file (ctr_data s') = csv_file (ctr_data s) /\
    csv_file (stop_recording (ctr_data s')) = None /\
    recorded_data (stop_recording (ctr_data s')) = recorded_data (ctr_data s').
Proof.
  intros Hoff Hmem.
  eexists. unfold start_recording. rewrite Hoff, Hmem. cbn [negb].
  set (c1 := set_recorded_data [] _).
  destruct (handle_all_recording frames (set_ctr_data c1 s))
    as (s' & new & Hs' & _ & Hrec & _ & _ & _ & _ & _ & Hkeep).
  assert (Hc1 : recording c1 = true /\ recorded_data c1 = [] /\
                csv_file c1 = csv_file (ctr_data s))
    by (subst c1; destruct (ctr_data s); cbn; repeat split).
  destruct Hc1 as (H1 & H2 & H3).
  cbn [set_ctr_data ctr_data auto_save] in Hrec, Hkeep.
  specialize (Hkeep Hmem).
  exists s'. split; [reflexivity|]. split; [exact H2|]. split; [exact Hs'|].
  split; [congruence|]. split; [congruence|].
  unfold stop_recording. rewrite Hrec, H1. cbn [negb].
  destruct (ctr_data s'). cbn. destruct csv_file0; cbn; now split.
Qed.

Lemma memory_only_recording_witness :
  exists c1 s',
    start_recording (ControllerData.init 0) 7 false OpenFails
    = Some (true, c1) /\
    handle_all
      (set_ctr_data c1
         (MkState (ControllerData.init 0) PacketInspector.init false false))
      [(Frames.main_frame, (8, 9)%R, "t1")]%string
    = Some s' /\
    csv_file (ctr_data s') = None.
Proof.
  destruct (memory_only_recording
              (MkState (ControllerData.init 0) PacketInspector.init false false)
              7 OpenFails [(Frames.main_frame, (8, 9)%R, "t1")]%string
              eq_refl eq_refl)
    as (c1 & s' & H1 & _ & H2 & _ & H3 & _).
  exists c1, s'. split; [exact H1|]. split; [exact H2|exact H3].
Defined.

(** The sample of an update that writes during a recording: the attributes
    as they are right after the write. *)
Lemma update_value_sample (c : ControllerData.t) (key : string)
    (value : pyval) (now : R) (stamp : string) (auto_save : bool) :
  value_changed c key value = true ->
  recording c = true ->
  let c1 := setattr c key value in
  recorded_data (update_value c key value now stamp auto_save)
  = recorded_data c
    ++ [{| dp_timestamp := stamp;
           dp_throttle := throttle c1;
           dp_gear := gear c1;
           dp_rpm := rpm c1;
           dp_controller_temp := controller_temp c1;
           dp_motor_temp := motor_temp c1;
           dp_speed := speed c1;
           dp_power := power c1;
           dp_voltage := voltage c1;
           dp_packet_count := packet_count c;
           dp_latency := avg_latency c |}].
Proof.
  intros Hch Hrec. unfold update_value. rewrite Hch.
  destruct c. cbn in Hrec. subst. unfold setattr.
  repeat match goal with
         | |- context [String.eqb key ?s] => destruct (String.eqb key s)
         end;
    cbn; unfold record_data_point; cbn; destruct csv_file0, auto_save;
    reflexivity.
Qed.

(** During a recording an update raises the change flag exactly when it
    takes a sample. *)
Lemma update_value_flag_samples (c : ControllerData.t) (key : string)
    (value : pyval) (now : R) (stamp : string) (auto_save : bool) :
  recording c = true ->
  let c' := update_value c key value now stamp auto_save in
  recording c' = true /\
  (length (recorded_data c) <= length (recorded_data c'))%nat /\
  _has_changes c'
  = _has_changes c
    || (length (recorded_data c) <? length (recorded_data c'))%nat.
Proof.
  intros Hrec c'. subst c'.
  rewrite update_value_flag.
  destruct (update_value_counters c key value now stamp auto_save)
    as (_ & _ & _ & _ & Hrec' & _).
  split; [congruence|].
  destruct (value_changed c key value) eqn:Hch.
  - rewrite (update_value_sample c key value now stamp auto_save Hch Hrec).
    rewrite length_app. cbn [length]. split; [lia|].
    rewrite (proj2 (Nat.ltb_lt _ _)) by lia. reflexivity.
  - rewrite update_value_same by exact Hch. split; [lia|].
    now rewrite Nat.ltb_irrefl.
Qed.

Lemma updates_flag_samples (now : R) (stamp : string) (auto_save : bool)
    (updates : list (string * pyval)) (c : ControllerData.t) :
  recording c = true ->
  let c' := foldl (fun c kv => update_value c kv.1 kv.2 now stamp auto_save)
              c updates in
  (length (recorded_data c) <= length (recorded_data c'))%nat /\
  _has_changes c'
  = _has_changes c
    || (length (recorded_data c) <? length (recorded_data c'))%nat.
Proof.
  revert c. induction updates as [|kv updates IH]; intros c Hrec.
  { cbn [foldl]. split; [lia|]. now rewrite Nat.ltb_irrefl, orb_false_r. }
  cbn [foldl]. cbv zeta in IH |- *.
  destruct (update_value_flag_samples c kv.1 kv.2 now stamp auto_save Hrec)
    as (Hrec1 & Hle1 & Hf1).
  destruct (IH _ Hrec1) as (Hle2 & Hf2).
  split; [lia|]. rewrite Hf2, Hf1, <- orb_assoc. f_equal.
  set (n0 := length (recorded_data c)) in *.
  set (n1 := length (recorded_data
                       (update_value c kv.1 kv.2 now stamp auto_save))) in *.
  match goal with |- context [(n1 <? ?n)%nat] => set (n2 := n) in * end.
  destruct (Nat.ltb_spec n0 n1), (Nat.ltb_spec n1 n2), (Nat.ltb_spec n0 n2);
    try reflexivity; lia.
Qed.

(** X11. The samples of one frame.  A call of the handler appends at most
    four samples to [recorded_data], none when no recording runs or when
    the frame is rejected.  During a recording it appends a sample exactly
    when it raises the change flag.  All samples of a frame carry the
    packet count after the frame and the mean latency after the frame. *)
Theorem samples_of_frame (s : state) (data : list byte)
    (packet_start_time now : R) (stamp : string) :
  exists s' (new : list data_point),
    message_handler s data packet_start_time now stamp = Some s' /\
    recorded_data (ctr_data s') = recorded_data (ctr_data s) ++ new /\
    (length new <= 4)%nat /\
    (recording (ctr_data s) = false \/ accepted data = false -> new = []) /\
    (recording (ctr_data s) = true ->
     _has_changes (ctr_data s')
     = _has_changes (ctr_data s) || (0 <? length new)%nat) /\
    Forall (fun dp => dp_packet_count dp = packet_count (ctr_data s') /\
                      dp_latency dp = avg_latency (ctr_data s')) new.
Proof.
  destruct (message_handler_recording s data packet_start_time now stamp)
    as (s' & new & Hs' & _ & _ & _ & Hr & Hl & Hoff & Hrej & Hall & _).
  exists s', new. split; [exact Hs'|]. split; [exact Hr|].
  split; [exact Hl|]. split; [intros [H|H]; auto|].
  split; [|eapply Forall_impl; [exact Hall|]; intros dp (_ & _ & ? & ?); auto].
  intros Hrec.
  destruct (message_handler_step s data packet_start_time now stamp)
    as (s1 & Hs1 & _ & Hcase).
  assert (s1 = s') as -> by congruence.
  destruct (accepted data) eqn:Hacc.
  - destruct Hcase as (_ & updates & _ & Hc).
    destruct (bookkeeping_frame (ctr_data s) now packet_start_time
                ((now - packet_start_time) * 1000)%R)
      as (_ & _ & _ & Bflag & Brec & Bdata & _).
    set (c0 := update_performance_metrics (set_last_update now (ctr_data s))
                 packet_start_time ((now - packet_start_time) * 1000)%R) in *.
    destruct (updates_flag_samples now stamp (auto_save s) updates c0
                ltac:(congruence)) as (_ & Hflag).
    cbv zeta in Hflag. rewrite <- Hc in Hflag.
    rewrite Hflag, Bflag, Bdata, Hr, length_app. f_equal.
    match goal with
    | |- (?a <? ?b)%nat = (?c <? ?d)%nat =>
        destruct (Nat.ltb_spec a b), (Nat.ltb_spec c d);
          try reflexivity; lia
    end.
  - rewrite (Hrej eq_refl). destruct Hcase as (_ & ->).
    destruct (ctr_data s). cbn. now rewrite orb_false_r.
Qed.

(** X12. Samples are taken per attribute, not per frame.  When a main-data
    frame arrives during a recording and its rpm differs from the tracked
    one, the first sample of the frame holds the new rpm together with the
    gear, power and speed from before the frame: the other three values of
    the same frame are written only afterwards. *)
Theorem first_row_of_main_frame (s : state) (data : list byte)
    (packet_start_time now : R) (stamp : string) (b4 b5 : byte) :
  recording (ctr_data s) = true ->
  (16 <= length data)%nat ->
  data !! 0%nat = Some xaa ->
  data !! 1%nat = Some x00 ->
  data !! 4%nat = Some b4 ->
  data !! 5%nat = Some b5 ->
  value_changed (ctr_data s) "rpm" (PInt (byte_val b4 * 256 + byte_val b5))
  = true ->
  exists s' dp rest,
    message_handler s data packet_start_time now stamp = Some s' /\
    recorded_data (ctr_data s') = recorded_data (ctr_data s) ++ dp :: rest /\
    (length rest <= 3)%nat /\
    dp_rpm dp = PInt (byte_val b4 * 256 + byte_val b5) /\
    dp_gear dp = gear (ctr_data s) /\
    dp_power dp = power (ctr_data s) /\
    dp_speed dp = speed (ctr_data s).
Proof.
  intros Hrec Hlen H0 H1 H4 H5 Hch.
  destruct (lookup_lt_is_Some_2 data 2 ltac:(lia)) as [b2 H2].
  destruct (lookup_lt_is_Some_2 data 8 ltac:(lia)) as [b8 H8].
  destruct (lookup_lt_is_Some_2 data 9 ltac:(lia)) as [b9 H9].
  destruct (lookup_lt_is_Some_2 data 10 ltac:(lia)) as [b10 H10].
  destruct (lookup_lt_is_Some_2 data 11 ltac:(lia)) as [b11 H11].
  destruct (message_handler_main s data packet_start_time now stamp
              b2 b4 b5 b8 b9 b10 b11 Hlen H0 H1 H2 H4 H5 H8 H9 H10 H11)
    as (s' & Hs' & _ & Hc).
  cbv zeta in Hc. cbn [foldl fst snd] in Hc.
  destruct (bookkeeping_frame (ctr_data s) now packet_start_time
              ((now - packet_start_time) * 1000)%R)
    as (Hget & _ & Hlv & _ & Hrec0 & Hdata0 & _).
  set (c0 := update_performance_metrics (set_last_update now (ctr_data s))
               packet_start_time ((now - packet_start_time) * 1000)%R) in *.
  assert (Hch0 : value_changed c0 "rpm"
                   (PInt (byte_val b4 * 256 + byte_val b5)) = true)
    by (unfold value_changed in Hch |- *; now rewrite Hlv).
  pose proof (update_value_sample c0 "rpm" _ now stamp (auto_save s) Hch0
                ltac:(congruence)) as Hfirst.
  cbv zeta in Hfirst.
  set (c1 := update_value c0 "rpm" _ now stamp (auto_save s)) in *.
  match type of Hc with
  | _ = update_value (update_value (update_value c1 ?k1 ?v1 _ _ _) ?k2 ?v2 _ _ _)
          ?k3 ?v3 _ _ _ =>
      destruct (updates_recording now stamp (auto_save s)
                  [(k1, v1); (k2, v2); (k3, v3)] c1)
        as (rest & Hrest & Hl & _)
  end.
  cbn [foldl fst snd length] in Hrest, Hl. rewrite <- Hc in Hrest.
  eexists s', _, rest. split; [exact Hs'|].
  split; [rewrite Hrest, Hfirst, Hdata0, <- app_assoc; reflexivity|].
  split; [exact Hl|].
  cbn [dp_rpm dp_gear dp_power dp_speed].
  pose proof (Hget "gear"%string) as Hg.
  pose proof (Hget "power"%string) as Hp.
  pose proof (Hget "speed"%string) as Hsp.
  cbn in Hg, Hp, Hsp. injection Hg as Hg. injection Hp as Hp.
  injection Hsp as Hsp.
  rewrite <- Hg, <- Hp, <- Hsp. destruct c0. cbn. repeat split.
Qed.

Lemma first_row_of_main_frame_witness :
  exists s' dp rest,
    message_handler
      (set_ctr_data (set_recording true (ControllerData.init 0))
         (Monitor.init 0))
      Frames.main_frame 1 2 "t"
    = Some s' /\
    recorded_data (ctr_data s') = dp :: rest /\
    dp_rpm dp = PInt 5000 /\
    dp_speed dp = PInt 0.
Proof.
  destruct (first_row_of_main_frame
              (set_ctr_data (set_recording true (ControllerData.init 0))
                 (Monitor.init 0))
              Frames.main_frame 1 2 "t" x13 x88
              eq_refl ltac:(simpl; lia) eq_refl eq_refl eq_refl eq_refl
              eq_refl)
    as (s' & dp & rest & H1 & H2 & _ & H3 & _ & _ & H4).
  exists s', dp, rest. split; [exact H1|]. split; [exact H2|].
  split; [exact H3|exact H4].
Defined.

End Recording.

(** ** The battery bar *)

Section Battery.

Import ControllerData Monitor.

(** [int(x)] of a float that is not negative is the integer part: the
    largest integer that does not exceed it. *)
Lemma int_of_float_floor (r : R) (n : Z) :
  (IZR n <= r < IZR n + 1)%R -> (0 <= r)%R -> int_of_float r = n.
Proof.
  intros [Hlo Hhi] Hpos. unfold int_of_float.
  rewrite bool_decide_eq_true_2 by exact Hpos.
  destruct (base_Int_part r) as [Hi1 Hi2].
  assert (H1 : (IZR (Int_part r) < IZR (n + 1))%R) by (rewrite plus_IZR; lra).
  assert (H2 : (IZR n < IZR (Int_part r + 1))%R) by (rewrite plus_IZR; lra).
  apply lt_IZR in H1, H2. lia.
Qed.

Lemma int_of_float_bounds (r : R) (n : Z) :
  (0 <= r <= IZR n)%R -> 0 <= int_of_float r <= n.
Proof.
  intros [Hlo Hhi]. unfold int_of_float.
  rewrite bool_decide_eq_true_2 by exact Hlo.
  destruct (base_Int_part r) as [Hi1 Hi2].
  assert (H1 : (IZR (Int_part r) < IZR (n + 1))%R) by (rewrite plus_IZR; lra).
  assert (H2 : (IZR (-1) < IZR (Int_part r))%R) by lra.
  apply lt_IZR in H1, H2. lia.
Qed.

Lemma int_of_float_positive (r : R) :
  (0 <= r)%R -> (0 < int_of_float r <-> (1 <= r)%R).
Proof.
  intros Hpos. unfold int_of_float.
  rewrite bool_decide_eq_true_2 by exact Hpos.
  destruct (base_Int_part r) as [Hi1 Hi2]. split.
  - intros H. assert (H1 : 1 <= Int_part r) by lia. apply IZR_le in H1. lra.
  - intros H. assert (H1 : (IZR 0 < IZR (Int_part r))%R) by lra.
    now apply lt_IZR in H1.
Qed.

Lemma int_of_float_monotone (r1 r2 : R) :
  (0 <= r1 <= r2)%R -> int_of_float r1 <= int_of_float r2.
Proof.
  intros [Hlo Hle]. unfold int_of_float.
  rewrite !bool_decide_eq_true_2 by lra.
  destruct (base_Int_part r1) as [Ha1 Ha2].
  destruct (base_Int_part r2) as [Hb1 Hb2].
  assert (H : (IZR (Int_part r1) < IZR (Int_part r2 + 1))%R)
    by (rewrite plus_IZR; lra).
  apply lt_IZR in H. lia.
Qed.

(** The clamp [max(84.0, min(96.0, v))]. *)
Lemma clamp_voltage (v : R) :
  let u := float_max 84 (float_min 96 v) in
  (84 <= u <= 96)%R /\
  (v <= 84 -> u = 84)%R /\
  (96 <= v -> u = 96)%R /\
  (84 <= v <= 96 -> u = v)%R /\
  forall v', (v <= v')%R ->
    (u <= float_max 84 (float_min 96 v'))%R.
Proof.
  unfold float_max, float_min.
  repeat split; intros; repeat case_bool_decide; lra.
Qed.

(** The rounding of the platform.  For IEEE 754 binary64 to nearest:
    rounding keeps the order, integers up to 2^53 and one half are floats,
    and between 1/1000 and 1000 the relative error is at most 2^-53, which
    is below one part in 10^15. *)
Variable rnd : R -> R.

Hypothesis rnd_monotone : forall x y : R, (x <= y)%R -> (rnd x <= rnd y)%R.
Hypothesis rnd_integer :
  forall n : Z, Z.abs n <= 2 ^ 53 -> rnd (IZR n) = IZR n.
Hypothesis rnd_half : rnd 0.5 = 0.5%R.
Hypothesis rnd_accurate :
  forall x : R, (0.001 <= x <= 1000)%R ->
    (Rabs (rnd x - x) <= x / 1000000000000000)%R.

Lemma rnd_above (c x : R) :
  (0.001 <= c <= 1000)%R -> (c <= x)%R ->
  (c - c / 1000000000000000 <= rnd x)%R.
Proof.
  intros Hc Hx. pose proof (rnd_monotone c x Hx) as Hm.
  pose proof (rnd_accurate c Hc) as Ha.
  unfold Rabs in Ha. destruct (Rcase_abs (rnd c - c)); lra.
Qed.

Lemma rnd_below (c x : R) :
  (0.001 <= c <= 1000)%R -> (x <= c)%R ->
  (rnd x <= c + c / 1000000000000000)%R.
Proof.
  intros Hc Hx. pose proof (rnd_monotone x c Hx) as Hm.
  pose proof (rnd_accurate c Hc) as Ha.
  unfold Rabs in Ha. destruct (Rcase_abs (rnd c - c)); lra.
Qed.

(** The bar in terms of the clamped voltage. *)
Lemma update_battery_bar_eq (s : state) :
  let u := float_max 84 (float_min 96 (to_float (voltage (ctr_data s)))) in
  let lv := rnd (rnd (u - 84) / 12) in
  update_battery_bar rnd s
  = {| level := lv;
       fill_width := int_of_float (rnd (180 * lv));
       color :=
         if bool_decide (0.5 < lv)%R then COLORS_success
         else if bool_decide (rnd 0.2 < lv)%R then COLORS_warning
         else COLORS_error;
       filled := 0 <? int_of_float (rnd (180 * lv)) |}.
Proof.
  unfold update_battery_bar.
  replace 84.0%R with (IZR 84) by lra. replace 96.0%R with (IZR 96) by lra.
  rewrite (rnd_integer 84), (rnd_integer 96) by (cbn; lia).
  replace (IZR 96 - IZR 84)%R with (IZR 12) by lra.
  rewrite (rnd_integer 12), (rnd_integer 180) by (cbn; lia).
  rewrite rnd_half. reflexivity.
Qed.

(** Rounding keeps a number between two integers between them. *)
Lemma rnd_between (a b : Z) (x : R) :
  Z.abs a <= 2 ^ 53 -> Z.abs b <= 2 ^ 53 ->
  (IZR a <= x <= IZR b)%R -> (IZR a <= rnd x <= IZR b)%R.
Proof.
  intros Ha Hb [Hlo Hhi]. split.
  - rewrite <- (rnd_integer a Ha). now apply rnd_monotone.
  - rewrite <- (rnd_integer b Hb). now apply rnd_monotone.
Qed.

(** The level and the rounded width, between their ends and monotone. *)
Lemma level_bounds (u : R) :
  (84 <= u <= 96)%R ->
  let lv := rnd (rnd (u - 84) / 12) in
  (0 <= lv <= 1)%R /\ (0 <= rnd (180 * lv) <= 180)%R.
Proof.
  intros Hu lv.
  assert (Hd : (0 <= rnd (u - 84) <= 12)%R)
    by (apply (rnd_between 0 12); [cbn; lia..|lra]).
  assert (Hl : (0 <= lv <= 1)%R)
    by (apply (rnd_between 0 1); [cbn; lia..|lra]).
  split; [exact Hl|]. apply (rnd_between 0 180); [cbn; lia..|lra].
Qed.

Lemma level_monotone (u u' : R) :
  (84 <= u <= u')%R ->
  (rnd (rnd (u - 84) / 12) <= rnd (rnd (u' - 84) / 12))%R /\
  (rnd (180 * rnd (rnd (u - 84) / 12))
   <= rnd (180 * rnd (rnd (u' - 84) / 12)))%R.
Proof.
  intros Hu.
  assert (H1 : (rnd (u - 84) <= rnd (u' - 84))%R)
    by (apply rnd_monotone; lra).
  assert (H2 : (rnd (rnd (u - 84) / 12) <= rnd (rnd (u' - 84) / 12))%R)
    by (apply rnd_monotone; lra).
  split; [exact H2|]. apply rnd_monotone. lra.
Qed.

(** The level of a clamped voltage on either side of a mark. *)
Lemma level_above (c u : R) :
  (0.05 <= c <= 12)%R -> (84 + c <= u)%R ->
  (c / 12 - c / 1000000000000000 <= rnd (rnd (u - 84) / 12))%R.
Proof.
  intros Hc Hu.
  pose proof (rnd_above c (u - 84) ltac:(lra) ltac:(lra)) as H1.
  pose proof (rnd_above ((c - c / 1000000000000000) / 12)
                (rnd (u - 84) / 12) ltac:(lra) ltac:(lra)) as H2.
  lra.
Qed.

Lemma level_below (c u : R) :
  (0.05 <= c <= 12)%R -> (u <= 84 + c)%R ->
  (rnd (rnd (u - 84) / 12) <= c / 12 + c / 1000000000000000)%R.
Proof.
  intros Hc Hu.
  pose proof (rnd_below c (u - 84) ltac:(lra) ltac:(lra)) as H1.
  pose proof (rnd_below ((c + c / 1000000000000000) / 12)
                (rnd (u - 84) / 12) ltac:(lra) ltac:(lra)) as H2.
  lra.
Qed.

(** X13. The battery bar, with the rounding of the float operations.  The
    level is between 0 and 1 and the filled width between 0 and 180
    pixels, and neither shrinks when the voltage grows.  Up to 84 V the
    bar is empty and in the error colour; from 84.07 V on the rectangle is
    drawn; from 96 V on the bar is full.  The colour is the error colour up
    to 86.35 V, the warning colour from 86.45 V to 90 V, and the success
    colour from 90.05 V on and never at 90 V or below.  Nothing is stated
    for the voltages strictly between these marks, where the outcome
    depends on the rounding: the controller sends tenths of a volt, of
    which only 86.4 V lies there. *)
Theorem battery_bar_contract (s : state) :
  let v := to_float (voltage (ctr_data s)) in
  let bar := update_battery_bar rnd s in
  (0 <= level bar <= 1)%R /\
  0 <= fill_width bar <= 180 /\
  ((v <= 84)%R ->
   level bar = 0%R /\ fill_width bar = 0 /\ filled bar = false /\
   color bar = COLORS_error) /\
  ((84.07 <= v)%R -> filled bar = true) /\
  ((96 <= v)%R ->
   level bar = 1%R /\ fill_width bar = 180 /\ color bar = COLORS_success) /\
  ((v <= 86.35)%R -> color bar = COLORS_error) /\
  ((86.45 <= v <= 90)%R -> color bar = COLORS_warning) /\
  ((v <= 90)%R -> color bar <> COLORS_success) /\
  ((90.05 <= v)%R -> color bar = COLORS_success) /\
  forall s' : state,
    (v <= to_float (voltage (ctr_data s')))%R ->
    (level bar <= level (update_battery_bar rnd s'))%R /\
    fill_width bar <= fill_width (update_battery_bar rnd s').
Proof.
  intros v bar. subst bar. rewrite update_battery_bar_eq. fold v.
  cbn [level fill_width color filled].
  destruct (clamp_voltage v) as (Hu & Hlow & Hhigh & Hmid & Hmono).
  set (u := float_max 84 (float_min 96 v)) in *.
  destruct (level_bounds u Hu) as (Hl & Hw). cbv zeta in Hl, Hw.
  set (lv := rnd (rnd (u - 84) / 12)) in *.
  pose proof (rnd_integer 0 ltac:(cbn; lia)) as R0.
  pose proof (rnd_integer 1 ltac:(cbn; lia)) as R1.
  pose proof (rnd_integer 6 ltac:(cbn; lia)) as R6.
  pose proof (rnd_integer 12 ltac:(cbn; lia)) as R12.
  pose proof (rnd_integer 180 ltac:(cbn; lia)) as R180.
  assert (Hfifth : (0.2 - 0.2 / 1000000000000000 <= rnd 0.2
                    <= 0.2 + 0.2 / 1000000000000000)%R).
  { split; [apply rnd_above|apply rnd_below]; lra. }
  split; [exact Hl|]. split; [apply int_of_float_bounds; exact Hw|].
  split; [|split; [|split; [|split; [|split; [|split; [|split]]]]]].
  - intros Hv. assert (Hlv : lv = 0%R).
    { subst lv. rewrite (Hlow Hv).
      replace (84 - 84)%R with (IZR 0) by lra. rewrite R0.
      replace (IZR 0 / 12)%R with (IZR 0) by lra. exact R0. }
    rewrite Hlv. replace (180 * 0)%R with (IZR 0) by lra. rewrite R0.
    rewrite (int_of_float_floor (IZR 0) 0) by lra.
    rewrite !bool_decide_eq_false_2 by lra. now repeat split.
  - intros Hv. apply Z.ltb_lt. apply int_of_float_positive; [lra|].
    pose proof (level_above 0.07 u ltac:(lra)) as Hlev.
    assert (Hu1 : (84 + 0.07 <= u)%R).
    { destruct (Rle_dec 96 v) as [H96|H96]; [rewrite (Hhigh H96); lra|].
      rewrite Hmid by lra. lra. }
    specialize (Hlev Hu1). fold lv in Hlev.
    pose proof (rnd_above 1.04 (180 * lv) ltac:(lra) ltac:(lra)) as Hp.
    lra.
  - intros Hv. assert (Hlv : lv = 1%R).
    { subst lv. rewrite (Hhigh Hv).
      replace (96 - 84)%R with (IZR 12) by lra. rewrite R12.
      replace (IZR 12 / 12)%R with (IZR 1) by lra. exact R1. }
    rewrite Hlv. replace (180 * 1)%R with (IZR 180) by lra. rewrite R180.
    rewrite (int_of_float_floor (IZR 180) 180) by lra.
    rewrite bool_decide_eq_true_2 by lra. now repeat split.
  - intros Hv.
    assert (Hu1 : (u <= 84 + 2.35)%R).
    { destruct (Rle_dec v 84) as [H84|H84]; [rewrite (Hlow H84); lra|].
      rewrite Hmid by lra. lra. }
    pose proof (level_below 2.35 u ltac:(lra) Hu1) as Hlev. fold lv in Hlev.
    rewrite !bool_decide_eq_false_2 by lra. reflexivity.
  - intros Hv. assert (Huv : u = v) by (apply Hmid; lra).
    pose proof (level_above 2.45 u ltac:(lra) ltac:(lra)) as Hlev.
    fold lv in Hlev.
    assert (Hle : (rnd (u - 84) <= 6)%R)
      by (apply (rnd_between 0 6); [cbn; lia..|lra]).
    assert (Hle2 : (lv <= 0.5)%R)
      by (subst lv; rewrite <- rnd_half; apply rnd_monotone; lra).
    rewrite bool_decide_eq_false_2 by lra.
    rewrite bool_decide_eq_true_2 by lra. reflexivity.
  - intros Hv.
    assert (Hu1 : (u <= 90)%R).
    { destruct (Rle_dec v 84) as [H84|H84]; [rewrite (Hlow H84); lra|].
      rewrite Hmid by lra. lra. }
    assert (Hle : (rnd (u - 84) <= 6)%R)
      by (apply (rnd_between 0 6); [cbn; lia..|lra]).
    assert (Hle2 : (lv <= 0.5)%R)
      by (subst lv; rewrite <- rnd_half; apply rnd_monotone; lra).
    rewrite bool_decide_eq_false_2 by lra.
    case_bool_decide; discriminate.
  - intros Hv.
    assert (Hu1 : (84 + 6.05 <= u)%R).
    { destruct (Rle_dec 96 v) as [H96|H96]; [rewrite (Hhigh H96); lra|].
      rewrite Hmid by lra. lra. }
    pose proof (level_above 6.05 u ltac:(lra) Hu1) as Hlev. fold lv in Hlev.
    rewrite bool_decide_eq_true_2 by lra. reflexivity.
  - intros s' Hle. rewrite update_battery_bar_eq.
    cbn [level fill_width].
    specialize (Hmono _ Hle).
    destruct (clamp_voltage (to_float (voltage (ctr_data s'))))
      as (Hu' & _).
    set (u' := float_max 84 (float_min 96 (to_float (voltage (ctr_data s')))))
      in *.
    destruct (level_monotone u u' ltac:(lra)) as (Hm1 & Hm2).
    fold lv in Hm1, Hm2. split; [exact Hm1|].
    apply int_of_float_monotone. lra.
Qed.

(** X14. After a disconnect the bar is empty: the display update of a
    disconnected session, when the display is not paused, resets the
    voltage to 0, so the battery bar drawn from the state it leaves has
    level 0, no filled rectangle, and the error colour, whatever the
    voltage was.  A paused display update leaves the state, and with it
    the bar. *)
Theorem battery_bar_after_disconnect (s : state) :
  is_connected s = false ->
  let bar := update_battery_bar rnd (update_display false s).2 in
  level bar = 0%R /\ fill_width bar = 0 /\ filled bar = false /\
  color bar = COLORS_error /\
  update_battery_bar rnd (update_display true s).2 = update_battery_bar rnd s.
Proof.
  intros Hoff bar.
  assert (Hv : to_float (voltage (ctr_data (update_display false s).2)) = 0%R).
  { unfold update_display, has_changes. rewrite Hoff. cbn.
    destruct (ctr_data s). reflexivity. }
  subst bar. rewrite update_battery_bar_eq. rewrite Hv.
  destruct (clamp_voltage 0) as (_ & Hlow & _).
  rewrite Hlow by lra. cbn [level fill_width color filled].
  pose proof (rnd_integer 0 ltac:(cbn; lia)) as R0.
  replace (84 - 84)%R with (IZR 0) by lra. rewrite R0.
  replace (IZR 0 / 12)%R with (IZR 0) by lra. rewrite R0.
  replace (180 * IZR 0)%R with (IZR 0) by lra. rewrite R0.
  rewrite (int_of_float_floor (IZR 0) 0) by lra.
  assert (Hfifth : (0 <= rnd 0.2)%R)
    by (rewrite <- R0; apply rnd_monotone; lra).
  rewrite !bool_decide_eq_false_2 by lra.
  now repeat split.
Qed.

End Battery.

Lemma battery_bar_contract_witness :
  Monitor.fill_width (Monitor.update_battery_bar (fun x => x) Frames.at_90_volts)
  <= 180 /\
  Monitor.color (Monitor.update_battery_bar (fun x => x) Frames.at_90_volts)
  = Monitor.COLORS_warning.
Proof.
  destruct (battery_bar_contract (fun x => x)) with (s := Frames.at_90_volts)
    as (_ & Hw & _ & _ & _ & _ & Hwarn & _).
  - intros x y H. exact H.
  - reflexivity.
  - reflexivity.
  - intros x Hx. replace (x - x)%R with 0%R by ring. rewrite Rabs_R0. lra.
  - split; [apply Hw|]. apply Hwarn. cbn. lra.
Defined.

Lemma battery_bar_after_disconnect_witness :
  Monitor.fill_width
    (Monitor.update_battery_bar (fun x => x)
       (Monitor.update_display false
          (Monitor.set_is_connected false Frames.at_90_volts)).2)
  = 0.
Proof.
  apply (battery_bar_after_disconnect (fun x => x)
           (fun x y H => H) (fun n _ => eq_refl) eq_refl
           (Monitor.set_is_connected false Frames.at_90_volts) eq_refl).
Defined.

(** ** The gauge animation *)

Section Gauge.

Import AnimatedGauge.

(** A gauge with no pending call stays as it is. *)
Lemma run_scheduled_resting (n : nat) (g : AnimatedGauge.t) :
  is_animating g = false -> run_scheduled n g = g.
Proof. intros H. destruct n; [reflexivity|]. cbn. now rewrite H. Qed.

(** One call of [animate] either finishes the animation at the target or
    multiplies the distance to the target by [1 - animation_speed]. *)
Lemma animate_step (g : AnimatedGauge.t) :
  let g' := animate g in
  target_value g' = target_value g /\
  max_value g' = max_value g /\
  animation_speed g' = animation_speed g /\
  (((0.5 < Rabs (value g - target_value g))%R /\
    is_animating g' = is_animating g /\
    (value g' - target_value g
     = (value g - target_value g) * (1 - animation_speed g))%R)
   \/
   ((Rabs (value g - target_value g) <= 0.5)%R /\
    is_animating g' = false /\
    value g' = target_value g)).
Proof.
  unfold animate. case_bool_decide as Hfar; cbn.
  - repeat split. left. repeat split; [exact Hfar|lra].
  - repeat split. right. repeat split. lra.
Qed.

(** When the distance to the target, multiplied [n] times by the
    contraction factor, is within the threshold of [animate], the
    animation has ended at the target after [n + 1] scheduled calls. *)
Lemma run_scheduled_settles (n : nat) (g : AnimatedGauge.t) :
  is_animating g = true ->
  (Rabs (value g - target_value g) * Rabs (1 - animation_speed g) ^ n
   <= 0.5)%R ->
  let g' := run_scheduled (S n) g in
  is_animating g' = false /\
  value g' = target_value g /\
  target_value g' = target_value g /\
  max_value g' = max_value g /\
  animation_speed g' = animation_speed g.
Proof.
  revert g. induction n as [|n IH]; intros g Hanim Hnear.
  - cbn [run_scheduled]. rewrite Hanim.
    destruct (animate_step g) as (Ht & Hm & Hs & [(Hfar & _)|(_ & Ha & Hv)]).
    + cbn [pow] in Hnear. lra.
    + now repeat split.
  - change (run_scheduled (S (S n)) g)
      with (if is_animating g then run_scheduled (S n) (animate g) else g).
    rewrite Hanim.
    destruct (animate_step g) as (Ht & Hm & Hs & [(Hfar & Ha & Hv)|(_ & Ha & Hv)]).
    + destruct (IH (animate g)) as (H1 & H2 & H3 & H4 & H5).
      * congruence.
      * rewrite Ht, Hs, Hv, Rabs_mult. cbn [pow] in Hnear. lra.
      * cbv zeta. rewrite H1, H2, H3, H4, H5. now repeat split.
    + rewrite run_scheduled_resting by exact Ha. now repeat split.
Qed.

(** Some number of contractions brings any distance within the
    threshold. *)
Lemma contraction_reaches (k d : R) :
  (Rabs k < 1)%R -> exists n : nat, (Rabs d * Rabs k ^ n <= 0.5)%R.
Proof.
  intros Hk.
  destruct (pow_lt_1_zero (Rabs k) ltac:(rewrite Rabs_Rabsolu; exact Hk)
              (0.5 / (Rabs d + 1))%R) as [N HN].
  { pose proof (Rabs_pos d). apply Rdiv_lt_0_compat; lra. }
  exists N. specialize (HN N (Nat.le_refl N)).
  pose proof (Rabs_pos d) as Hd.
  rewrite Rabs_right in HN by (apply Rle_ge, pow_le, Rabs_pos).
  assert (Hp : (0 <= Rabs k ^ N)%R) by (apply pow_le, Rabs_pos).
  assert (H1 : (Rabs k ^ N * (Rabs d + 1) < 0.5)%R).
  { apply (Rmult_lt_compat_r (Rabs d + 1)) in HN; [|lra].
    unfold Rdiv in HN. rewrite Rmult_assoc, Rinv_l in HN by lra. lra. }
  nra.
Qed.

(** Once no call is pending, further scheduled calls change nothing. *)
Lemma run_scheduled_stable (n m : nat) (g : AnimatedGauge.t) :
  (n <= m)%nat ->
  is_animating (run_scheduled n g) = false ->
  run_scheduled m g = run_scheduled n g.
Proof.
  revert m g. induction n as [|n IH]; intros m g Hle Hrest.
  - now apply run_scheduled_resting.
  - destruct m as [|m]; [lia|]. cbn [run_scheduled] in Hrest |- *.
    destruct (is_animating g); [|reflexivity].
    apply IH; [lia|exact Hrest].
Qed.

(** X15. The gauge animation ends.  With an animation speed strictly
    between 0 and 2 (the source uses 0.3), a gauge with a pending call of
    [animate] reaches its target after finitely many scheduled calls: from
    some number of calls on no call is pending, the displayed value is the
    target value, and the target has not moved. *)
Theorem gauge_animation_ends (g : AnimatedGauge.t) :
  (0 < animation_speed g < 2)%R ->
  is_animating g = true ->
  exists n : nat, forall m : nat, (n <= m)%nat ->
    let g' := run_scheduled m g in
    is_animating g' = false /\
    value g' = target_value g /\
    target_value g' = target_value g.
Proof.
  intros Hspeed Hanim.
  destruct (contraction_reaches (1 - animation_speed g)
              (value g - target_value g)) as [n Hn].
  { apply Rabs_def1; lra. }
  destruct (run_scheduled_settles n g Hanim Hn) as (H1 & H2 & H3 & _).
  exists (S n). intros m Hm. cbv zeta.
  rewrite (run_scheduled_stable (S n) m g Hm H1). now repeat split.
Qed.

Lemma gauge_animation_ends_witness :
  exists n : nat, forall m : nat, (n <= m)%nat ->
    value (run_scheduled m (Mk 0 100 0.3 50 true)) = 50%R.
Proof.
  destruct (gauge_animation_ends (Mk 0 100 0.3 50 true)) as [n Hn].
  - cbn. lra.
  - reflexivity.
  - exists n. intros m Hm. destruct (Hn m Hm) as (_ & Hv & _). exact Hv.
Defined.

(** X16. [set_value] on a gauge at rest.  The target becomes the smaller
    of the new value and the maximum.  When the target is within 1.0 of the
    displayed value nothing is animated, so the gauge keeps displaying the
    old value; otherwise the animation starts and the displayed value
    reaches the target after finitely many scheduled calls. *)
Theorem set_value_dead_band (g : AnimatedGauge.t) (v : R)
    (new_max : option R) :
  is_animating g = false ->
  (0 < animation_speed g < 2)%R ->
  let target := float_min v (default (max_value g) new_max) in
  let g0 := set_value g v new_max in
  target_value g0 = target /\
  max_value g0 = default (max_value g) new_max /\
  ((Rabs (value g - target) <= 1)%R ->
   value g0 = value g /\ is_animating g0 = false) /\
  ((1 < Rabs (value g - target))%R ->
   is_animating g0 = true /\
   exists n : nat, forall m : nat, (n <= m)%nat ->
     value (run_scheduled m g0) = target /\
     is_animating (run_scheduled m g0) = false).
Proof.
  intros Hrest Hspeed target g0. subst g0. unfold set_value. fold target.
  cbn [value max_value animation_speed target_value is_animating].
  rewrite Hrest. cbn [negb].
  case_bool_decide as Hfar.
  - set (g1 := {| value := value g;
                  max_value := default (max_value g) new_max;
                  animation_speed := animation_speed g;
                  target_value := target;
                  is_animating := true |}).
    destruct (animate_step g1)
      as (Ht & Hm & Hs & [(_ & Ha & _)|(Hnear & _)]);
      [|cbn in Hnear; lra].
    cbn in Ht, Hm, Hs, Ha.
    split; [exact Ht|]. split; [exact Hm|].
    split; [intros Hnear; lra|]. intros _. split; [exact Ha|].
    destruct (contraction_reaches (1 - animation_speed (animate g1))
                (value (animate g1) - target_value (animate g1)))
      as [n Hn].
    { rewrite Hs. apply Rabs_def1; lra. }
    destruct (run_scheduled_settles n (animate g1) Ha Hn)
      as (H1 & H2 & _).
    exists (S n). intros m Hle.
    rewrite (run_scheduled_stable (S n) m _ Hle H1).
    split; [congruence|exact H1].
  - cbn. split; [reflexivity|]. split; [reflexivity|].
    split; [intros _; now split|]. intros Hfar'. lra.
Qed.

Lemma set_value_dead_band_witness :
  value (set_value init 1 None) = 0%R /\
  target_value (set_value init 1 None) = 1%R.
Proof.
  destruct (set_value_dead_band init 1 None eq_refl) as (Ht & _ & Hnear & _).
  - cbn. lra.
  - split.
    + apply Hnear. unfold float_min. cbn.
      rewrite bool_decide_eq_false_2 by lra.
      rewrite Rminus_0_l, Rabs_Ropp, Rabs_right; lra.
    + rewrite Ht. unfold float_min. cbn.
      now rewrite bool_decide_eq_false_2 by lra.
Defined.

End Gauge.

(** ** The terminal filter *)

Section Terminal.

Import Monitor.

Variable lower : string -> string.

(** X17. The terminal filter decides by level first.  For a message logged
    at one of the levels INFO, WARNING, ERROR, SUCCESS and DATA, the only
    levels the program logs at, the message is shown exactly when it
    announces a filter update or the filter of its level is on: the three
    content filters (connection, recording, performance) never change the
    outcome. *)
Theorem content_filters_never_decide (filters : terminal_filters)
    (level message : string) (connection recording performance : bool) :
  level ∈ ["INFO"; "WARNING"; "ERROR"; "SUCCESS"; "DATA"]%string ->
  let level_filter :=
    if String.eqb level "INFO" then show_info filters
    else if String.eqb level "WARNING" then show_warning filters
    else if String.eqb level "ERROR" then show_error filters
    else if String.eqb level "SUCCESS" then show_success filters
    else show_data filters in
  should_show_message lower filters level message
  = str_contains "Terminal filters updated" message || level_filter /\
  should_show_message lower
    {| show_info := show_info filters;
       show_warning := show_warning filters;
       show_error := show_error filters;
       show_success := show_success filters;
       show_data := show_data filters;
       show_connection := connection;
       show_recording := recording;
       show_performance := performance |}
    level message
  = should_show_message lower filters level message.
Proof.
  intros Hlevel. unfold should_show_message.
  destruct (str_contains "Terminal filters updated" message);
    [now split|].
  repeat (apply elem_of_cons in Hlevel as [->|Hlevel]; [now split|]).
  now apply elem_of_nil in Hlevel.
Qed.

End Terminal.

Lemma content_filters_never_decide_witness :
  Monitor.should_show_message (fun m => m)
    (Monitor.MkTerminalFilters false true true true true true true true)
    "INFO" "Connected to device"
  = false.
Proof.
  destruct (content_filters_never_decide (fun m => m)
              (Monitor.MkTerminalFilters false true true true true true true true)
              "INFO" "Connected to device" true true true) as [H _].
  - compute_done.
  - exact H.
Defined.

(** ** The Sabvoton packet parser *)

Section Sabvoton.

Import SvmcParser.

(** A byte is determined by its value. *)
Lemma byte_val_inj (a b : byte) : byte_val a = byte_val b -> a = b.
Proof.
  unfold byte_val. intros H. apply N2Z.inj in H.
  pose proof (Byte.of_to_N a) as Ha. pose proof (Byte.of_to_N b) as Hb.
  rewrite H in Ha. congruence.
Qed.

(** The big-endian word of four bytes is the expected identifier only for
    the bytes [18 F8 80 06]. *)
Lemma be32_expected (b0 b1 b2 b3 : byte) :
  be32 (byte_val b0) (byte_val b1) (byte_val b2) (byte_val b3) = EXPECTED_ID
  <-> b0 = x18 /\ b1 = xf8 /\ b2 = x80 /\ b3 = x06.
Proof.
  pose proof (byte_val_range b0). pose proof (byte_val_range b1).
  pose proof (byte_val_range b2). pose proof (byte_val_range b3).
  unfold be32, EXPECTED_ID. split.
  - intros Heq.
    assert (byte_val b0 = byte_val x18 /\ byte_val b1 = byte_val xf8 /\
            byte_val b2 = byte_val x80 /\ byte_val b3 = byte_val x06)
      as (E0 & E1 & E2 & E3)
      by (change (byte_val x18) with 24; change (byte_val xf8) with 248;
          change (byte_val x80) with 128; change (byte_val x06) with 6; lia).
    repeat split; now apply byte_val_inj.
  - intros (-> & -> & -> & ->). reflexivity.
Qed.

(** X18. [parse_sabvoton_packet].  The call raises [struct.error] exactly
    when the packet is not 12 bytes long.  A 12-byte packet is decoded
    exactly when it starts with the bytes [18 F8 80 06]; otherwise the
    result is [None].  The four decoded fields are the little-endian
    16-bit words of the payload, between 0 and 65535, and the scaled
    voltage is the fourth word divided by 1.68, or the integer 0 when that
    word is 0. *)
Theorem sabvoton_packet_contract (packet_bytes : list byte) :
  (parse_sabvoton_packet packet_bytes = StructError
   <-> length packet_bytes <> PACKET_LENGTH) /\
  ((exists d, parse_sabvoton_packet packet_bytes = Decoded d)
   <-> length packet_bytes = PACKET_LENGTH /\
       take 4 packet_bytes = [x18; xf8; x80; x06]) /\
  forall d, parse_sabvoton_packet packet_bytes = Decoded d ->
    exists p0 p1 p2 p3 p4 p5 p6 p7,
      drop 4 packet_bytes = [p0; p1; p2; p3; p4; p5; p6; p7] /\
      rpm d = byte_val p0 + 256 * byte_val p1 /\
      throttle_current d = byte_val p2 + 256 * byte_val p3 /\
      odometer d = byte_val p4 + 256 * byte_val p5 /\
      voltage_raw d = byte_val p6 + 256 * byte_val p7 /\
      0 <= rpm d <= 65535 /\
      0 <= throttle_current d <= 65535 /\
      0 <= odometer d <= 65535 /\
      0 <= voltage_raw d <= 65535 /\
      voltage_scaled d
      = (if decide (voltage_raw d = 0) then PInt 0
         else PFloat (IZR (voltage_raw d) / 1.68)).
Proof.
  unfold PACKET_LENGTH.
  destruct packet_bytes as
    [|b0 [|b1 [|b2 [|b3 [|p0 [|p1 [|p2 [|p3 [|p4 [|p5 [|p6 [|p7 [|x l]]]]]]]]]]]]];
    try (split; [split; [intros _; cbn; lia|reflexivity]|];
         split; [split; [intros [d Hd]; discriminate Hd
                        |intros [Hl _]; cbn in Hl; lia]
                |intros d Hd; discriminate Hd]).
  unfold parse_sabvoton_packet. cbn [fmap list_fmap].
  pose proof (be32_expected b0 b1 b2 b3) as Hid.
  case_bool_decide as Hcmp.
  - split; [split; [discriminate|intros Hl; cbn in Hl; lia]|].
    split; [|intros d Hd; discriminate Hd].
    split; [intros [d Hd]; discriminate Hd|].
    intros [_ Htake]. cbn in Htake. exfalso. apply Hcmp. apply Hid.
    now injection Htake as -> -> -> ->.
  - apply Hid in Hcmp as (-> & -> & -> & ->).
    split; [split; [discriminate|intros Hl; cbn in Hl; lia]|].
    split; [split; [intros _; now split|intros _; eexists; reflexivity]|].
    intros d [= <-]. exists p0, p1, p2, p3, p4, p5, p6, p7.
    cbn [drop rpm throttle_current odometer voltage_raw voltage_scaled].
    unfold le16.
    pose proof (byte_val_range p0). pose proof (byte_val_range p1).
    pose proof (byte_val_range p2). pose proof (byte_val_range p3).
    pose proof (byte_val_range p4). pose proof (byte_val_range p5).
    pose proof (byte_val_range p6). pose proof (byte_val_range p7).
    split; [reflexivity|]. repeat (split; [lia|]).
    destruct (decide (byte_val p6 + byte_val p7 * 2 ^ 8 = 0)) as [E|E].
    + rewrite (proj2 (Z.ltb_ge 0 _)) by lia. reflexivity.
    + rewrite (proj2 (Z.ltb_lt 0 _)) by lia. reflexivity.
Qed.

End Sabvoton.

(** ** The inspector over runs of frames *)

Section InspectorRuns.

Import PacketInspector.

(** X19. The statistics of an inspector that started empty, after any run
    of frames.  Rejected frames are never stored, so every stored packet is
    a valid one: [valid_packets] always equals [total_packets], which
    counts only the accepted frames still in the history and never exceeds
    1000.  The checksum errors are at most the total, so the error rate is
    a fraction between 0 and 1.  The statistics are empty exactly when no
    frame of the run was accepted. *)
Theorem statistics_after_run (frames : list (list byte * string)) :
  exists infos self',
    analyze_all init frames = Some (infos, self') /\
    Forall (fun p => valid p = true) (packet_history self') /\
    (get_packet_statistics self' = None
     <-> Forall (fun frame =>
                   ~ ((16 <= length frame.1)%nat /\
                      frame.1 !! 0%nat = Some xaa)) frames) /\
    forall stats, get_packet_statistics self' = Some stats ->
      valid_packets stats = total_packets stats /\
      0 < total_packets stats <= 1000 /\
      0 <= checksum_errors stats <= total_packets stats /\
      exists rate, error_rate stats = PFloat rate /\ (0 <= rate <= 1)%R.
Proof.
  destruct (analyze_all_history frames init ltac:(cbn; lia))
    as (infos & self' & Hall & Hlen & Hf2 & Hmax & Hb & Hh).
  cbv zeta in Hh. cbn [init packet_history max_history app] in Hh, Hmax.
  exists infos, self'. split; [exact Hall|].
  assert (Hvalid : Forall (fun p => valid p = true) (packet_history self')).
  { rewrite Hh. apply Forall_drop. apply Forall_forall.
    intros p Hp. now apply list_elem_of_filter in Hp as [Hp _]. }
  split; [exact Hvalid|]. split.
  - assert (Hnone : get_packet_statistics self' = None
                    <-> packet_history self' = []).
    { unfold get_packet_statistics.
      destruct (packet_history self') as [|p h]; [easy|].
      destruct (foldl statistics_step (∅, 0) (p :: h)). easy. }
    rewrite Hnone, Hh.
    assert (Hdrop : forall l : list packet_info,
              drop (length l - 1000) l = [] <-> l = []).
    { intros l. split; [|now intros ->].
      intros Hd. apply (f_equal length) in Hd. rewrite length_drop in Hd.
      cbn in Hd. destruct l; [reflexivity|cbn in Hd; lia]. }
    rewrite Hdrop. clear -Hf2.
    induction Hf2 as [|info frame infos frames Hiff _ IH].
    + split; [constructor|reflexivity].
    + destruct (valid info) eqn:Hv.
      * rewrite filter_cons_True by exact Hv. split; [discriminate|].
        intros Hno. apply Forall_cons in Hno as [Hno _].
        exfalso. apply Hno. now apply Hiff.
      * rewrite filter_cons_False by (rewrite Hv; discriminate).
        rewrite IH. split.
        -- intros Hrest. constructor; [|exact Hrest].
           intros Hacc. apply Hiff in Hacc. congruence.
        -- intros Hno. now apply Forall_cons in Hno as [_ Hno].
  - intros stats Hstats. unfold get_packet_statistics in Hstats.
    destruct (packet_history self') as [|p h] eqn:E; [discriminate|].
    rewrite <- E in *.
    destruct (statistics_loop (packet_history self') ∅ 0) as [He _].
    destruct (foldl statistics_step (∅, 0) (packet_history self'))
      as [counts errors].
    cbn [snd] in He. injection Hstats as <-.
    cbn [valid_packets total_packets checksum_errors error_rate].
    rewrite filter_all by exact Hvalid.
    assert (Hpos : (0 < length (packet_history self'))%nat)
      by (rewrite E; cbn; lia).
    pose proof (length_filter (fun p => checksum_error p = true)
                  (packet_history self')) as Hfl.
    split; [reflexivity|]. split; [lia|]. split; [lia|].
    rewrite (proj2 (Z.ltb_lt 0 _)) by lia.
    eexists. split; [reflexivity|].
    assert (H0 : (0 <= IZR errors)%R) by (apply IZR_le; lia).
    assert (H1 : (IZR errors
                  <= IZR (Z.of_nat (length (packet_history self'))))%R)
      by (apply IZR_le; lia).
    assert (H2 : (0 < IZR (Z.of_nat (length (packet_history self'))))%R)
      by (apply IZR_lt; lia).
    split.
    + apply Rmult_le_reg_r with (IZR (Z.of_nat (length (packet_history self'))));
        [exact H2|].
      unfold Rdiv. rewrite Rmult_assoc, Rinv_l by lra. lra.
    + apply Rmult_le_reg_r with (IZR (Z.of_nat (length (packet_history self'))));
        [exact H2|].
      unfold Rdiv. rewrite Rmult_assoc, Rinv_l by lra. lra.
Qed.

(** X20. [get_recent_packets] with a count that is not positive.  The
    slice [history[-count:]] then starts from the front: a count of 0
    returns the whole history, not an empty list, and a count of [-k]
    returns the history without its [k] oldest packets. *)
Theorem recent_packets_without_positive_count (self : PacketInspector.t)
    (count : Z) :
  count <= 0 ->
  get_recent_packets self count
  = drop (Z.to_nat (- count)) (packet_history self) /\
  (count = 0 -> get_recent_packets self count = packet_history self) /\
  length (get_recent_packets self count)
  = (length (packet_history self) - Z.to_nat (- count))%nat.
Proof.
  intros Hc.
  assert (Heq : get_recent_packets self count
                = drop (Z.to_nat (- count)) (packet_history self)).
  { unfold get_recent_packets, slice_from.
    destruct (packet_history self) as [|p h] eqn:E;
      [now rewrite drop_nil|].
    rewrite (proj2 (Z.ltb_ge (- count) 0)) by lia.
    destruct (Z.le_gt_cases (- count) (Z.of_nat (length (p :: h))))
      as [Hin|Hout].
    - now rewrite Z.min_l by lia.
    - rewrite Z.min_r by lia. rewrite Nat2Z.id.
      rewrite drop_all. symmetry. apply drop_ge. lia. }
  split; [exact Heq|]. split.
  - intros ->. now rewrite Heq.
  - now rewrite Heq, length_drop.
Qed.

Lemma recent_packets_without_positive_count_witness :
  get_recent_packets
    {| packet_history :=
         [Invalid (InvalidPacketLength 1) "AA";
          Invalid (InvalidPacketLength 2) "AA 00"];
       max_history := 1000;
       current_packet := None |} 0
  = [Invalid (InvalidPacketLength 1) "AA";
     Invalid (InvalidPacketLength 2) "AA 00"].
Proof.
  apply (recent_packets_without_positive_count
           {| packet_history :=
                [Invalid (InvalidPacketLength 1) "AA";
                 Invalid (InvalidPacketLength 2) "AA 00"];
              max_history := 1000;
              current_packet := None |} 0);
    [lia|reflexivity].
Defined.

End InspectorRuns.

(** ** Reconnecting *)

Section Reconnect.

Import ControllerData Monitor.

(** X21. A stale tracked voltage keeps the power at zero.  The display
    update of a disconnected session, when the display is not paused,
    zeroes the voltage attribute but not the tracked voltage.  If the first voltage frame after that repeats the
    tracked voltage, the attribute stays 0, and the main-data frame that
    follows computes its power from a voltage of 0: the session is
    connected again, yet voltage and power both read 0, whatever the
    currents in the frame. *)
Theorem stale_voltage_gives_zero_power (s : state)
    (vframe mframe : list byte) (held : pyval) (b2 b3 : byte)
    (t0 t1 t2 t3 : R) (stamp1 stamp2 : string) :
  is_connected s = false ->
  _last_values (ctr_data s) !! "voltage"%string = Some held ->
  (16 <= length vframe)%nat ->
  vframe !! 0%nat = Some xaa ->
  vframe !! 1%nat = Some x01 ->
  vframe !! 2%nat = Some b2 ->
  vframe !! 3%nat = Some b3 ->
  to_float held = (IZR (byte_val b2 * 256 + byte_val b3) / 10)%R ->
  (16 <= length mframe)%nat ->
  mframe !! 0%nat = Some xaa ->
  mframe !! 1%nat = Some x00 ->
  exists s1 s2,
    message_handler (update_display false s).2 vframe t0 t1 stamp1 = Some s1 /\
    message_handler s1 mframe t2 t3 stamp2 = Some s2 /\
    is_connected s2 = true /\
    voltage (ctr_data s1) = PInt 0 /\
    voltage (ctr_data s2) = PInt 0 /\
    to_float (power (ctr_data s2)) = 0%R.
Proof.
  intros Hdis Hheld Hvlen Hv0 Hv1 Hv2 Hv3 Hsame Hmlen Hm0 Hm1.
  set (s0 := (update_display false s).2).
  assert (Hs0 : ctr_data s0 = reset_data (has_changes (ctr_data s)).2).
  { subst s0. unfold update_display. cbv iota.
    destruct (has_changes (ctr_data s)) as [changed c] eqn:E.
    rewrite Hdis. reflexivity. }
  destruct (has_changes_frame (ctr_data s)) as (_ & _ & Flv & _).
  destruct (reset_data_frame (has_changes (ctr_data s)).2)
    as (Rlv & _ & _ & Rga).
  assert (Hlv0 : _last_values (ctr_data s0) = _last_values (ctr_data s))
    by (rewrite Hs0, Rlv; exact Flv).
  assert (Hvolt0 : voltage (ctr_data s0) = PInt 0).
  { pose proof (Rga "voltage"%string ltac:(compute_done)) as H.
    rewrite <- Hs0 in H. now injection H. }
  assert (Hpow0 : power (ctr_data s0) = PInt 0).
  { pose proof (Rga "power"%string ltac:(compute_done)) as H.
    rewrite <- Hs0 in H. now injection H. }
  (* the voltage frame *)
  destruct (message_handler_accepts s0 vframe t0 t1 stamp1 x01
              Hvlen Hv0 Hv1) as (p1 & _ & Hmh1).
  unfold process_packet in Hmh1.
  change (byte_val x01 =? 0) with false in Hmh1.
  change (byte_val x01 =? 1) with true in Hmh1. cbv iota in Hmh1.
  rewrite (idx_Some _ _ _ Hv2), (idx_Some _ _ _ Hv3) in Hmh1.
  cbn [mbind option_bind] in Hmh1. rewrite word_bytes in Hmh1.
  destruct (bookkeeping_frame (ctr_data s0) t1 t0 ((t1 - t0) * 1000)%R)
    as (Bga & Bvolt & Blv & _).
  set (c0 := update_performance_metrics (set_last_update t1 (ctr_data s0))
               t0 ((t1 - t0) * 1000)%R) in *.
  assert (Htr : tracked c0 "voltage"
                  (PFloat (IZR (byte_val b2 * 256 + byte_val b3) / 10))).
  { apply tracked_lookup. exists held.
    rewrite Blv, Hlv0. split; [exact Hheld|].
    apply ne_false_iff. exact Hsame. }
  rewrite update_value_same in Hmh1 by exact Htr.
  match type of Hmh1 with _ = Some ?st => set (s1 := st) in * end.
  assert (Hvolt1 : voltage (ctr_data s1) = PInt 0)
    by (subst s1; cbn [ctr_data]; congruence).
  assert (Hpow1 : power (ctr_data s1) = PInt 0).
  { subst s1. cbn [ctr_data].
    pose proof (Bga "power"%string) as H. cbn in H. injection H as H.
    congruence. }
  clearbody s1.
  (* the main-data frame *)
  destruct (lookup_lt_is_Some_2 mframe 2 ltac:(lia)) as [m2 M2].
  destruct (lookup_lt_is_Some_2 mframe 4 ltac:(lia)) as [m4 M4].
  destruct (lookup_lt_is_Some_2 mframe 5 ltac:(lia)) as [m5 M5].
  destruct (lookup_lt_is_Some_2 mframe 8 ltac:(lia)) as [m8 M8].
  destruct (lookup_lt_is_Some_2 mframe 9 ltac:(lia)) as [m9 M9].
  destruct (lookup_lt_is_Some_2 mframe 10 ltac:(lia)) as [m10 M10].
  destruct (lookup_lt_is_Some_2 mframe 11 ltac:(lia)) as [m11 M11].
  destruct (message_handler_main s1 mframe t2 t3 stamp2
              m2 m4 m5 m8 m9 m10 m11 Hmlen Hm0 Hm1 M2 M4 M5 M8 M9 M10 M11)
    as (s2 & Hmh2 & Hcon2 & Hc2).
  cbv zeta in Hc2. rewrite Hvolt1 in Hc2.
  destruct (bookkeeping_frame (ctr_data s1) t3 t2 ((t3 - t2) * 1000)%R)
    as (Cga & Cvolt & _).
  set (c1 := update_performance_metrics (set_last_update t3 (ctr_data s1))
               t2 ((t3 - t2) * 1000)%R) in *.
  match type of Hc2 with
  | _ = foldl _ _ [(_, ?r); (_, ?g); (_, PFloat ?pw); (_, ?sp)] =>
      set (pw_ := pw) in *;
      destruct (main_keys r g (PFloat pw_) sp) as (Hnd & Htel);
      destruct (updates_spec t3 stamp2 (auto_save s1) _ Hnd c1)
        as (_ & Hb & Hc & _)
  end.
  cbv zeta in Hb, Hc. rewrite <- Hc2 in Hb, Hc.
  assert (Hpw : pw_ = 0%R).
  { subst pw_. cbn [to_float]. case_bool_decide; lra. }
  exists s1, s2. split; [exact Hmh1|]. split; [exact Hmh2|].
  split; [exact Hcon2|]. split; [exact Hvolt1|]. split.
  - destruct (Hc "voltage"%string ltac:(cbn [fmap list_fmap fst]; compute_done))
      as [Hg _].
    assert (Hg' : Some (voltage (ctr_data s2)) = Some (voltage c1))
      by exact Hg.
    injection Hg' as ->. congruence.
  - destruct (Hb ("power"%string, PFloat pw_)
                ltac:(do 2 apply list_elem_of_further; apply list_elem_of_here)
                ltac:(compute_done))
      as [[_ Hg]|[_ Hg]]; cbn [fst snd] in Hg.
    + assert (Hg' : Some (power (ctr_data s2)) = Some (PFloat pw_))
        by exact Hg.
      injection Hg' as ->. exact Hpw.
    + rewrite Cga in Hg.
      assert (Hg' : Some (power (ctr_data s2)) = Some (power (ctr_data s1)))
        by exact Hg.
      injection Hg' as ->. rewrite Hpow1. reflexivity.
Qed.

Lemma stale_voltage_gives_zero_power_witness :
  exists s1 s2,
    message_handler
      (update_display false
         (MkState (ctr_data Frames.at_90_volts) PacketInspector.init
            false true)).2
      Frames.voltage_frame 1 2 "t1" = Some s1 /\
    message_handler s1 Frames.main_frame 3 4 "t2" = Some s2 /\
    voltage (ctr_data s2) = PInt 0 /\
    to_float (power (ctr_data s2)) = 0%R.
Proof.
  destruct (stale_voltage_gives_zero_power
              (MkState (ctr_data Frames.at_90_volts) PacketInspector.init
                 false true)
              Frames.voltage_frame Frames.main_frame (PFloat 90) x03 x84
              1 2 3 4 "t1" "t2" eq_refl eq_refl
              ltac:(simpl; lia) eq_refl eq_refl eq_refl eq_refl
              ltac:(change (byte_val x03 * 256 + byte_val x84) with 900;
                    cbn [to_float]; lra)
              ltac:(simpl; lia) eq_refl eq_refl)
    as (s1 & s2 & H1 & H2 & _ & _ & H3 & H4).
  exists s1, s2. split; [exact H1|]. split; [exact H2|].
  split; [exact H3|exact H4].
Defined.

End Reconnect.

(** ** A recording that does not start *)

Section FailedStart.

Import ControllerData Monitor.

(** X22. A start that fails records nothing.  With auto-save on, when the
    file cannot be opened or its header cannot be written,
    [start_recording] returns [False] and leaves the recorder off with the
    samples it had; over any run of frames that follows no sample is added.
    After a failed header write the file object stays in [csv_file]: the
    file is left open although no recording runs. *)
Theorem failed_start_records_nothing (s : state) (start : R)
    (fs : file_event) (frames : list (list byte * (R * R) * string)) :
  recording (ctr_data s) = false ->
  auto_save s = true ->
  fs = OpenFails \/ fs = HeaderFails ->
  exists c1 s',
    start_recording (ctr_data s) start (auto_save s) fs = Some (false, c1) /\
    recording c1 = false /\
    recording_start_time c1 = recording_start_time (ctr_data s) /\
    (fs = OpenFails -> c1 = ctr_data s) /\
    (fs = HeaderFails -> csv_file c1 = Some []) /\
    handle_all (set_ctr_data c1 s) frames = Some s' /\
    recording (ctr_data s') = false /\
    recorded_data (ctr_data s') = recorded_data (ctr_data s).
Proof.
  intros Hoff Hon Hfs.
  assert (Hstart : exists c1,
            start_recording (ctr_data s) start (auto_save s) fs
            = Some (false, c1) /\
            recording c1 = false /\
            recording_start_time c1 = recording_start_time (ctr_data s) /\
            recorded_data c1 = recorded_data (ctr_data s) /\
            (fs = OpenFails -> c1 = ctr_data s) /\
            (fs = HeaderFails -> csv_file c1 = Some [])).
  { unfold start_recording. rewrite Hoff, Hon. cbn [negb].
    destruct Hfs as [-> | ->]; eexists; (split; [reflexivity|]).
    - now repeat split.
    - destruct (ctr_data s). cbn in *. now repeat split. }
  destruct Hstart as (c1 & Hc1 & Hrec1 & Hst1 & Hdata1 & Hopen & Hheader).
  destruct (handle_all_recording frames (set_ctr_data c1 s))
    as (s' & new & Hs' & _ & Hrec & _ & Hr & _ & Hnone & _).
  cbn [set_ctr_data ctr_data] in Hrec, Hr, Hnone.
  rewrite (Hnone Hrec1), app_nil_r in Hr.
  exists c1, s'. split; [exact Hc1|]. split; [exact Hrec1|].
  split; [exact Hst1|]. split; [exact Hopen|]. split; [exact Hheader|].
  split; [exact Hs'|]. split; congruence.
Qed.

Lemma failed_start_records_nothing_witness :
  exists c1 s',
    start_recording (ControllerData.init 0) 7 true HeaderFails
    = Some (false, c1) /\
    csv_file c1 = Some [] /\
    handle_all (set_ctr_data c1 (Monitor.init 0))
      [(Frames.main_frame, (8, 9)%R, "t1")]%string
    = Some s' /\
    recorded_data (ctr_data s') = [].
Proof.
  destruct (failed_start_records_nothing (Monitor.init 0) 7 HeaderFails
              [(Frames.main_frame, (8, 9)%R, "t1")]%string
              eq_refl eq_refl (or_intror eq_refl))
    as (c1 & s' & H1 & _ & _ & _ & H2 & H3 & _ & H4).
  exists c1, s'. split; [exact H1|]. split; [exact (H2 eq_refl)|].
  split; [exact H3|exact H4].
Defined.

End FailedStart.
